(** * RHUI: the user-interface broadcast layer of the race timer

    A shallow embedding of [src/server/RHUI.py].  The class [RHUI] keeps three
    registries (pilot attributes, UI panels, general settings) and offers one
    [emit_<topic>] method per wire topic.  Every method reads the race
    context, builds a dictionary payload and hands it to the socket layer;
    a few of them also trigger an event or run an external program.

    The embedding keeps the effects explicit: a method is a computation that
    yields the chronological list of the calls it made to its collaborators
    (socket sends, event triggers, log records, subprocess runs) together with
    either its return value or the exception that escaped it. *)

From Stdlib Require Import List String Ascii ZArith Bool Lia.
From Stdlib Require Import Sorted Permutation DecimalString.
From Stdlib Require DecimalPos DecimalZ.
Import ListNotations.

Open Scope string_scope.
Open Scope list_scope.
Open Scope Z_scope.

Set Warnings "-register-all".

(** ** Python's [list.sort(key=...)]

    [list.sort] is a stable sort that compares keys with [<] only.  On a total
    preorder a stable sort has one possible result, so the built-in is
    modelled by the stable insertion sort below: an element goes in front of
    the first element whose key is not smaller than its own. *)

Section StableSort.

Variables (A K : Type).
Variable key : A -> K.
Variable leb : K -> K -> bool.

Definition key_le (x y : A) : Prop := leb (key x) (key y) = true.

(** Two keys are tied when neither is smaller than the other. *)
Definition tied (a b : K) : bool := leb a b && leb b a.

Fixpoint insert (x : A) (l : list A) : list A :=
  match l with
  | [] => [x]
  | h :: t => if leb (key x) (key h) then x :: h :: t else h :: insert x t
  end.

Fixpoint sort (l : list A) : list A :=
  match l with
  | [] => []
  | x :: t => insert x (sort t)
  end.

End StableSort.

Arguments insert {A K} key leb x l.
Arguments sort {A K} key leb l.
Arguments key_le {A K} key leb x y.
Arguments tied {K} leb a b.

(** ** Python values

    Payloads are dictionaries of JSON-serialisable values. *)

Inductive value : Type :=
| VNone
| VBool (b : bool)
| VInt (z : Z)
| VStr (s : string)
| VList (l : list value)
| VDict (d : list (string * value)).

(** A [dict] keeps its keys in insertion order; assigning to a key that is
    already there replaces the value in place. *)
Definition dict : Type := list (string * value).

Fixpoint dict_get (k : string) (d : dict) : option value :=
  match d with
  | [] => None
  | (k', v) :: t => if String.eqb k k' then Some v else dict_get k t
  end.

Fixpoint dict_set (k : string) (v : value) (d : dict) : dict :=
  match d with
  | [] => [(k, v)]
  | (k', v') :: t =>
      if String.eqb k k' then (k, v) :: t else (k', v') :: dict_set k v t
  end.

(** [k in params] for the keyword arguments of a call. *)
Definition has_key (k : string) (params : dict) : bool :=
  match dict_get k params with Some _ => true | None => false end.

(** [str(n)] for an integer. *)
Definition str (z : Z) : string := NilZero.string_of_int (Z.to_int z).

(** [sep.join(l)] *)
Definition join (sep : string) (l : list string) : string :=
  String.concat sep l.

(** [s.rstrip()]: trailing white space is removed.  A text is kept as its
    UTF-8 bytes, so the white space characters of [str.isspace] are the ASCII
    ones (codes 9 to 13 and 28 to 32) and the byte sequences of U+0085,
    U+00A0, U+1680, U+2000 to U+200A, U+2028, U+2029, U+202F, U+205F and
    U+3000. *)
Definition isspace (c : ascii) : bool :=
  let n := N_of_ascii c in
  ((9 <=? n) && (n <=? 13) || (28 <=? n) && (n <=? 32))%N.

(** The two-byte white space characters: U+0085 and U+00A0. *)
Definition isspace2 (c1 c2 : ascii) : bool :=
  let b1 := N_of_ascii c1 in
  let b2 := N_of_ascii c2 in
  ((b1 =? 194) && ((b2 =? 133) || (b2 =? 160)))%N.

(** The three-byte white space characters: U+1680, U+2000 to U+200A, U+2028,
    U+2029, U+202F, U+205F and U+3000. *)
Definition isspace3 (c1 c2 c3 : ascii) : bool :=
  let b1 := N_of_ascii c1 in
  let b2 := N_of_ascii c2 in
  let b3 := N_of_ascii c3 in
  ((b1 =? 225) && (b2 =? 154) && (b3 =? 128)
   || (b1 =? 226) && (b2 =? 128)
      && ((128 <=? b3) && (b3 <=? 138)
          || (b3 =? 168) || (b3 =? 169) || (b3 =? 175))
   || (b1 =? 226) && (b2 =? 129) && (b3 =? 159)
   || (b1 =? 227) && (b2 =? 128) && (b3 =? 128))%N.

(** The bytes of a text, last byte first, without the white space
    characters at their beginning. *)
Fixpoint strip_reversed (l : list ascii) : list ascii :=
  match l with
  | [] => []
  | c3 :: t1 =>
      if isspace c3 then strip_reversed t1
      else
        match t1 with
        | [] => l
        | c2 :: t2 =>
            if isspace2 c2 c3 then strip_reversed t2
            else
              match t2 with
              | [] => l
              | c1 :: t3 =>
                  if isspace3 c1 c2 c3 then strip_reversed t3 else l
              end
        end
  end.

Definition rstrip (s : string) : string :=
  string_of_list_ascii
    (rev (strip_reversed (rev (list_ascii_of_string s)))).

(** [l[i]] with Python's negative indices; out of range raises. *)
Definition getitem {A : Type} (l : list A) (i : Z) : option A :=
  let n := Z.of_nat (List.length l) in
  if (0 <=? i) && (i <? n) then nth_error l (Z.to_nat i)
  else if (- n <=? i) && (i <? 0) then nth_error l (Z.to_nat (n + i))
  else None.

(** [list(OrderedDict.fromkeys(l))]: every element becomes a key, in the
    order in which it is first met. *)
Definition fromkeys (l : list Z) : list Z :=
  fold_left (fun keys x => if existsb (Z.eqb x) keys then keys else keys ++ [x])
            l [].

(** ** Exceptions, collaborator calls and computations *)

Inductive exn : Type :=
| AttributeError (msg : string)
| TypeError (msg : string)
| IndexError (msg : string)
| JSONDecodeError (msg : string)
| CalledProcessError (returncode : Z)
| FileNotFoundError (msg : string)
| TimeoutExpired (cmd : string)
| UnicodeDecodeError (msg : string)
| RuntimeError (msg : string).

(** The event kinds of [eventmanager.Evt] that this file triggers. *)
Module Evt.
Inductive t : Type := MESSAGE_INTERRUPT | MESSAGE_STANDARD | RACE_FIRST_PASS.
End Evt.

(** Where a socket message goes.
    - [Caller]: [flask_socketio.emit(topic, payload)], the reply to the client
      whose request is being served;
    - [Room sid]: [emit(topic, payload, namespace='/', room=sid)];
    - [AllExceptCaller]: [emit(..., broadcast=True, include_self=False)];
    - [All]: [self._socket.emit(topic, payload)]. *)
Inductive dest : Type :=
| Caller
| Room (sid : string)
| AllExceptCaller
| All.

Inductive call : Type :=
| SocketEmit (topic : string) (payload : value) (to : dest)
| EventTrigger (evt : Evt.t) (data : value)
| LoggerException (msg : string) (e : exn)
| CheckOutput (cmd : string).

(** A computation: the calls made so far, in order, and the outcome. *)
Definition M (A : Type) : Type := (list call * (exn + A))%type.

Definition ret {A : Type} (a : A) : M A := ([], inr a).

Definition raise {A : Type} (e : exn) : M A := ([], inl e).

Definition bind {A B : Type} (m : M A) (f : A -> M B) : M B :=
  match m with
  | (t, inl e) => (t, inl e)
  | (t, inr a) => let '(t', r) := f a in (t ++ t', r)
  end.

(** [try: m except Exception as e: h e] *)
Definition try_except {A : Type} (m : M A) (h : exn -> M A) : M A :=
  match m with
  | (t, inl e) => let '(t', r) := h e in (t ++ t', r)
  | (t, inr a) => (t, inr a)
  end.

Definition do_call (c : call) : M unit := ([c], inr tt).

(** An outcome computed elsewhere (a parse, a lookup) enters a computation. *)
Definition lift {A : Type} (r : exn + A) : M A := ([], r).

Notation "x <- m ;; k" := (bind m (fun x => k))
  (at level 61, m at next level, right associativity).
Notation "m ;;; k" := (bind m (fun _ => k))
  (at level 61, right associativity).

Definition trace {A : Type} (m : M A) : list call := fst m.
Definition outcome {A : Type} (m : M A) : exn + A := snd m.

(** The socket messages and the log records of a trace. *)
Definition is_emit (c : call) : bool :=
  match c with SocketEmit _ _ _ => true | _ => false end.

Definition is_log (c : call) : bool :=
  match c with LoggerException _ _ => true | _ => false end.

(** ** The registries of [RHUI] *)

Module PilotAttribute.
Record t : Type := mk { name : string; label : string; fieldtype : string }.
End PilotAttribute.

Module UIPanel.
Record t : Type :=
  mk { name : string; label : string; page : string; order : Z }.
End UIPanel.

(** [panel] is [None] for a setting that was registered without a panel. *)
Module GeneralSetting.
Record t : Type :=
  mk { name : string; label : string; panel : option string;
       fieldtype : string; order : Z }.
End GeneralSetting.

Record RHUI : Type := mkRHUI {
  _pilot_attributes : list PilotAttribute.t;
  _ui_panels : list UIPanel.t;
  _general_settings : list GeneralSetting.t
}.

(** [RHUI.__init__] *)
Definition init : RHUI := mkRHUI [] [] [].

(** Each [register_*] appends to its registry and returns the registry. *)
Definition register_pilot_attribute (self : RHUI)
    (name label fieldtype : string) : RHUI * list PilotAttribute.t :=
  let l := _pilot_attributes self ++ [PilotAttribute.mk name label fieldtype] in
  (mkRHUI l (_ui_panels self) (_general_settings self), l).

Definition register_ui_panel (self : RHUI)
    (name label page : string) (order : Z) : RHUI * list UIPanel.t :=
  let l := _ui_panels self ++ [UIPanel.mk name label page order] in
  (mkRHUI (_pilot_attributes self) l (_general_settings self), l).

Definition register_general_setting (self : RHUI)
    (name label : string) (panel : option string) (fieldtype : string)
    (order : Z) : RHUI * list GeneralSetting.t :=
  let l := _general_settings self
           ++ [GeneralSetting.mk name label panel fieldtype order] in
  (mkRHUI (_pilot_attributes self) (_ui_panels self) l, l).

Definition general_settings (self : RHUI) : list GeneralSetting.t :=
  _general_settings self.

Definition pilot_attributes (self : RHUI) : list PilotAttribute.t :=
  _pilot_attributes self.

(** [setting.panel == name]: equality of two optional strings. *)
Definition panel_eqb (p q : option string) : bool :=
  match p, q with
  | None, None => true
  | Some a, Some b => String.eqb a b
  | _, _ => false
  end.

(** The loop of [get_panel_settings]: the payload starts empty and every
    setting whose panel is [name] is appended to it. *)
Definition get_panel_settings (self : RHUI) (name : option string)
  : list GeneralSetting.t :=
  fold_left
    (fun payload setting =>
       if panel_eqb (GeneralSetting.panel setting) name
       then payload ++ [setting] else payload)
    (general_settings self) [].

(** ** The race context read by the emitters

    The stored entities of [Database], with the fields this file reads.
    Fields that are only copied into a payload are kept as values. *)

Module Pilot.
Record t : Type := mk {
  id : Z; callsign : string; team : string; phonetic : string;
  name : string; active : value; color : value
}.
End Pilot.

Module Heat.
Record t : Type := mk {
  id : Z; note : value; displayname : string; class_id : value;
  order : value; status : value; auto_frequency : value
}.
End Heat.

Module HeatNode.
Record t : Type := mk {
  id : Z; heat_id : Z; node_index : option Z; pilot_id : value;
  color : value; method : Z; seed_rank : value; seed_id : value
}.
End HeatNode.

(** A stored attribute value of a pilot: a named text. *)
Module PilotAttributeValue.
Record t : Type := mk { name : string; value : string }.
End PilotAttributeValue.

(** [json.loads(profile.frequencies)]: bands, channels and frequencies per
    node. *)
Record Frequencies : Type := mkFrequencies {
  freq_b : list (option string);
  freq_c : list (option Z);
  freq_f : list Z
}.

Record RaceContext : Type := mkRaceContext {
  get_pilots : list Pilot.t;
  get_heats : list Heat.t;
  (** the heat nodes of all heats, in stored order *)
  heatNodes : list HeatNode.t;
  get_option : string -> value;
  TEAM_NAMES_LIST : list string;
  savedPilotRaces_has_pilot : Z -> bool;
  savedRaceMetas_has_heat : Z -> bool;
  get_pilot_attributes : Pilot.t -> list PilotAttributeValue.t;
  led_manager_isEnabled : bool;
  (** the outcome of [json.loads] on the stored frequencies of the profile *)
  profile_frequencies : exn + Frequencies;
  num_nodes : nat;
  (** [pagecache.get_cache()] *)
  get_cache : exn + value;
  (** [subprocess.check_output(cmd, shell=True).decode("utf-8")]: the text
      printed by the command, or the exception of the run or of the decoding *)
  check_output : string -> exn + string;
  (** [RHUtils.phonetictime_format] *)
  phonetictime_format : value -> value -> string;
  (** [ProgramMethod.HEAT_RESULT] and [ProgramMethod.CLASS_RESULT] *)
  HEAT_RESULT : Z;
  CLASS_RESULT : Z;
  (** Flask's [request]: [None] when no request is being served, [Some None]
      for a request that has no session id (a page request), [Some (Some
      sid)] for the request of a socket client *)
  request : option (option string)
}.

Definition get_pilot (rc : RaceContext) (pilot_id : Z) : option Pilot.t :=
  find (fun p => Pilot.id p =? pilot_id) (get_pilots rc).

Definition get_heatNodes_by_heat (rc : RaceContext) (heat_id : Z)
  : list HeatNode.t :=
  filter (fun n => HeatNode.heat_id n =? heat_id) (heatNodes rc).

(** ** The calls to the collaborators *)

Definition emit (topic : string) (payload : value) : M unit :=
  do_call (SocketEmit topic payload Caller).

Definition emit_room (topic : string) (payload : value) (sid : string)
  : M unit :=
  do_call (SocketEmit topic payload (Room sid)).

Definition emit_noself (topic : string) (payload : value) : M unit :=
  do_call (SocketEmit topic payload AllExceptCaller).

Definition socket_emit (topic : string) (payload : value) : M unit :=
  do_call (SocketEmit topic payload All).

Definition events_trigger (evt : Evt.t) (data : value) : M unit :=
  do_call (EventTrigger evt data).

Definition logger_exception (msg : string) (e : exn) : M unit :=
  do_call (LoggerException msg e).

Definition subprocess_check_output (rc : RaceContext) (cmd : string)
  : M string :=
  do_call (CheckOutput cmd) ;;; lift (check_output rc cmd).

(** Modelled from the spec: [RHUtils.catchLogExceptionsWrapper] is imported,
    not defined here.  A failure inside the wrapped task is caught and
    logged and does not reach the caller. *)
Definition catchLogExceptionsWrapper (m : M unit) : M unit :=
  try_except m
    (fun e => logger_exception "Exception via catchLogExceptionsWrapper" e).

(** [gevent.spawn(f, ...)]: the task runs on its own; its calls happen, its
    outcome does not come back to the spawner. *)
Definition gevent_spawn (m : M unit) : M unit := (trace m, inr tt).

(** ** The emitters *)

(** [emit_priority_message(message, interrupt=False, caller=False, **params)] *)
Definition emit_priority_message (message : value) (interrupt : bool)
    (caller : value) (params : dict) : M unit :=
  let emit_payload :=
    VDict [("message", message); ("interrupt", VBool interrupt)] in
  if has_key "nobroadcast" params then
    emit "priority_message" emit_payload
  else
    (if interrupt then
       events_trigger Evt.MESSAGE_INTERRUPT
         (VDict [("message", message); ("interrupt", VBool interrupt);
                 ("caller", caller)])
     else
       events_trigger Evt.MESSAGE_STANDARD
         (VDict [("message", message); ("interrupt", VBool interrupt);
                 ("caller", caller)])) ;;;
    socket_emit "priority_message" emit_payload.

(** [emit_result_data_thread(params, sid=None)] *)
Definition emit_result_data_thread (rc : RaceContext) (params : dict)
    (sid : option string) : M unit :=
  catchLogExceptionsWrapper
    (emit_payload <- lift (get_cache rc) ;;
     match has_key "nobroadcast" params, sid with
     | true, Some s => emit_room "result_data" emit_payload s
     | _, _ => socket_emit "result_data" emit_payload
     end).

(** [emit_result_data(self, **params)].  Under [if request:] the session id
    is read as [request.sid]; a request without session id has no such
    attribute, and the call raises before a task is started. *)
Definition emit_result_data (rc : RaceContext) (params : dict) : M unit :=
  match request rc with
  | Some (Some sid) =>
      gevent_spawn (emit_result_data_thread rc params (Some sid))
  | Some None =>
      raise (AttributeError "'Request' object has no attribute 'sid'")
  | None => gevent_spawn (emit_result_data_thread rc params None)
  end.

(** The sort key of the heat nodes:
    [if not x.node_index: return -1] and [return x.node_index] otherwise.
    [not] holds of [None] and of the integer [0]. *)
Definition heatNodeSorter (x : HeatNode.t) : Z :=
  match HeatNode.node_index x with
  | None => -1
  | Some i => if i =? 0 then -1 else i
  end.

Definition opt_int (o : option Z) : value :=
  match o with None => VNone | Some i => VInt i end.

(** The slot dictionary of one heat node. *)
Definition current_node (heatNode : HeatNode.t) : dict :=
  [("id", VInt (HeatNode.id heatNode));
   ("node_index", opt_int (HeatNode.node_index heatNode));
   ("pilot_id", HeatNode.pilot_id heatNode);
   ("color", HeatNode.color heatNode);
   ("method", VInt (HeatNode.method heatNode));
   ("seed_rank", HeatNode.seed_rank heatNode);
   ("seed_id", HeatNode.seed_id heatNode)].

(** The heat nodes of a heat after [heatNodes.sort(key=heatNodeSorter)]. *)
Definition sorted_heatNodes (rc : RaceContext) (heat_id : Z)
  : list HeatNode.t :=
  sort heatNodeSorter Z.leb (get_heatNodes_by_heat rc heat_id).

Definition current_heat (rc : RaceContext) (heat : Heat.t) : dict :=
  let heatNodes := sorted_heatNodes rc (Heat.id heat) in
  let slots := map (fun n => VDict (current_node n)) heatNodes in
  let is_dynamic :=
    existsb (fun n => (HeatNode.method n =? HEAT_RESULT rc)
                      || (HeatNode.method n =? CLASS_RESULT rc)) heatNodes in
  [("id", VInt (Heat.id heat));
   ("note", Heat.note heat);
   ("displayname", VStr (Heat.displayname heat));
   ("class_id", Heat.class_id heat);
   ("order", Heat.order heat);
   ("status", Heat.status heat);
   ("auto_frequency", Heat.auto_frequency heat);
   ("slots", VList slots);
   ("dynamic", VBool is_dynamic);
   ("locked", VBool (savedRaceMetas_has_heat rc (Heat.id heat)))].

Definition heat_data_payload (rc : RaceContext) : value :=
  VDict [("heats", VList (map (fun h => VDict (current_heat rc h))
                              (get_heats rc)))].

(** [emit_heat_data(self, **params)] *)
Definition emit_heat_data (rc : RaceContext) (params : dict) : M unit :=
  let emit_payload := heat_data_payload rc in
  if has_key "nobroadcast" params then emit "heat_data" emit_payload
  else if has_key "noself" params then emit_noself "heat_data" emit_payload
  else socket_emit "heat_data" emit_payload.

(** The team-options string of a pilot, with the pilot's team selected. *)
Definition team_options (rc : RaceContext) (pilot : Pilot.t) : string :=
  fold_left
    (fun opts_str name =>
       let s1 := opts_str ++ "<option value=" ++ String (ascii_of_nat 34) name
                 ++ String (ascii_of_nat 34) "" in
       let s2 := if String.eqb name (Pilot.team pilot)
                 then s1 ++ " selected" else s1 in
       s2 ++ ">" ++ name ++ "</option>")%string
    (TEAM_NAMES_LIST rc) "".

(** The dictionary of one pilot: the fixed entries, then one entry per stored
    attribute, then the colour when the LED manager is enabled. *)
Definition pilot_data (rc : RaceContext) (pilot : Pilot.t) : dict :=
  let base :=
    [("pilot_id", VInt (Pilot.id pilot));
     ("callsign", VStr (Pilot.callsign pilot));
     ("team", VStr (Pilot.team pilot));
     ("phonetic", VStr (Pilot.phonetic pilot));
     ("name", VStr (Pilot.name pilot));
     ("active", Pilot.active pilot);
     ("team_options", VStr (team_options rc pilot));
     ("locked", VBool (savedPilotRaces_has_pilot rc (Pilot.id pilot)))] in
  let with_attrs :=
    fold_left
      (fun d attr =>
         dict_set (PilotAttributeValue.name attr)
                  (VStr (PilotAttributeValue.value attr)) d)
      (get_pilot_attributes rc pilot) base in
  if led_manager_isEnabled rc
  then dict_set "color" (Pilot.color pilot) with_attrs
  else with_attrs.

(** [x[k]] for an entry that holds text. *)
Definition item_str (k : string) (x : dict) : string :=
  match dict_get k x with Some (VStr s) => s | _ => "" end.

(** The two sort keys of a pilot dictionary. *)
Definition key_callsign_name (x : dict) : string * string :=
  (item_str "callsign" x, item_str "name" x).

Definition key_name_callsign (x : dict) : string * string :=
  (item_str "name" x, item_str "callsign" x).

(** [a <= b] for two tuples of strings: the first components decide unless
    they are equal. *)
Definition pair_leb (a b : string * string) : bool :=
  match String.compare (fst a) (fst b) with
  | Lt => true
  | Eq => String.leb (snd a) (snd b)
  | Gt => false
  end.

(** [get_option('pilotSort') == 'callsign'] *)
Definition sort_by_callsign (rc : RaceContext) : bool :=
  match get_option rc "pilotSort" with
  | VStr s => String.eqb s "callsign"
  | _ => false
  end.

(** The key selected by the option. *)
Definition pilot_sort_key (rc : RaceContext) : dict -> string * string :=
  if sort_by_callsign rc then key_callsign_name else key_name_callsign.

(** The loop over the pilots: a dictionary is appended and the whole list is
    sorted again, for every pilot. *)
Definition pilots_list (rc : RaceContext) : list dict :=
  fold_left
    (fun pilots_list pilot =>
       let pilots_list := pilots_list ++ [pilot_data rc pilot] in
       if sort_by_callsign rc
       then sort key_callsign_name pair_leb pilots_list
       else sort key_name_callsign pair_leb pilots_list)
    (get_pilots rc) [].

Definition pilot_data_payload (self : RHUI) (rc : RaceContext) : value :=
  let attrs :=
    map (fun attr =>
           VDict [("name", VStr (PilotAttribute.name attr));
                  ("label", VStr (PilotAttribute.label attr));
                  ("fieldtype", VStr (PilotAttribute.fieldtype attr))])
        (pilot_attributes self) in
  VDict [("pilots", VList (map VDict (pilots_list rc)));
         ("pilotSort", get_option rc "pilotSort");
         ("attributes", VList attrs)].

(** [emit_pilot_data(self, **params)] *)
Definition emit_pilot_data (self : RHUI) (rc : RaceContext) (params : dict)
  : M unit :=
  let emit_payload := pilot_data_payload self rc in
  (if has_key "nobroadcast" params then emit "pilot_data" emit_payload
   else if has_key "noself" params then emit_noself "pilot_data" emit_payload
   else socket_emit "pilot_data" emit_payload) ;;;
  emit_heat_data rc [].

(** [l[i]] inside a computation. *)
Definition item {A : Type} (l : list A) (i : Z) : M A :=
  match getitem l i with
  | Some a => ret a
  | None => raise (IndexError "list index out of range")
  end.

(** The call sign of a node without pilot: band and channel when both are
    set ([and] looks at the channel only when the band is set), the frequency
    otherwise. *)
Definition node_callsign (profile_freqs : Frequencies) (node_index : Z)
  : M string :=
  b <- item (freq_b profile_freqs) node_index ;;
  band_channel <-
    match b with
    | Some s =>
        if String.eqb s "" then ret None
        else
          c <- item (freq_c profile_freqs) node_index ;;
          match c with
          | Some n => if n =? 0 then ret None else ret (Some (s, n))
          | None => ret None
          end
    | None => ret None
    end ;;
  match band_channel with
  | Some (s, n) => ret (s ++ str n)%string
  | None => f <- item (freq_f profile_freqs) node_index ;; ret (str f)
  end.

(** [emit_phonetic_data(pilot_id, lap_id, lap_time, team_name, team_laps,
    leader_flag=False, node_finished=False, node_index=None, **params)] *)
Definition emit_phonetic_data (rc : RaceContext) (pilot_id : Z)
    (lap_id lap_time team_name team_laps leader_flag node_finished : value)
    (node_index : option Z) (params : dict) : M unit :=
  let raw_time := lap_time in
  let phonetic_time :=
    phonetictime_format rc lap_time (get_option rc "timeFormatPhonetic") in
  let emit_payload :=
    [("lap", lap_id);
     ("raw_time", raw_time);
     ("phonetic", VStr phonetic_time);
     ("team_name", team_name);
     ("team_laps", team_laps);
     ("leader_flag", leader_flag);
     ("node_finished", node_finished)] in
  emit_payload <-
    match get_pilot rc pilot_id, node_index with
    | Some pilot, _ =>
        ret (emit_payload
             ++ [("pilot", VStr (Pilot.phonetic pilot));
                 ("callsign", VStr (Pilot.callsign pilot));
                 ("pilot_id", VInt (Pilot.id pilot))])
    | None, Some i =>
        profile_freqs <- lift (profile_frequencies rc) ;;
        callsign <- node_callsign profile_freqs i ;;
        ret (emit_payload
             ++ [("pilot", VStr callsign);
                 ("callsign", VStr callsign);
                 ("pilot_id", VNone)])
    | None, None =>
        ret (emit_payload
             ++ [("pilot", VNone); ("callsign", VNone); ("pilot_id", VNone)])
    end ;;
  if has_key "nobroadcast" params
  then emit "phonetic_data" (VDict emit_payload)
  else socket_emit "phonetic_data" (VDict emit_payload).

(** [emit_first_pass_registered(node_idx, **params)] *)
Definition emit_first_pass_registered (node_idx : value) (params : dict)
  : M unit :=
  let emit_payload := VDict [("node_index", node_idx)] in
  events_trigger Evt.RACE_FIRST_PASS (VDict [("node_index", node_idx)]) ;;;
  if has_key "nobroadcast" params
  then emit "first_pass_registered" emit_payload
  else socket_emit "first_pass_registered" emit_payload.

(** [emit_phonetic_split(pilot_id, split_id, split_time, **params)].
    The pilot is used as it comes back from [get_pilot]: reading an attribute
    of [None] raises. *)
Definition emit_phonetic_split (rc : RaceContext) (pilot_id : Z)
    (split_id : Z) (split_time : value) (params : dict) : M unit :=
  phonetic_name <-
    match get_pilot rc pilot_id with
    | Some pilot =>
        ret (if String.eqb (Pilot.phonetic pilot) ""
             then Pilot.callsign pilot else Pilot.phonetic pilot)
    | None =>
        raise (AttributeError "'NoneType' object has no attribute 'phonetic'")
    end ;;
  let phonetic_time :=
    phonetictime_format rc split_time (get_option rc "timeFormatPhonetic") in
  let emit_payload :=
    VDict [("pilot_name", VStr phonetic_name);
           ("split_id", VStr (str (split_id + 1)));
           ("split_time", VStr phonetic_time)] in
  if has_key "nobroadcast" params
  then emit "phonetic_split_call" emit_payload
  else socket_emit "phonetic_split_call" emit_payload.

(** [emit_imdtabler_data(IMDTABLER_JAR_NAME, fs_list, imdtabler_ver=None,
    **params)] *)
Definition emit_imdtabler_data (rc : RaceContext) (IMDTABLER_JAR_NAME : string)
    (fs_list : list string) (imdtabler_ver : value) (params : dict) : M unit :=
  imdtabler_data <-
    try_except
      (if (2 <? Z.of_nat (List.length fs_list)) then
         out <- subprocess_check_output rc
                  ("java -jar " ++ IMDTABLER_JAR_NAME ++ " -t "
                   ++ join " " fs_list)%string ;;
         ret (VStr out)
       else ret VNone)
      (fun e =>
         logger_exception "emit_imdtabler_data exception" e ;;; ret VNone) ;;
  let emit_payload :=
    VDict [("freq_list", VStr (join " " fs_list));
           ("table_data", imdtabler_data);
           ("version_str", imdtabler_ver)] in
  if has_key "nobroadcast" params
  then emit "imdtabler_data" emit_payload
  else socket_emit "imdtabler_data" emit_payload.

(** The frequency list of the rating: the frequencies of the first
    [num_nodes] nodes without duplicates, then every value above zero as
    text. *)
Definition rating_fs_list (rc : RaceContext) (profile_freqs : Frequencies)
  : list string :=
  let fi_list := fromkeys (firstn (num_nodes rc) (freq_f profile_freqs)) in
  fold_left
    (fun fs_list val => if 0 <? val then fs_list ++ [str val] else fs_list)
    fi_list [].

(** The part of [emit_imdtabler_rating] inside [try]. *)
Definition imd_rating (rc : RaceContext) (IMDTABLER_JAR_NAME : string)
  : M value :=
  profile_freqs <- lift (profile_frequencies rc) ;;
  let fs_list := rating_fs_list rc profile_freqs in
  if (2 <? Z.of_nat (List.length fs_list)) then
    out <- subprocess_check_output rc
             ("java -jar " ++ IMDTABLER_JAR_NAME ++ " -r "
              ++ join " " fs_list)%string ;;
    ret (VStr (rstrip out))
  else ret VNone.

(** [emit_imdtabler_rating(IMDTABLER_JAR_NAME)] *)
Definition emit_imdtabler_rating (rc : RaceContext)
    (IMDTABLER_JAR_NAME : string) : M unit :=
  imd_val <-
    try_except
      (imd_rating rc IMDTABLER_JAR_NAME)
      (fun e =>
         logger_exception "emit_imdtabler_rating exception" e ;;; ret VNone) ;;
  socket_emit "imdtabler_rating" (VDict [("imd_rating", imd_val)]).

(** ** What the specification says, in its own words *)

(** The settings of a panel: the registered settings whose panel is [p]. *)
Definition spec_settingsForPanel (settings : list GeneralSetting.t)
    (p : option string) : list GeneralSetting.t :=
  filter (fun s => panel_eqb (GeneralSetting.panel s) p) settings.

(** De-duplication that keeps the first occurrence of every value. *)
Fixpoint spec_dedup (l : list Z) : list Z :=
  match l with
  | [] => []
  | x :: t => x :: filter (fun y => negb (y =? x)) (spec_dedup t)
  end.

(** The de-duplicated, zero-filtered frequency list. *)
Definition spec_frequency_list (l : list Z) : list Z :=
  filter (fun v => negb (v =? 0)) (spec_dedup l).

(** A message was dropped with a warning: nothing went to the socket and a
    log record was written. *)
Definition dropped_with_warning (m : M unit) : Prop :=
  filter is_emit (trace m) = [] /\ existsb is_log (trace m) = true.

(** ** Sequences of registrations and sample contexts *)

(** Registering a sequence of settings, one call per setting. *)
Definition register_general_settings (self : RHUI)
    (regs : list GeneralSetting.t) : RHUI :=
  fold_left
    (fun ui s =>
       fst (register_general_setting ui
              (GeneralSetting.name s) (GeneralSetting.label s)
              (GeneralSetting.panel s) (GeneralSetting.fieldtype s)
              (GeneralSetting.order s)))
    regs self.

(** A context with three pilots, one heat with three heat nodes registered
    with the node indices 2, none and 0, six frequencies of which two are
    distinct and above zero, and an analysis tool that exits with an error.
    No request is being served. *)
Definition sample_context : RaceContext := {|
  get_pilots :=
    [Pilot.mk 1 "Zulu" "A" "zoo loo" "Ann" (VBool true) (VStr "#ff0000");
     Pilot.mk 2 "Alpha" "B" "" "Bob" (VBool true) (VStr "#00ff00");
     Pilot.mk 3 "Alpha" "A" "" "Al" (VBool false) (VStr "#0000ff")];
  get_heats :=
    [Heat.mk 1 (VStr "qualifier") "Heat 1" (VInt 1) (VInt 0) (VInt 0)
       (VBool false)];
  heatNodes :=
    [HeatNode.mk 10 1 (Some 2) (VInt 1) VNone 0 VNone VNone;
     HeatNode.mk 11 1 None (VInt 2) VNone 0 VNone VNone;
     HeatNode.mk 12 1 (Some 0) (VInt 3) VNone 0 VNone VNone];
  get_option :=
    fun k => if String.eqb k "pilotSort" then VStr "callsign" else VNone;
  TEAM_NAMES_LIST := ["A"; "B"];
  savedPilotRaces_has_pilot := fun _ => false;
  savedRaceMetas_has_heat := fun _ => false;
  get_pilot_attributes := fun _ => [];
  led_manager_isEnabled := false;
  profile_frequencies :=
    inr (mkFrequencies
           [Some "R"; Some "R"; None; Some "R"; None; Some "R"]
           [Some 3; Some 3; None; Some 7; None; Some 3]
           [5800; 5800; 0; 5880; 0; 5800]);
  num_nodes := 6;
  get_cache := inr (VDict [("heats", VDict [])]);
  check_output := fun _ => inl (CalledProcessError 1);
  phonetictime_format := fun _ _ => "12.3";
  HEAT_RESULT := 1;
  CLASS_RESULT := 2;
  request := None
|}.

(** The keyword arguments [nobroadcast=True]. *)
Definition nobroadcast : dict := [("nobroadcast", VBool true)].

(** A context with other heat nodes. *)
Definition with_heatNodes (rc : RaceContext) (nodes : list HeatNode.t)
  : RaceContext := {|
  get_pilots := get_pilots rc;
  get_heats := get_heats rc;
  heatNodes := nodes;
  get_option := get_option rc;
  TEAM_NAMES_LIST := TEAM_NAMES_LIST rc;
  savedPilotRaces_has_pilot := savedPilotRaces_has_pilot rc;
  savedRaceMetas_has_heat := savedRaceMetas_has_heat rc;
  get_pilot_attributes := get_pilot_attributes rc;
  led_manager_isEnabled := led_manager_isEnabled rc;
  profile_frequencies := profile_frequencies rc;
  num_nodes := num_nodes rc;
  get_cache := get_cache rc;
  check_output := check_output rc;
  phonetictime_format := phonetictime_format rc;
  HEAT_RESULT := HEAT_RESULT rc;
  CLASS_RESULT := CLASS_RESULT rc;
  request := request rc
|}.

(** Heat 1 with two heat nodes: node index 0 registered first, then a node
    without index. *)
Definition zero_first_context : RaceContext :=
  with_heatNodes sample_context
    [HeatNode.mk 20 1 (Some 0) (VInt 1) VNone 0 VNone VNone;
     HeatNode.mk 21 1 None (VInt 2) VNone 0 VNone VNone].

(** The node indices of the slots of a heat, in slot order. *)
Definition slot_node_indices (rc : RaceContext) (heat_id : Z)
  : list (option Z) :=
  map HeatNode.node_index (sorted_heatNodes rc heat_id).

(** The frequencies of a context and the frequency list of its rating, empty
    when the stored frequencies do not parse. *)
Definition freq_f_of (rc : RaceContext) : list Z :=
  match profile_frequencies rc with inr pf => freq_f pf | inl _ => [] end.

Definition rating_fs_list_of (rc : RaceContext) : list string :=
  match profile_frequencies rc with
  | inr pf => rating_fs_list rc pf
  | inl _ => []
  end.

(** A context with four distinct frequencies and an analysis tool that
    fails: the table command runs into a timeout, every other command exits
    with status 127. *)
Definition failing_tool_context : RaceContext := {|
  get_pilots := [];
  get_heats := [];
  heatNodes := [];
  get_option := fun _ => VNone;
  TEAM_NAMES_LIST := [];
  savedPilotRaces_has_pilot := fun _ => false;
  savedRaceMetas_has_heat := fun _ => false;
  get_pilot_attributes := fun _ => [];
  led_manager_isEnabled := false;
  profile_frequencies :=
    inr (mkFrequencies [None; None; None; None] [None; None; None; None]
           [5658; 5695; 5760; 5800]);
  num_nodes := 4;
  get_cache := inr VNone;
  check_output :=
    fun cmd =>
      if String.eqb cmd "java -jar IMDTabler.jar -t 5658 5695 5760"
      then inl (TimeoutExpired cmd)
      else inl (CalledProcessError 127);
  phonetictime_format := fun _ _ => "";
  HEAT_RESULT := 1;
  CLASS_RESULT := 2;
  request := None
|}.

(** The sample context with the pilots sorted by name: the option
    [pilotSort] is ["name"]. *)
Definition name_sort_context : RaceContext := {|
  get_pilots := get_pilots sample_context;
  get_heats := get_heats sample_context;
  heatNodes := heatNodes sample_context;
  get_option :=
    fun k => if String.eqb k "pilotSort" then VStr "name" else VNone;
  TEAM_NAMES_LIST := TEAM_NAMES_LIST sample_context;
  savedPilotRaces_has_pilot := savedPilotRaces_has_pilot sample_context;
  savedRaceMetas_has_heat := savedRaceMetas_has_heat sample_context;
  get_pilot_attributes :=
    fun _ => [PilotAttributeValue.mk "country" "IN"];
  led_manager_isEnabled := true;
  profile_frequencies := profile_frequencies sample_context;
  num_nodes := num_nodes sample_context;
  get_cache := get_cache sample_context;
  check_output := check_output sample_context;
  phonetictime_format := phonetictime_format sample_context;
  HEAT_RESULT := HEAT_RESULT sample_context;
  CLASS_RESULT := CLASS_RESULT sample_context;
  request := request sample_context
|}.

(** The dictionaries of the pilots, in the order of [get_pilots]. *)
Definition pilot_dicts (rc : RaceContext) : list dict :=
  map (pilot_data rc) (get_pilots rc).

(** The entry [k] of a dictionary holds text. *)
Definition text_entry (k : string) (d : dict) : Prop :=
  dict_get k d = Some (VStr (item_str k d)).

(** ** Further parts of the race context

    The running race, the last race and the collaborators that the emitters
    below read besides [RaceContext]. *)

Module RHRace.
Record t : Type := mk {
  current_heat : Z;
  status_message : value;
  (** [get_results()], [get_lap_results()] and [get_team_results(rhdata)] *)
  get_results : value;
  get_lap_results : value;
  get_team_results : value;
  (** the truth value of [format.team_racing_mode] *)
  team_racing_mode : bool
}.
End RHRace.

Module RaceClass.
Record t : Type := mk { id : Z; format_id : value }.
End RaceClass.

Record RaceState : Type := mkRaceState {
  race : RHRace.t;
  (** [None] until a race was run *)
  last_race : option RHRace.t;
  (** [RHUtils.HEAT_ID_NONE] and [RHUtils.CLASS_ID_NONE] *)
  HEAT_ID_NONE : Z;
  CLASS_ID_NONE : Z;
  (** the translation function [__] *)
  translate : string -> value;
  (** [led_manager.getDisplayColor(node_index)] *)
  getDisplayColor : Z -> value;
  get_raceClasses : list RaceClass.t;
  (** [rhdata.get_option(name, default)] *)
  get_option_default : string -> value -> value
}.

Definition get_heat (rc : RaceContext) (heat_id : Z) : option Heat.t :=
  find (fun h => Heat.id h =? heat_id) (get_heats rc).

Definition get_raceClass (rs : RaceState) (class_id : value)
  : option RaceClass.t :=
  match class_id with
  | VInt i => find (fun c => RaceClass.id c =? i) (get_raceClasses rs)
  | _ => None
  end.

(** [get_pilot] for a pilot id that is kept as a value. *)
Definition get_pilot_of (rc : RaceContext) (pilot_id : value)
  : option Pilot.t :=
  match pilot_id with
  | VInt i => get_pilot rc i
  | _ => None
  end.

(** [range(n)] *)
Definition range (n : nat) : list Z := map Z.of_nat (seq 0 n).

(** A [for] loop whose body may raise: the results of the body, in order. *)
Fixpoint for_each {A B : Type} (l : list A) (body : A -> M B) : M (list B) :=
  match l with
  | [] => ret []
  | x :: t => y <- body x ;; ys <- for_each t body ;; ret (y :: ys)
  end.

(** ** Registrations of all three kinds *)

Inductive registration : Type :=
| RegisterPilotAttribute (name label fieldtype : string)
| RegisterUIPanel (name label page : string) (order : Z)
| RegisterGeneralSetting (name label : string) (panel : option string)
    (fieldtype : string) (order : Z).

Definition register (self : RHUI) (r : registration) : RHUI :=
  match r with
  | RegisterPilotAttribute name label fieldtype =>
      fst (register_pilot_attribute self name label fieldtype)
  | RegisterUIPanel name label page order =>
      fst (register_ui_panel self name label page order)
  | RegisterGeneralSetting name label panel fieldtype order =>
      fst (register_general_setting self name label panel fieldtype order)
  end.

Definition register_all (self : RHUI) (rs : list registration) : RHUI :=
  fold_left register rs self.

(** The registrations of each kind, in the order of the calls. *)
Fixpoint registered_attributes (rs : list registration)
  : list PilotAttribute.t :=
  match rs with
  | [] => []
  | RegisterPilotAttribute name label fieldtype :: t =>
      PilotAttribute.mk name label fieldtype :: registered_attributes t
  | _ :: t => registered_attributes t
  end.

Fixpoint registered_panels (rs : list registration) : list UIPanel.t :=
  match rs with
  | [] => []
  | RegisterUIPanel name label page order :: t =>
      UIPanel.mk name label page order :: registered_panels t
  | _ :: t => registered_panels t
  end.

Fixpoint registered_settings (rs : list registration)
  : list GeneralSetting.t :=
  match rs with
  | [] => []
  | RegisterGeneralSetting name label panel fieldtype order :: t =>
      GeneralSetting.mk name label panel fieldtype order
      :: registered_settings t
  | _ :: t => registered_settings t
  end.

Definition ui_panels (self : RHUI) : list UIPanel.t := _ui_panels self.

(** ** More emitters *)

(** The dictionary of one setting in the [ui] payload. *)
Definition ui_setting (rs : RaceState) (setting : GeneralSetting.t) : value :=
  VDict [("name", VStr (GeneralSetting.name setting));
         ("label", VStr (GeneralSetting.label setting));
         ("order", VInt (GeneralSetting.order setting));
         ("fieldtype", VStr (GeneralSetting.fieldtype setting));
         ("value",
          get_option_default rs (GeneralSetting.name setting) VNone)].

(** The dictionary of one panel in the [ui] payload, with its settings. *)
Definition ui_panel (self : RHUI) (rs : RaceState) (panel : UIPanel.t)
  : value :=
  let settings :=
    fold_left
      (fun settings setting => settings ++ [ui_setting rs setting])
      (get_panel_settings self (Some (UIPanel.name panel))) [] in
  VDict [("panel",
          VDict [("name", VStr (UIPanel.name panel));
                 ("label", VStr (UIPanel.label panel));
                 ("order", VInt (UIPanel.order panel))]);
         ("settings", VList settings)].

(** The loop of [emit_ui] over the panels. *)
Definition ui_payload (self : RHUI) (rs : RaceState) (page : string)
  : list value :=
  fold_left
    (fun emit_payload panel =>
       if String.eqb (UIPanel.page panel) page
       then emit_payload ++ [ui_panel self rs panel]
       else emit_payload)
    (ui_panels self) [].

(** [emit_ui(page, **params)] *)
Definition emit_ui (self : RHUI) (rs : RaceState) (page : string)
    (params : dict) : M unit :=
  let emit_payload := VList (ui_payload self rs page) in
  if has_key "nobroadcast" params then emit "ui" emit_payload
  else socket_emit "ui" emit_payload.

(** What [emit_ui] shows: the panels of the page, each with the settings that
    name it. *)
Definition ui_view (self : RHUI) (page : string)
  : list (UIPanel.t * list GeneralSetting.t) :=
  map (fun panel =>
         (panel,
          filter (fun s => panel_eqb (GeneralSetting.panel s)
                                     (Some (UIPanel.name panel)))
                 (general_settings self)))
      (filter (fun panel => String.eqb (UIPanel.page panel) page)
              (ui_panels self)).

Definition ui_encode (rs : RaceState)
    (entry : UIPanel.t * list GeneralSetting.t) : value :=
  VDict [("panel",
          VDict [("name", VStr (UIPanel.name (fst entry)));
                 ("label", VStr (UIPanel.label (fst entry)));
                 ("order", VInt (UIPanel.order (fst entry)))]);
         ("settings", VList (map (ui_setting rs) (snd entry)))].

(** [emit_imdtabler_page(IMDTABLER_JAR_NAME, Use_imdtabler_jar_flag,
    **_params)].  The frequency list is built by the same statements as in
    [emit_imdtabler_rating]. *)
Definition emit_imdtabler_page (rc : RaceContext)
    (IMDTABLER_JAR_NAME : string) (Use_imdtabler_jar_flag : bool)
    (_params : dict) : M unit :=
  if Use_imdtabler_jar_flag then
    try_except
      (out <- subprocess_check_output rc
                ("java -jar " ++ IMDTABLER_JAR_NAME ++ " -v")%string ;;
       let imdtabler_ver := rstrip out in
       profile_freqs <- lift (profile_frequencies rc) ;;
       let fs_list := rating_fs_list rc profile_freqs in
       emit_imdtabler_data rc IMDTABLER_JAR_NAME fs_list
         (VStr imdtabler_ver) [])
      (fun e => logger_exception "emit_imdtabler_page exception" e)
  else ret tt.

Definition opt_str (o : option string) : value :=
  match o with None => VNone | Some s => VStr s end.

(** [emit_frequency_data(self, **params)] *)
Definition emit_frequency_data (rc : RaceContext) (params : dict) : M unit :=
  profile_freqs <- lift (profile_frequencies rc) ;;
  fdata <-
    for_each (range (num_nodes rc))
      (fun idx =>
         b <- item (freq_b profile_freqs) idx ;;
         c <- item (freq_c profile_freqs) idx ;;
         f <- item (freq_f profile_freqs) idx ;;
         ret (VDict [("band", opt_str b); ("channel", opt_int c);
                     ("frequency", VInt f)])) ;;
  let emit_payload := VDict [("fdata", VList fdata)] in
  if has_key "nobroadcast" params then emit "frequency_data" emit_payload
  else
    socket_emit "frequency_data" emit_payload ;;;
    for_each (range (num_nodes rc))
      (fun n =>
         f <- item (freq_f profile_freqs) n ;;
         socket_emit "frequency_set"
           (VDict [("node", VInt n); ("frequency", VInt f)])) ;;;
    ret tt.

(** ** More sample contexts *)

Definition with_request (rc : RaceContext) (sid : option (option string))
  : RaceContext := {|
  get_pilots := get_pilots rc;
  get_heats := get_heats rc;
  heatNodes := heatNodes rc;
  get_option := get_option rc;
  TEAM_NAMES_LIST := TEAM_NAMES_LIST rc;
  savedPilotRaces_has_pilot := savedPilotRaces_has_pilot rc;
  savedRaceMetas_has_heat := savedRaceMetas_has_heat rc;
  get_pilot_attributes := get_pilot_attributes rc;
  led_manager_isEnabled := led_manager_isEnabled rc;
  profile_frequencies := profile_frequencies rc;
  num_nodes := num_nodes rc;
  get_cache := get_cache rc;
  check_output := check_output rc;
  phonetictime_format := phonetictime_format rc;
  HEAT_RESULT := HEAT_RESULT rc;
  CLASS_RESULT := CLASS_RESULT rc;
  request := sid
|}.

Definition with_cache (rc : RaceContext) (cache : exn + value)
  : RaceContext := {|
  get_pilots := get_pilots rc;
  get_heats := get_heats rc;
  heatNodes := heatNodes rc;
  get_option := get_option rc;
  TEAM_NAMES_LIST := TEAM_NAMES_LIST rc;
  savedPilotRaces_has_pilot := savedPilotRaces_has_pilot rc;
  savedRaceMetas_has_heat := savedRaceMetas_has_heat rc;
  get_pilot_attributes := get_pilot_attributes rc;
  led_manager_isEnabled := led_manager_isEnabled rc;
  profile_frequencies := profile_frequencies rc;
  num_nodes := num_nodes rc;
  get_cache := cache;
  check_output := check_output rc;
  phonetictime_format := phonetictime_format rc;
  HEAT_RESULT := HEAT_RESULT rc;
  CLASS_RESULT := CLASS_RESULT rc;
  request := request rc
|}.

Definition with_frequencies (rc : RaceContext)
    (frequencies : exn + Frequencies) (nodes : nat) : RaceContext := {|
  get_pilots := get_pilots rc;
  get_heats := get_heats rc;
  heatNodes := heatNodes rc;
  get_option := get_option rc;
  TEAM_NAMES_LIST := TEAM_NAMES_LIST rc;
  savedPilotRaces_has_pilot := savedPilotRaces_has_pilot rc;
  savedRaceMetas_has_heat := savedRaceMetas_has_heat rc;
  get_pilot_attributes := get_pilot_attributes rc;
  led_manager_isEnabled := led_manager_isEnabled rc;
  profile_frequencies := frequencies;
  num_nodes := nodes;
  get_cache := get_cache rc;
  check_output := check_output rc;
  phonetictime_format := phonetictime_format rc;
  HEAT_RESULT := HEAT_RESULT rc;
  CLASS_RESULT := CLASS_RESULT rc;
  request := request rc
|}.

Definition with_tool (rc : RaceContext) (tool : string -> exn + string)
  : RaceContext := {|
  get_pilots := get_pilots rc;
  get_heats := get_heats rc;
  heatNodes := heatNodes rc;
  get_option := get_option rc;
  TEAM_NAMES_LIST := TEAM_NAMES_LIST rc;
  savedPilotRaces_has_pilot := savedPilotRaces_has_pilot rc;
  savedRaceMetas_has_heat := savedRaceMetas_has_heat rc;
  get_pilot_attributes := get_pilot_attributes rc;
  led_manager_isEnabled := led_manager_isEnabled rc;
  profile_frequencies := profile_frequencies rc;
  num_nodes := num_nodes rc;
  get_cache := get_cache rc;
  check_output := tool;
  phonetictime_format := phonetictime_format rc;
  HEAT_RESULT := HEAT_RESULT rc;
  CLASS_RESULT := CLASS_RESULT rc;
  request := request rc
|}.

(** A registry with two panels on the page [settings] and one on the page
    [format], two settings of the first panel, one without panel and one that
    names a panel which is not registered. *)
Definition sample_registrations : list registration :=
  [RegisterUIPanel "leds" "LED effects" "settings" 1;
   RegisterGeneralSetting "brightness" "Brightness" (Some "leds") "number" 0;
   RegisterPilotAttribute "country" "Country" "text";
   RegisterGeneralSetting "hidden" "Hidden" None "text" 0;
   RegisterUIPanel "laps" "Lap rules" "format" 0;
   RegisterGeneralSetting "effect" "Effect" (Some "leds") "text" 1;
   RegisterUIPanel "audio" "Audio" "settings" 2;
   RegisterGeneralSetting "lost" "Lost" (Some "nowhere") "text" 0].

Definition sample_ui : RHUI := register_all init sample_registrations.

(** A race state in practice mode, before any race was run; every option
    reads as its default. *)
Definition sample_state : RaceState := {|
  race :=
    RHRace.mk 0 (VStr "ready") (VDict [("by_race_time", VList [])])
      (VDict [("node_index", VList [])]) (VDict []) false;
  last_race := None;
  HEAT_ID_NONE := 0;
  CLASS_ID_NONE := 0;
  translate := fun s => VStr s;
  getDisplayColor := fun i => VInt (16 * i);
  get_raceClasses := [RaceClass.mk 1 (VInt 5)];
  get_option_default := fun _ default => default
|}.

(** A heat node without slot index for the sort: no node index, or the node
    index 0. *)
Definition no_sort_index (n : HeatNode.t) : bool :=
  match HeatNode.node_index n with
  | None => true
  | Some i => i =? 0
  end.

(** The fixed entries of a pilot dictionary. *)
Definition pilot_fixed_fields (rc : RaceContext) (pilot : Pilot.t) : dict :=
  [("pilot_id", VInt (Pilot.id pilot));
   ("callsign", VStr (Pilot.callsign pilot));
   ("team", VStr (Pilot.team pilot));
   ("phonetic", VStr (Pilot.phonetic pilot));
   ("name", VStr (Pilot.name pilot));
   ("active", Pilot.active pilot);
   ("team_options", VStr (team_options rc pilot));
   ("locked", VBool (savedPilotRaces_has_pilot rc (Pilot.id pilot)))].

(** The value of the last stored attribute with the name [k]. *)
Definition last_attribute (k : string) (attrs : list PilotAttributeValue.t)
  : option string :=
  fold_left
    (fun r a =>
       if String.eqb k (PilotAttributeValue.name a)
       then Some (PilotAttributeValue.value a) else r)
    attrs None.

(** The keys of a dictionary, in order. *)
Definition keys (d : dict) : list string := map fst d.

(** The command that asks the analysis tool for its version. *)
Definition version_command (jar : string) : string :=
  ("java -jar " ++ jar ++ " -v")%string.

(** The entry of node [i] in the [frequency_data] message, and the
    [frequency_set] message of node [i]. *)
Definition fdata_entry (pf : Frequencies) (i : nat) : value :=
  VDict [("band", opt_str (nth i (freq_b pf) None));
         ("channel", opt_int (nth i (freq_c pf) None));
         ("frequency", VInt (nth i (freq_f pf) 0))].

Definition frequency_set (pf : Frequencies) (i : nat) : call :=
  SocketEmit "frequency_set"
    (VDict [("node", VInt (Z.of_nat i));
            ("frequency", VInt (nth i (freq_f pf) 0))]) All.

(** A tool that prints its version and fails on every other command. *)
Definition version_only_tool (cmd : string) : exn + string :=
  if String.eqb cmd "java -jar IMDTabler.jar -v"
  then inr ("IMDTabler 1.4" ++ String (ascii_of_nat 10) "")%string
  else inl (CalledProcessError 1).

(** Frequencies of two nodes: raceband 3, and a node that is switched off. *)
Definition two_node_frequencies : Frequencies :=
  mkFrequencies [Some "R"; None] [Some 3; None] [5800; 0].

(** ** Emitters of the running race *)

(** [emit_current_laps(self, **params)] *)
Definition emit_current_laps (rs : RaceState) (params : dict) : M unit :=
  let emit_payload := [("current", RHRace.get_lap_results (race rs))] in
  let emit_payload :=
    match last_race rs with
    | Some last =>
        dict_set "last_race" (RHRace.get_lap_results last) emit_payload
    | None => emit_payload
    end in
  if has_key "nobroadcast" params
  then emit "current_laps" (VDict emit_payload)
  else socket_emit "current_laps" (VDict emit_payload).

(** [emit_split_pass_info(pilot_id, split_id, split_time)] *)
Definition emit_split_pass_info (rc : RaceContext) (rs : RaceState)
    (pilot_id split_id : Z) (split_time : value) : M unit :=
  emit_current_laps rs [] ;;;
  emit_phonetic_split rc pilot_id split_id split_time [].

(** The display name of the heat of the running race: the translation of
    "Practice" without heat, the display name of the stored heat otherwise.
    The heat ids are integers, so the test [is RHUtils.HEAT_ID_NONE] is an
    equality.  Reading the name of a heat that is not stored raises. *)
Definition current_displayname (rc : RaceContext) (rs : RaceState)
    (heat_id : Z) : M value :=
  if heat_id =? HEAT_ID_NONE rs then ret (translate rs "Practice")
  else
    match get_heat rc heat_id with
    | Some heat => ret (VStr (Heat.displayname heat))
    | None =>
        raise (AttributeError
                 "'NoneType' object has no attribute 'displayname'")
    end.

(** The display name entry of the last race: none when its heat is not
    stored any more. *)
Definition last_displayname (rc : RaceContext) (rs : RaceState)
    (heat_id : Z) : dict :=
  if heat_id =? HEAT_ID_NONE rs
  then [("displayname", translate rs "Practice")]
  else
    match get_heat rc heat_id with
    | Some heat => [("displayname", VStr (Heat.displayname heat))]
    | None => []
    end.

(** The entries that follow the display name, for either race. *)
Definition leaderboard_entries (r : RHRace.t) : dict :=
  [("heat", VInt (RHRace.current_heat r));
   ("status_msg", RHRace.status_message r);
   ("leaderboard", RHRace.get_results r)]
  ++ (if RHRace.team_racing_mode r
      then [("team_leaderboard", RHRace.get_team_results r)] else []).

(** [emit_current_leaderboard(self, **params)].  The display name of the
    current heat is computed twice, as in the source. *)
Definition emit_current_leaderboard (rc : RaceContext) (rs : RaceState)
    (params : dict) : M unit :=
  let current_heat := RHRace.current_heat (race rs) in
  displayname <- current_displayname rc rs current_heat ;;
  displayname <- current_displayname rc rs current_heat ;;
  let current :=
    ("displayname", displayname) :: leaderboard_entries (race rs) in
  let emit_payload :=
    [("current", VDict current)]
    ++ match last_race rs with
       | Some last =>
           [("last_race",
             VDict (last_displayname rc rs (RHRace.current_heat last)
                    ++ leaderboard_entries last))]
       | None => []
       end in
  if has_key "nobroadcast" params
  then emit "leaderboard" (VDict emit_payload)
  else socket_emit "leaderboard" (VDict emit_payload).

(** ** The current heat

    The dictionary [heatNodes] of the [current_heat] message has the node
    indices as keys.  A key is written as its decimal text, which is how it
    goes over the wire; [str] is injective, so the dictionary is the same. *)

Definition empty_heatNode : value :=
  VDict [("pilot_id", VNone); ("callsign", VNone); ("heatNodeColor", VNone);
         ("pilotColor", VNone); ("activeColor", VNone)].

(** The entry of a heat node with a node index: the call sign and the colour
    of the pilot stay [None] when the pilot is not stored. *)
Definition heatNode_entry (rc : RaceContext) (rs : RaceState)
    (heatNode : HeatNode.t) (node_index : Z) : value :=
  let pilot := get_pilot_of rc (HeatNode.pilot_id heatNode) in
  VDict [("pilot_id", HeatNode.pilot_id heatNode);
         ("callsign",
          match pilot with
          | Some p => VStr (Pilot.callsign p)
          | None => VNone
          end);
         ("heatNodeColor", HeatNode.color heatNode);
         ("pilotColor",
          match pilot with Some p => Pilot.color p | None => VNone end);
         ("activeColor",
          if led_manager_isEnabled rc then getDisplayColor rs node_index
          else VNone)].

(** The first loop: an empty entry for every node. *)
Definition empty_heatNodes (rc : RaceContext) : dict :=
  fold_left (fun d idx => dict_set (str idx) empty_heatNode d)
            (range (num_nodes rc)) [].

(** The loop over the heat nodes of the heat: a heat node without node index
    is passed over. *)
Definition heat_heatNodes (rc : RaceContext) (rs : RaceState) (heat_id : Z)
  : dict :=
  fold_left
    (fun d heatNode =>
       match HeatNode.node_index heatNode with
       | Some i => dict_set (str i) (heatNode_entry rc rs heatNode i) d
       | None => d
       end)
    (get_heatNodes_by_heat rc heat_id) (empty_heatNodes rc).

(** [heat_data.class_id != RHUtils.CLASS_ID_NONE], for a class id that is an
    integer or [None]. *)
Definition has_class (rs : RaceState) (class_id : value) : bool :=
  match class_id with
  | VInt i => negb (i =? CLASS_ID_NONE rs)
  | _ => true
  end.

(** The entry of a node in practice mode. *)
Definition practice_entry (rs : RaceState) (idx : Z) (callsign : string)
  : value :=
  VDict [("callsign", VStr callsign); ("heatNodeColor", VNone);
         ("pilotColor", VNone); ("activeColor", getDisplayColor rs idx)].

(** [emit_current_heat(self, **params)] *)
Definition emit_current_heat (rc : RaceContext) (rs : RaceState)
    (params : dict) : M unit :=
  let current_heat := RHRace.current_heat (race rs) in
  result <-
    match get_heat rc current_heat with
    | Some heat_data =>
        let heat_class := Heat.class_id heat_data in
        let heatNode_data := heat_heatNodes rc rs current_heat in
        heat_format <-
          (if has_class rs (Heat.class_id heat_data) then
             match get_raceClass rs (Heat.class_id heat_data) with
             | Some c => ret (RaceClass.format_id c)
             | None =>
                 raise (AttributeError
                          "'NoneType' object has no attribute 'format_id'")
             end
           else ret VNone) ;;
        ret (heatNode_data, heat_format, heat_class)
    | None =>
        profile_freqs <- lift (profile_frequencies rc) ;;
        entries <-
          for_each (range (num_nodes rc))
            (fun idx =>
               callsign <- node_callsign profile_freqs idx ;;
               ret (idx, practice_entry rs idx callsign)) ;;
        ret (fold_left (fun d e => dict_set (str (fst e)) (snd e) d)
                       entries (empty_heatNodes rc),
             VNone, VInt (CLASS_ID_NONE rs))
    end ;;
  let '(heatNode_data, heat_format, heat_class) := result in
  let emit_payload :=
    VDict [("current_heat", VInt current_heat);
           ("heatNodes", VDict heatNode_data);
           ("heat_format", heat_format);
           ("heat_class", heat_class)] in
  if has_key "nobroadcast" params then emit "current_heat" emit_payload
  else socket_emit "current_heat" emit_payload.

(** The last heat node with the node index [i]. *)
Definition last_heatNode (i : Z) (nodes : list HeatNode.t)
  : option HeatNode.t :=
  fold_left
    (fun r n =>
       match HeatNode.node_index n with
       | Some j => if j =? i then Some n else r
       | None => r
       end)
    nodes None.

(** The call sign of node [i] in practice mode. *)
Definition practice_callsign (pf : Frequencies) (i : nat) : string :=
  match nth i (freq_b pf) None, nth i (freq_c pf) None with
  | Some s, Some n =>
      if negb (String.eqb s "") && negb (n =? 0) then (s ++ str n)%string
      else str (nth i (freq_f pf) 0)
  | _, _ => str (nth i (freq_f pf) 0)
  end.

(** The [current_laps] payload. *)
Definition current_laps_payload (rs : RaceState) : value :=
  VDict (("current", RHRace.get_lap_results (race rs))
         :: match last_race rs with
            | Some last => [("last_race", RHRace.get_lap_results last)]
            | None => []
            end).

(** A race state whose running race is on heat 1, after a race on heat 9,
    which is not stored any more. *)
Definition after_deleted_heat : RaceState := {|
  race :=
    RHRace.mk 1 (VStr "racing") (VStr "results-1") (VStr "laps-1")
      (VStr "teams-1") false;
  last_race :=
    Some (RHRace.mk 9 (VStr "done") (VStr "results-9") (VStr "laps-9")
            (VStr "teams-9") true);
  HEAT_ID_NONE := 0;
  CLASS_ID_NONE := 0;
  translate := fun s => VStr s;
  getDisplayColor := fun i => VInt (16 * i);
  get_raceClasses := [RaceClass.mk 1 (VInt 5)];
  get_option_default := fun _ default => default
|}.

(** A race state whose running race is on heat 9, which is not stored. *)
Definition on_deleted_heat : RaceState := {|
  race :=
    RHRace.mk 9 (VStr "racing") (VStr "results-9") (VStr "laps-9")
      (VStr "teams-9") false;
  last_race := None;
  HEAT_ID_NONE := 0;
  CLASS_ID_NONE := 0;
  translate := fun s => VStr s;
  getDisplayColor := fun i => VInt (16 * i);
  get_raceClasses := [RaceClass.mk 1 (VInt 5)];
  get_option_default := fun _ default => default
|}.

(** A race state on heat 1 in which no race class is stored. *)
Definition no_class_state : RaceState := {|
  race :=
    RHRace.mk 1 (VStr "racing") (VStr "results-1") (VStr "laps-1")
      (VStr "teams-1") false;
  last_race := None;
  HEAT_ID_NONE := 0;
  CLASS_ID_NONE := 0;
  translate := fun s => VStr s;
  getDisplayColor := fun i => VInt (16 * i);
  get_raceClasses := [];
  get_option_default := fun _ default => default
|}.

(** Heat 1 with a heat node on node 1 whose pilot (id 99) is not stored, and
    a heat node without node index. *)
Definition missing_pilot_context : RaceContext :=
  with_heatNodes sample_context
    [HeatNode.mk 30 1 (Some 1) (VInt 99) (VStr "#123456") 0 VNone VNone;
     HeatNode.mk 31 1 None (VInt 1) VNone 0 VNone VNone].

(** The de-duplicated list of the frequencies above zero. *)
Definition positive_frequency_list (l : list Z) : list Z :=
  filter (fun v => 0 <? v) (spec_dedup l).

(** The frequencies of the sample context. *)
Definition sample_frequencies : Frequencies :=
  mkFrequencies
    [Some "R"; Some "R"; None; Some "R"; None; Some "R"]
    [Some 3; Some 3; None; Some 7; None; Some 3]
    [5800; 5800; 0; 5880; 0; 5800].

(** The sample context on a timer with two nodes. *)
Definition two_of_six_context : RaceContext :=
  with_frequencies sample_context (inr sample_frequencies) 2.

(** Three frequencies of which one is negative, on a timer with three
    nodes. *)
Definition negative_frequencies : Frequencies :=
  mkFrequencies [None; None; None] [None; None; None] [-5; 5800; 5880].

Definition negative_frequency_context : RaceContext :=
  with_frequencies sample_context (inr negative_frequencies) 3.

(** The dictionaries under [pilots] in a socket message, none for a message
    without that entry. *)
Definition message_pilots (c : call) : list dict :=
  match c with
  | SocketEmit _ (VDict d) _ =>
      match dict_get "pilots" d with
      | Some (VList l) =>
          flat_map (fun v => match v with VDict p => [p] | _ => [] end) l
      | _ => []
      end
  | _ => []
  end.

(** A tool whose version ends in white space that is not ASCII: a no-break
    space (U+00A0), an em space (U+2003) and a line feed. *)
Definition padded_version_tool (cmd : string) : exn + string :=
  if String.eqb cmd "java -jar IMDTabler.jar -v"
  then inr ("IMDTabler 1.4"
            ++ String (ascii_of_nat 194) (String (ascii_of_nat 160) "")
            ++ String (ascii_of_nat 226)
                 (String (ascii_of_nat 128) (String (ascii_of_nat 131) ""))
            ++ String (ascii_of_nat 10) "")%string
  else inl (CalledProcessError 1).

(** * Properties *)

(** ** The stable sort *)

Section StableSortFacts.

Variables (A K : Type).
Variable key : A -> K.
Variable leb : K -> K -> bool.

Hypothesis leb_total : forall a b, leb a b = true \/ leb b a = true.
Hypothesis leb_trans :
  forall a b c, leb a b = true -> leb b c = true -> leb a c = true.

Local Abbreviation insert := (insert key leb).
Local Abbreviation sort := (sort key leb).
Local Abbreviation key_le := (key_le key leb).
Local Abbreviation tied := (tied leb).

Lemma leb_refl : forall a, leb a a = true.
Proof. intro a. destruct (leb_total a a); assumption. Qed.

Lemma leb_false_flip : forall a b, leb a b = false -> leb b a = true.
Proof.
  intros a b H. destruct (leb_total a b) as [E | E]; [congruence | exact E].
Qed.

Lemma insert_perm : forall x l, Permutation (insert x l) (x :: l).
Proof.
  intros x l. induction l as [| h t IH]; simpl.
  - apply Permutation_refl.
  - destruct (leb (key x) (key h)).
    + apply Permutation_refl.
    + eapply perm_trans; [apply perm_skip, IH | apply perm_swap].
Qed.

Lemma sort_perm : forall l, Permutation (sort l) l.
Proof.
  induction l as [| x t IH]; simpl.
  - constructor.
  - eapply perm_trans; [apply insert_perm | apply perm_skip, IH].
Qed.

Lemma insert_hdrel :
  forall a x l, key_le a x -> HdRel key_le a l -> HdRel key_le a (insert x l).
Proof.
  intros a x l Hax Hal. destruct l as [| h t]; simpl.
  - constructor. exact Hax.
  - destruct (leb (key x) (key h)); constructor.
    + exact Hax.
    + inversion Hal; assumption.
Qed.

Lemma insert_sorted :
  forall x l, Sorted key_le l -> Sorted key_le (insert x l).
Proof.
  intros x l Hs. induction Hs as [| h t Hs IH Hh]; simpl.
  - repeat constructor.
  - destruct (leb (key x) (key h)) eqn:E.
    + constructor; [constructor; assumption | constructor; exact E].
    + constructor; [exact IH |].
      apply insert_hdrel; [apply leb_false_flip, E | exact Hh].
Qed.

Lemma sort_sorted : forall l, Sorted key_le (sort l).
Proof.
  induction l as [| x t IH]; simpl.
  - constructor.
  - apply insert_sorted, IH.
Qed.

(** A list that is already in order is left as it is. *)
Lemma sort_of_sorted : forall l, Sorted key_le l -> sort l = l.
Proof.
  intros l Hs. induction Hs as [| h t Hs IH Hh]; simpl.
  - reflexivity.
  - rewrite IH. inversion Hh as [| b t' Hb]; subst; simpl.
    + reflexivity.
    + unfold key_le in Hb. rewrite Hb. reflexivity.
Qed.

Lemma sort_idempotent : forall l, sort (sort l) = sort l.
Proof. intro l. apply sort_of_sorted, sort_sorted. Qed.

(** Stability: the elements tied with a given key keep their order. *)
Lemma tied_trans :
  forall a b c, tied a b = true -> tied b c = true -> tied a c = true.
Proof.
  unfold tied. intros a b c H1 H2.
  apply andb_true_iff in H1 as [H1 H1'].
  apply andb_true_iff in H2 as [H2 H2'].
  apply andb_true_iff. split; eapply leb_trans; eassumption.
Qed.

Lemma tied_sym : forall a b, tied a b = tied b a.
Proof. intros a b. unfold tied. apply andb_comm. Qed.

Lemma insert_filter_tied :
  forall k x l,
    filter (fun y => tied (key y) k) (insert x l)
    = filter (fun y => tied (key y) k) (x :: l).
Proof.
  intros k x l. induction l as [| h t IH]; [reflexivity |].
  cbn [insert]. destruct (leb (key x) (key h)) eqn:E; [reflexivity |].
  cbn [filter] in *. rewrite IH.
  destruct (tied (key x) k) eqn:Tx; [| reflexivity].
  destruct (tied (key h) k) eqn:Th; [| reflexivity].
  exfalso.
  assert (T : tied (key x) (key h) = true).
  { eapply tied_trans; [exact Tx | rewrite tied_sym; exact Th]. }
  unfold tied in T. rewrite E in T. discriminate T.
Qed.

Lemma sort_stable :
  forall k l,
    filter (fun y => tied (key y) k) (sort l)
    = filter (fun y => tied (key y) k) l.
Proof.
  intros k l. induction l as [| x t IH]; [reflexivity |].
  cbn [sort]. rewrite insert_filter_tied. cbn [filter]. rewrite IH.
  reflexivity.
Qed.

(** Insertions of elements with strictly ordered keys commute. *)
Lemma insert_insert :
  forall a h m,
    leb (key a) (key h) = false ->
    insert h (insert a m) = insert a (insert h m).
Proof.
  intros a h m Hah. pose proof (leb_false_flip _ _ Hah) as Hha.
  induction m as [| c m IH]; cbn [insert].
  - rewrite Hha, Hah. reflexivity.
  - destruct (leb (key a) (key c)) eqn:Eac.
    + assert (Ehc : leb (key h) (key c) = true)
        by (eapply leb_trans; eassumption).
      cbn [insert]. rewrite Hha, Ehc. cbn [insert]. rewrite Hah, Eac.
      reflexivity.
    + destruct (leb (key h) (key c)) eqn:Ehc; cbn [insert].
      * rewrite Ehc, Hah. cbn [insert]. rewrite Eac. reflexivity.
      * rewrite Ehc, Eac, IH. reflexivity.
Qed.

Lemma sort_insert_app :
  forall a s r, sort (insert a s ++ r) = insert a (sort (s ++ r)).
Proof.
  intros a s r. induction s as [| h t IH]; [reflexivity |].
  cbn [insert]. destruct (leb (key a) (key h)) eqn:E; [reflexivity |].
  cbn [app sort]. rewrite IH. apply insert_insert, E.
Qed.

(** Sorting a prefix first does not change the result of sorting the whole:
    this is what makes a sort after every append equal to one final sort. *)
Lemma sort_sort_app : forall l r, sort (sort l ++ r) = sort (l ++ r).
Proof.
  intros l r. induction l as [| a l IH]; [reflexivity |].
  cbn [sort app]. rewrite sort_insert_app, IH. reflexivity.
Qed.

End StableSortFacts.

(** ** The order of strings and of pairs of strings *)

Lemma ascii_compare_refl : forall c, Ascii.compare c c = Eq.
Proof. intro c. unfold Ascii.compare. apply N.compare_refl. Qed.

Lemma string_compare_refl : forall s, String.compare s s = Eq.
Proof.
  induction s as [| c s IH]; simpl.
  - reflexivity.
  - rewrite ascii_compare_refl. exact IH.
Qed.

Lemma string_compare_eq : forall a b, String.compare a b = Eq <-> a = b.
Proof.
  intros a b. split.
  - apply String.compare_eq_iff.
  - intros ->. apply string_compare_refl.
Qed.

Lemma ascii_compare_lt_trans :
  forall a b c,
    Ascii.compare a b = Lt -> Ascii.compare b c = Lt -> Ascii.compare a c = Lt.
Proof.
  unfold Ascii.compare. intros a b c H1 H2.
  exact (N.lt_trans _ _ _ H1 H2).
Qed.

Lemma string_compare_lt_trans :
  forall a b c,
    String.compare a b = Lt -> String.compare b c = Lt ->
    String.compare a c = Lt.
Proof.
  induction a as [| x a IH]; intros [| y b] [| z c] H1 H2;
    simpl in *; try discriminate; try reflexivity.
  destruct (Ascii.compare x y) eqn:Exy; try discriminate.
  - apply Ascii.compare_eq_iff in Exy. subst y.
    destruct (Ascii.compare x z) eqn:Exz; try discriminate.
    + eapply IH; eassumption.
    + reflexivity.
  - destruct (Ascii.compare y z) eqn:Eyz; try discriminate.
    + apply Ascii.compare_eq_iff in Eyz. subst z. rewrite Exy. reflexivity.
    + rewrite (ascii_compare_lt_trans _ _ _ Exy Eyz). reflexivity.
Qed.

Lemma string_compare_gt_lt :
  forall a b, String.compare a b = Gt <-> String.compare b a = Lt.
Proof.
  intros a b. rewrite (String.compare_antisym a b).
  destruct (String.compare b a); simpl; split; congruence.
Qed.

Lemma string_leb_trans :
  forall a b c,
    String.leb a b = true -> String.leb b c = true -> String.leb a c = true.
Proof.
  unfold String.leb. intros a b c H1 H2.
  destruct (String.compare a b) eqn:Eab; try discriminate;
    destruct (String.compare b c) eqn:Ebc; try discriminate.
  - apply string_compare_eq in Eab. subst b. rewrite Ebc. reflexivity.
  - apply string_compare_eq in Eab. subst b. rewrite Ebc. reflexivity.
  - apply string_compare_eq in Ebc. subst c. rewrite Eab. reflexivity.
  - rewrite (string_compare_lt_trans _ _ _ Eab Ebc). reflexivity.
Qed.

Lemma pair_leb_total :
  forall a b, pair_leb a b = true \/ pair_leb b a = true.
Proof.
  intros [a1 a2] [b1 b2]. unfold pair_leb. simpl.
  destruct (String.compare a1 b1) eqn:E.
  - apply string_compare_eq in E. subst b1.
    rewrite string_compare_refl. apply String.leb_total.
  - left. reflexivity.
  - right. apply string_compare_gt_lt in E. rewrite E. reflexivity.
Qed.

Lemma pair_leb_trans :
  forall a b c,
    pair_leb a b = true -> pair_leb b c = true -> pair_leb a c = true.
Proof.
  intros [a1 a2] [b1 b2] [c1 c2]. unfold pair_leb. simpl. intros H1 H2.
  destruct (String.compare a1 b1) eqn:Eab; try discriminate.
  - apply string_compare_eq in Eab. subst b1.
    destruct (String.compare a1 c1) eqn:Eac; try discriminate.
    + eapply string_leb_trans; eassumption.
    + reflexivity.
  - destruct (String.compare b1 c1) eqn:Ebc; try discriminate.
    + apply string_compare_eq in Ebc. subst c1. rewrite Eab. reflexivity.
    + rewrite (string_compare_lt_trans _ _ _ Eab Ebc). reflexivity.
Qed.

(** Two keys are tied only when they are the same pair of strings. *)
Lemma pair_leb_antisym :
  forall a b, pair_leb a b = true -> pair_leb b a = true -> a = b.
Proof.
  intros [a1 a2] [b1 b2]. unfold pair_leb. simpl. intros H1 H2.
  destruct (String.compare a1 b1) eqn:Eab; try discriminate.
  - apply string_compare_eq in Eab. subst b1.
    rewrite string_compare_refl in H2.
    rewrite (String.leb_antisym _ _ H1 H2). reflexivity.
  - pose proof Eab as E'. rewrite String.compare_antisym in E'.
    destruct (String.compare b1 a1); simpl in E'; discriminate.
Qed.

Lemma Zleb_total : forall a b : Z, (a <=? b) = true \/ (b <=? a) = true.
Proof.
  intros a b. destruct (Z.leb_spec a b); [left; reflexivity | right].
  apply Z.leb_le. lia.
Qed.

Lemma Zleb_trans :
  forall a b c : Z, (a <=? b) = true -> (b <=? c) = true -> (a <=? c) = true.
Proof. intros a b c H1 H2. apply Z.leb_le in H1, H2. apply Z.leb_le. lia. Qed.

(** ** The settings registry *)

Lemma panel_eqb_eq : forall p q, panel_eqb p q = true <-> p = q.
Proof.
  intros [a |] [b |]; simpl; split; intro H;
    try discriminate; try reflexivity.
  - apply String.eqb_eq in H. subst. reflexivity.
  - injection H as ->. apply String.eqb_refl.
Qed.

Lemma get_panel_settings_loop :
  forall (p : option string) (l acc : list GeneralSetting.t),
    fold_left
      (fun payload setting =>
         if panel_eqb (GeneralSetting.panel setting) p
         then payload ++ [setting] else payload) l acc
    = acc ++ spec_settingsForPanel l p.
Proof.
  intros p l. induction l as [| s l IH]; intro acc; simpl.
  - rewrite app_nil_r. reflexivity.
  - rewrite IH. destruct (panel_eqb (GeneralSetting.panel s) p).
    + rewrite <- app_assoc. reflexivity.
    + reflexivity.
Qed.

Lemma register_general_settings_appends :
  forall regs self,
    general_settings (register_general_settings self regs)
    = general_settings self ++ regs.
Proof.
  induction regs as [| s regs IH]; intro self.
  - simpl. rewrite app_nil_r. reflexivity.
  - unfold register_general_settings in *. cbn [fold_left]. rewrite IH.
    unfold general_settings. simpl. rewrite <- app_assoc.
    destruct s. reflexivity.
Qed.

(** C4. For every sequence of registered general settings and every panel
    name [p], [get_panel_settings p] is exactly the registered settings whose
    panel is [p], in registration order: it is the registry with the other
    settings filtered out, and a setting is in the result if and only if it
    was registered with panel [p]. *)
Theorem C4_get_panel_settings_filters_in_order :
  forall (regs : list GeneralSetting.t) (p : option string),
    let ui := register_general_settings init regs in
    general_settings ui = regs
    /\ get_panel_settings ui p = spec_settingsForPanel regs p
    /\ (forall s, In s (get_panel_settings ui p)
                  <-> In s regs /\ GeneralSetting.panel s = p).
Proof.
  intros regs p ui.
  assert (Hreg : general_settings ui = regs).
  { unfold ui. rewrite register_general_settings_appends. reflexivity. }
  assert (Hget : get_panel_settings ui p = spec_settingsForPanel regs p).
  { unfold get_panel_settings. rewrite get_panel_settings_loop, Hreg.
    reflexivity. }
  split; [exact Hreg | split; [exact Hget |]].
  intro s. rewrite Hget. unfold spec_settingsForPanel.
  rewrite filter_In, panel_eqb_eq. reflexivity.
Qed.

(** ** Emitters that also trigger an event *)

(** C6. A call of [emit_priority_message] that goes to all clients triggers
    exactly one event, [MESSAGE_INTERRUPT] when [interrupt] is set and
    [MESSAGE_STANDARD] otherwise, whose data holds the message and the
    interrupt flag of the wire payload and the caller; the payload then goes
    to all clients. *)
Theorem C6_priority_message_one_event :
  forall (message : value) (interrupt : bool) (caller : value) (params : dict),
    has_key "nobroadcast" params = false ->
    emit_priority_message message interrupt caller params
    = ([EventTrigger
          (if interrupt then Evt.MESSAGE_INTERRUPT else Evt.MESSAGE_STANDARD)
          (VDict [("message", message); ("interrupt", VBool interrupt);
                  ("caller", caller)]);
        SocketEmit "priority_message"
          (VDict [("message", message); ("interrupt", VBool interrupt)]) All],
       inr tt).
Proof.
  intros message interrupt caller params Hp.
  unfold emit_priority_message. rewrite Hp.
  destruct interrupt; reflexivity.
Qed.

Lemma C6_priority_message_one_event_witness :
  emit_priority_message (VStr "Race stopped") true (VStr "race") []
  = ([EventTrigger Evt.MESSAGE_INTERRUPT
        (VDict [("message", VStr "Race stopped"); ("interrupt", VBool true);
                ("caller", VStr "race")]);
      SocketEmit "priority_message"
        (VDict [("message", VStr "Race stopped"); ("interrupt", VBool true)])
        All],
     inr tt)
  /\ emit_priority_message (VStr "Heat saved") false (VBool false) []
     = ([EventTrigger Evt.MESSAGE_STANDARD
           (VDict [("message", VStr "Heat saved"); ("interrupt", VBool false);
                   ("caller", VBool false)]);
         SocketEmit "priority_message"
           (VDict [("message", VStr "Heat saved"); ("interrupt", VBool false)])
           All],
        inr tt).
Proof.
  split.
  - apply (C6_priority_message_one_event
             (VStr "Race stopped") true (VStr "race") []). reflexivity.
  - apply (C6_priority_message_one_event
             (VStr "Heat saved") false (VBool false) []). reflexivity.
Defined.

(** C9. A broadcast call of [emit_first_pass_registered] with node index [n]
    triggers exactly one [RACE_FIRST_PASS] event whose data holds [n] and
    sends one [first_pass_registered] message with [node_index = n] to all
    clients. *)
Theorem C9_first_pass_event_and_message :
  forall (n : value) (params : dict),
    has_key "nobroadcast" params = false ->
    emit_first_pass_registered n params
    = ([EventTrigger Evt.RACE_FIRST_PASS (VDict [("node_index", n)]);
        SocketEmit "first_pass_registered" (VDict [("node_index", n)]) All],
       inr tt).
Proof.
  intros n params Hp. unfold emit_first_pass_registered. rewrite Hp.
  reflexivity.
Qed.

Lemma C9_first_pass_event_and_message_witness :
  emit_first_pass_registered (VInt 3) []
  = ([EventTrigger Evt.RACE_FIRST_PASS (VDict [("node_index", VInt 3)]);
      SocketEmit "first_pass_registered" (VDict [("node_index", VInt 3)]) All],
     inr tt).
Proof.
  apply (C9_first_pass_event_and_message (VInt 3) []). reflexivity.
Defined.

(** ** The result data *)

(** With [nobroadcast] and a session id the cache goes to that session
    only. *)
Lemma emit_result_data_to_caller :
  forall rc params sid payload,
    has_key "nobroadcast" params = true ->
    request rc = Some (Some sid) ->
    get_cache rc = inr payload ->
    emit_result_data rc params
    = ([SocketEmit "result_data" payload (Room sid)], inr tt).
Proof.
  intros rc params sid payload Hp Hr Hc.
  unfold emit_result_data, emit_result_data_thread. rewrite Hr, Hp, Hc.
  reflexivity.
Qed.

(** C2, as the code has it.  A caller-only request for the result data made
    without a session id is not dropped with a warning.  While no request is
    being served, the task is started without session id: whenever the page
    cache can be built it is sent once, to all sessions, and nothing is
    logged; only a failure of the cache itself is logged, and then nothing is
    sent.  Inside a request that has no session id the call raises and sends
    nothing.  The task started without a session id behaves as in the first
    case. *)
Theorem C2_result_data_without_caller_is_broadcast :
  forall (rc : RaceContext) (params : dict),
    has_key "nobroadcast" params = true ->
    (request rc = None ->
     (forall payload,
        get_cache rc = inr payload ->
        emit_result_data rc params
        = ([SocketEmit "result_data" payload All], inr tt))
     /\ (forall e,
           get_cache rc = inl e ->
           exists msg,
             emit_result_data rc params = ([LoggerException msg e], inr tt)))
    /\ (request rc = Some None ->
        emit_result_data rc params
        = ([], inl (AttributeError
                      "'Request' object has no attribute 'sid'")))
    /\ (forall payload,
          get_cache rc = inr payload ->
          emit_result_data_thread rc params None
          = ([SocketEmit "result_data" payload All], inr tt))
    /\ (forall e,
          get_cache rc = inl e ->
          exists msg,
            emit_result_data_thread rc params None
            = ([LoggerException msg e], inr tt)).
Proof.
  intros rc params Hp.
  assert (Hok : forall payload,
            get_cache rc = inr payload ->
            emit_result_data_thread rc params None
            = ([SocketEmit "result_data" payload All], inr tt)).
  { intros payload Hc. unfold emit_result_data_thread. rewrite Hp, Hc.
    reflexivity. }
  assert (Hfail : forall e,
            get_cache rc = inl e ->
            exists msg,
              emit_result_data_thread rc params None
              = ([LoggerException msg e], inr tt)).
  { intros e Hc. unfold emit_result_data_thread. rewrite Hc.
    eexists. reflexivity. }
  split; [| split; [| split; [exact Hok | exact Hfail]]].
  - intro Hr. unfold emit_result_data. rewrite Hr. split.
    + intros payload Hc. rewrite (Hok payload Hc). reflexivity.
    + intros e Hc. destruct (Hfail e Hc) as [msg Hm].
      exists msg. rewrite Hm. reflexivity.
  - intro Hr. unfold emit_result_data. rewrite Hr. reflexivity.
Qed.

Lemma C2_result_data_without_caller_is_broadcast_witness :
  emit_result_data sample_context nobroadcast
  = ([SocketEmit "result_data" (VDict [("heats", VDict [])]) All], inr tt)
  /\ (exists msg,
        emit_result_data
          (with_cache sample_context (inl (RuntimeError "cache")))
          nobroadcast
        = ([LoggerException msg (RuntimeError "cache")], inr tt))
  /\ emit_result_data (with_request sample_context (Some None)) nobroadcast
     = ([], inl (AttributeError "'Request' object has no attribute 'sid'")).
Proof.
  split; [| split].
  - destruct (C2_result_data_without_caller_is_broadcast
                sample_context nobroadcast eq_refl) as [H _].
    destruct (H eq_refl) as [Hok _].
    apply (Hok (VDict [("heats", VDict [])])). reflexivity.
  - destruct (C2_result_data_without_caller_is_broadcast
                (with_cache sample_context (inl (RuntimeError "cache")))
                nobroadcast eq_refl) as [H _].
    destruct (H eq_refl) as [_ Hfail].
    apply (Hfail (RuntimeError "cache")). reflexivity.
  - destruct (C2_result_data_without_caller_is_broadcast
                (with_request sample_context (Some None))
                nobroadcast eq_refl) as [_ [H _]].
    apply H. reflexivity.
Defined.

(** The claim of C2 fails: with [nobroadcast] and no request the message is
    not dropped with a warning, it is sent to all sessions. *)
Lemma C2_counterexample :
  has_key "nobroadcast" nobroadcast = true
  /\ request sample_context = None
  /\ ~ dropped_with_warning (emit_result_data sample_context nobroadcast)
  /\ In (SocketEmit "result_data" (VDict [("heats", VDict [])]) All)
        (trace (emit_result_data sample_context nobroadcast)).
Proof.
  repeat split.
  - intros [H _]. vm_compute in H. discriminate H.
  - vm_compute. left. reflexivity.
Qed.

(** ** Heat data *)

Lemma emit_heat_data_no_params :
  forall rc,
    emit_heat_data rc []
    = ([SocketEmit "heat_data" (heat_data_payload rc) All], inr tt).
Proof. intro rc. reflexivity. Qed.

(** The slots of a heat are its heat nodes, in the order of the sort key. *)
Lemma slots_sorted_by_key :
  forall rc heat_id,
    Sorted (key_le heatNodeSorter Z.leb) (sorted_heatNodes rc heat_id)
    /\ Permutation (sorted_heatNodes rc heat_id)
                   (get_heatNodes_by_heat rc heat_id).
Proof.
  intros rc heat_id. unfold sorted_heatNodes. split.
  - apply sort_sorted. exact Zleb_total.
  - apply sort_perm.
Qed.

(** The sort key of node index 0 is the key of a missing node index. *)
Lemma heatNodeSorter_zero :
  forall n, HeatNode.node_index n = Some 0 -> heatNodeSorter n = -1.
Proof. intros n H. unfold heatNodeSorter. rewrite H. reflexivity. Qed.

Lemma heatNodeSorter_none :
  forall n, HeatNode.node_index n = None -> heatNodeSorter n = -1.
Proof. intros n H. unfold heatNodeSorter. rewrite H. reflexivity. Qed.

(** C1, at the registration order (0, none).  The node indices 2, none, 0
    come out as none, 0, 2; but node index 0 gets the key -1 of a missing
    index, so a node with index 0 registered before a node without index
    stays in front of it: the slots of heat 1 are (0, none), not
    (none, 0). *)
Theorem C1_heat_slots_zero_before_missing :
  slot_node_indices sample_context 1 = [None; Some 0; Some 2]
  /\ slot_node_indices zero_first_context 1 = [Some 0; None]
  /\ map heatNodeSorter (get_heatNodes_by_heat zero_first_context 1)
     = [-1; -1]
  /\ emit_heat_data zero_first_context []
     = ([SocketEmit "heat_data"
           (VDict
              [("heats",
                VList
                  [VDict
                     [("id", VInt 1); ("note", VStr "qualifier");
                      ("displayname", VStr "Heat 1"); ("class_id", VInt 1);
                      ("order", VInt 0); ("status", VInt 0);
                      ("auto_frequency", VBool false);
                      ("slots",
                       VList
                         [VDict
                            [("id", VInt 20); ("node_index", VInt 0);
                             ("pilot_id", VInt 1); ("color", VNone);
                             ("method", VInt 0); ("seed_rank", VNone);
                             ("seed_id", VNone)];
                          VDict
                            [("id", VInt 21); ("node_index", VNone);
                             ("pilot_id", VInt 2); ("color", VNone);
                             ("method", VInt 0); ("seed_rank", VNone);
                             ("seed_id", VNone)]]);
                      ("dynamic", VBool false); ("locked", VBool false)]])])
           All],
        inr tt).
Proof. repeat split. Qed.

(** ** Pilot data is followed by heat data *)

(** C10. Whatever its parameters, [emit_pilot_data] sends the pilot data to
    the destination that the parameters select and then calls [emit_heat_data]
    without parameters: a heat-data message to all sessions follows. *)
Theorem C10_pilot_data_then_heat_data_to_all :
  forall (self : RHUI) (rc : RaceContext) (params : dict),
    emit_pilot_data self rc params
    = ([SocketEmit "pilot_data" (pilot_data_payload self rc)
          (if has_key "nobroadcast" params then Caller
           else if has_key "noself" params then AllExceptCaller else All)]
       ++ trace (emit_heat_data rc []),
       inr tt)
    /\ trace (emit_heat_data rc [])
       = [SocketEmit "heat_data" (heat_data_payload rc) All].
Proof.
  intros self rc params. split; [| reflexivity].
  unfold emit_pilot_data.
  destruct (has_key "nobroadcast" params); [reflexivity |].
  destruct (has_key "noself" params); reflexivity.
Qed.

(** ** A pilot that is not there *)

Lemma emit_phonetic_split_without_pilot :
  forall rc pilot_id split_id split_time params,
    get_pilot rc pilot_id = None ->
    emit_phonetic_split rc pilot_id split_id split_time params
    = ([], inl (AttributeError
                  "'NoneType' object has no attribute 'phonetic'")).
Proof.
  intros rc pilot_id split_id split_time params H.
  unfold emit_phonetic_split. rewrite H. reflexivity.
Qed.

Lemma emit_phonetic_data_without_pilot :
  forall rc pilot_id lap_id lap_time team_name team_laps leader_flag
         node_finished params,
    get_pilot rc pilot_id = None ->
    has_key "nobroadcast" params = false ->
    emit_phonetic_data rc pilot_id lap_id lap_time team_name team_laps
      leader_flag node_finished None params
    = ([SocketEmit "phonetic_data"
          (VDict
             [("lap", lap_id); ("raw_time", lap_time);
              ("phonetic",
               VStr (phonetictime_format rc lap_time
                       (get_option rc "timeFormatPhonetic")));
              ("team_name", team_name); ("team_laps", team_laps);
              ("leader_flag", leader_flag);
              ("node_finished", node_finished);
              ("pilot", VNone); ("callsign", VNone); ("pilot_id", VNone)])
          All],
       inr tt).
Proof.
  intros. unfold emit_phonetic_data. rewrite H, H0. reflexivity.
Qed.

(** C3, at a pilot id that no pilot has.  [emit_phonetic_data] sends its
    payload with the pilot fields set to none; [emit_phonetic_split] reads
    the phonetic name of the missing pilot, raises and sends nothing. *)
Theorem C3_phonetic_split_fails_without_pilot :
  get_pilot sample_context 7 = None
  /\ emit_phonetic_split sample_context 7 0 (VInt 1234) []
     = ([], inl (AttributeError
                   "'NoneType' object has no attribute 'phonetic'"))
  /\ emit_phonetic_data sample_context 7 (VInt 1) (VInt 1234) VNone VNone
       (VBool false) (VBool false) None []
     = ([SocketEmit "phonetic_data"
           (VDict
              [("lap", VInt 1); ("raw_time", VInt 1234);
               ("phonetic", VStr "12.3");
               ("team_name", VNone); ("team_laps", VNone);
               ("leader_flag", VBool false);
               ("node_finished", VBool false);
               ("pilot", VNone); ("callsign", VNone); ("pilot_id", VNone)])
           All],
        inr tt).
Proof. repeat split. Qed.

(** ** The frequency list of the IMD rating *)

Lemma filter_filter :
  forall (A : Type) (p q : A -> bool) (l : list A),
    filter p (filter q l) = filter (fun y => p y && q y) l.
Proof.
  intros A p q l. induction l as [| x l IH]; simpl.
  - reflexivity.
  - destruct (q x); simpl.
    + rewrite andb_true_r. destruct (p x); rewrite IH; reflexivity.
    + rewrite andb_false_r. exact IH.
Qed.

Lemma fromkeys_loop :
  forall l keys,
    fold_left
      (fun keys x => if existsb (Z.eqb x) keys then keys else keys ++ [x])
      l keys
    = keys ++ filter (fun y => negb (existsb (Z.eqb y) keys)) (spec_dedup l).
Proof.
  induction l as [| x l IH]; intro keys; simpl.
  - rewrite app_nil_r. reflexivity.
  - rewrite IH. destruct (existsb (Z.eqb x) keys) eqn:E; simpl.
    + f_equal. rewrite filter_filter. apply filter_ext. intro y.
      destruct (Z.eqb_spec y x) as [-> | _]; simpl.
      * rewrite E. reflexivity.
      * rewrite andb_true_r. reflexivity.
    + rewrite <- app_assoc. simpl. do 2 f_equal.
      rewrite filter_filter. apply filter_ext. intro y.
      rewrite existsb_app. simpl. rewrite orb_false_r, negb_orb.
      reflexivity.
Qed.

(** [fromkeys] keeps the first occurrence of every value. *)
Lemma fromkeys_spec : forall l, fromkeys l = spec_dedup l.
Proof.
  intro l. unfold fromkeys. rewrite fromkeys_loop. simpl.
  induction (spec_dedup l) as [| y t IH]; simpl; [| rewrite IH]; reflexivity.
Qed.

Lemma spec_dedup_In : forall l x, In x (spec_dedup l) <-> In x l.
Proof.
  induction l as [| a l IH]; intro x; simpl; [reflexivity |].
  rewrite filter_In, IH. split.
  - intros [H | [H _]]; auto.
  - intros [H | H]; [left; exact H |].
    destruct (Z.eqb_spec x a) as [-> | Hne]; [left; reflexivity |].
    right. split; [exact H | reflexivity].
Qed.

Lemma spec_dedup_NoDup : forall l, NoDup (spec_dedup l).
Proof.
  induction l as [| a l IH]; simpl; constructor.
  - rewrite filter_In. intros [_ H]. rewrite Z.eqb_refl in H. discriminate H.
  - apply NoDup_filter, IH.
Qed.

Lemma In_firstn_In :
  forall (A : Type) (n : nat) (l : list A) (x : A),
    In x (firstn n l) -> In x l.
Proof.
  induction n as [| n IH]; intros [| a l] x H; simpl in *; try contradiction.
  destruct H as [H | H]; [left; exact H | right; apply IH, H].
Qed.

Lemma rating_loop :
  forall fi acc,
    fold_left
      (fun fs_list val => if 0 <? val then fs_list ++ [str val] else fs_list)
      fi acc
    = acc ++ map str (filter (fun v => 0 <? v) fi).
Proof.
  induction fi as [| v fi IH]; intro acc; simpl.
  - rewrite app_nil_r. reflexivity.
  - rewrite IH. destruct (0 <? v); simpl.
    + rewrite <- app_assoc. reflexivity.
    + reflexivity.
Qed.

(** The list of the rating: first occurrences, values above zero only. *)
Lemma rating_fs_list_positive :
  forall rc pf,
    rating_fs_list rc pf
    = map str (filter (fun v => 0 <? v)
                      (spec_dedup (firstn (num_nodes rc) (freq_f pf)))).
Proof.
  intros rc pf. unfold rating_fs_list. rewrite rating_loop, fromkeys_spec.
  reflexivity.
Qed.

Lemma emit_imdtabler_rating_skips :
  forall rc pf jar,
    profile_frequencies rc = inr pf ->
    (List.length (rating_fs_list rc pf) < 3)%nat ->
    emit_imdtabler_rating rc jar
    = ([SocketEmit "imdtabler_rating" (VDict [("imd_rating", VNone)]) All],
       inr tt).
Proof.
  intros rc pf jar Hpf Hlen.
  unfold emit_imdtabler_rating, imd_rating. rewrite Hpf. simpl.
  destruct (2 <? Z.of_nat (List.length (rating_fs_list rc pf))) eqn:E.
  - apply Z.ltb_lt in E. lia.
  - reflexivity.
Qed.

Lemma emit_imdtabler_data_skips :
  forall rc jar fs_list ver params,
    (List.length fs_list < 3)%nat ->
    emit_imdtabler_data rc jar fs_list ver params
    = ([SocketEmit "imdtabler_data"
          (VDict [("freq_list", VStr (join " " fs_list));
                  ("table_data", VNone);
                  ("version_str", ver)])
          (if has_key "nobroadcast" params then Caller else All)],
       inr tt).
Proof.
  intros rc jar fs_list ver params Hlen. unfold emit_imdtabler_data.
  destruct (2 <? Z.of_nat (List.length fs_list)) eqn:E.
  - apply Z.ltb_lt in E. lia.
  - simpl. destruct (has_key "nobroadcast" params); reflexivity.
Qed.

Lemma filter_length_le :
  forall (A : Type) (p q : A -> bool) (l : list A),
    (forall x, p x = true -> q x = true) ->
    (List.length (filter p l) <= List.length (filter q l))%nat.
Proof.
  intros A p q l Hpq. induction l as [| x l IH]; simpl; [lia |].
  destruct (p x) eqn:Ep.
  - rewrite (Hpq x Ep). simpl. lia.
  - destruct (q x); simpl; lia.
Qed.

(** The list of a prefix of the frequencies is not longer than the list of
    all of them. *)
Lemma spec_frequency_list_firstn :
  forall n l,
    (List.length (spec_frequency_list (firstn n l))
     <= List.length (spec_frequency_list l))%nat.
Proof.
  intros n l. unfold spec_frequency_list. apply NoDup_incl_length.
  - apply NoDup_filter, spec_dedup_NoDup.
  - intros x Hx. apply filter_In in Hx. destruct Hx as [Hx Hnz].
    apply filter_In. split; [| exact Hnz].
    apply spec_dedup_In. apply (proj1 (spec_dedup_In _ _)) in Hx.
    apply In_firstn_In in Hx. exact Hx.
Qed.

(** The list of the rating is never longer than the de-duplicated,
    zero-filtered list. *)
Lemma rating_fs_list_length :
  forall rc pf,
    (List.length (rating_fs_list rc pf)
     <= List.length
          (spec_frequency_list (firstn (num_nodes rc) (freq_f pf))))%nat.
Proof.
  intros rc pf. rewrite rating_fs_list_positive, length_map.
  unfold spec_frequency_list. apply filter_length_le.
  intros v Hv. apply Z.ltb_lt in Hv.
  destruct (Z.eqb_spec v 0); [lia | reflexivity].
Qed.

(** For frequencies that are not negative the list of the rating is the
    de-duplicated, zero-filtered list; and however the frequencies are, the
    rating is skipped when the de-duplicated, zero-filtered list, of the
    first [num_nodes] frequencies or of all of them, has fewer than 3
    entries. *)
Lemma rating_fs_list_zero_filtered :
  forall (rc : RaceContext) (pf : Frequencies) (jar : string),
    profile_frequencies rc = inr pf ->
    let fs := spec_frequency_list (firstn (num_nodes rc) (freq_f pf)) in
    (Forall (fun v => 0 <= v) (freq_f pf) ->
     rating_fs_list rc pf = map str fs)
    /\ ((List.length fs < 3)%nat
        \/ (List.length (spec_frequency_list (freq_f pf)) < 3)%nat ->
        emit_imdtabler_rating rc jar
        = ([SocketEmit "imdtabler_rating" (VDict [("imd_rating", VNone)])
              All],
           inr tt))
    /\ (forall (fs_list : list string) (ver : value) (params : dict),
          (List.length fs_list < 3)%nat ->
          emit_imdtabler_data rc jar fs_list ver params
          = ([SocketEmit "imdtabler_data"
                (VDict [("freq_list", VStr (join " " fs_list));
                        ("table_data", VNone);
                        ("version_str", ver)])
                (if has_key "nobroadcast" params then Caller else All)],
             inr tt)).
Proof.
  intros rc pf jar Hpf fs.
  split; [| split].
  - intro Hpos. rewrite rating_fs_list_positive.
    unfold fs, spec_frequency_list.
    f_equal. apply filter_ext_in. intros v Hv.
    apply (proj1 (spec_dedup_In _ _)) in Hv. apply In_firstn_In in Hv.
    rewrite Forall_forall in Hpos. specialize (Hpos v Hv).
    destruct (Z.ltb_spec 0 v), (Z.eqb_spec v 0); simpl; try reflexivity; lia.
  - intro Hlen. apply (emit_imdtabler_rating_skips rc pf jar Hpf).
    pose proof (rating_fs_list_length rc pf) as H1.
    pose proof (spec_frequency_list_firstn (num_nodes rc) (freq_f pf)) as H2.
    fold fs in H1, H2. destruct Hlen as [Hlen | Hlen]; lia.
  - intros fs_list ver params Hlen.
    apply emit_imdtabler_data_skips. exact Hlen.
Qed.

(** C5, as the code has it.  The frequency list of the IMD rating is built
    from the frequencies of the first [num_nodes] nodes of the profile, as
    the de-duplicated (first occurrence kept, order of first occurrence) list
    of the values greater than zero, as text.  When it has fewer than 3
    entries no command is run and the message holds [imd_rating = None].
    [emit_imdtabler_data] runs no command either for a list of fewer than 3
    entries, and sends [table_data = None]. *)
Theorem C5_imd_rating_positive_prefix_list :
  forall (rc : RaceContext) (pf : Frequencies) (jar : string),
    profile_frequencies rc = inr pf ->
    let fs := positive_frequency_list (firstn (num_nodes rc) (freq_f pf)) in
    rating_fs_list rc pf = map str fs
    /\ ((List.length fs < 3)%nat ->
        emit_imdtabler_rating rc jar
        = ([SocketEmit "imdtabler_rating" (VDict [("imd_rating", VNone)])
              All],
           inr tt))
    /\ (forall (fs_list : list string) (ver : value) (params : dict),
          (List.length fs_list < 3)%nat ->
          emit_imdtabler_data rc jar fs_list ver params
          = ([SocketEmit "imdtabler_data"
                (VDict [("freq_list", VStr (join " " fs_list));
                        ("table_data", VNone);
                        ("version_str", ver)])
                (if has_key "nobroadcast" params then Caller else All)],
             inr tt)).
Proof.
  intros rc pf jar Hpf fs.
  assert (Hfs : rating_fs_list rc pf = map str fs)
    by apply rating_fs_list_positive.
  split; [exact Hfs | split].
  - intro Hlen. apply (emit_imdtabler_rating_skips rc pf jar Hpf).
    rewrite Hfs, length_map. exact Hlen.
  - intros fs_list ver params Hlen.
    apply emit_imdtabler_data_skips. exact Hlen.
Qed.

Lemma C5_imd_rating_positive_prefix_list_witness :
  freq_f_of sample_context = [5800; 5800; 0; 5880; 0; 5800]
  /\ num_nodes sample_context = 6%nat
  /\ rating_fs_list_of sample_context = ["5800"; "5880"]
  /\ emit_imdtabler_rating sample_context "IMDTabler.jar"
     = ([SocketEmit "imdtabler_rating" (VDict [("imd_rating", VNone)]) All],
        inr tt).
Proof.
  pose (pf := mkFrequencies
                [Some "R"; Some "R"; None; Some "R"; None; Some "R"]
                [Some 3; Some 3; None; Some 7; None; Some 3]
                [5800; 5800; 0; 5880; 0; 5800]).
  destruct (C5_imd_rating_positive_prefix_list sample_context pf
              "IMDTabler.jar" eq_refl) as [Hfs [Hskip _]].
  split; [reflexivity | split; [reflexivity | split]].
  - unfold rating_fs_list_of. simpl. fold pf. rewrite Hfs. reflexivity.
  - apply Hskip. simpl. lia.
Defined.

(** The claim of C5 fails.  With two nodes the list of the claim's own
    frequencies is taken from the first two of them only, and a negative
    value is dropped although it is not zero: in both cases the list is not
    the de-duplicated, zero-filtered list of the profile's frequencies. *)
Lemma C5_counterexample :
  (profile_frequencies two_of_six_context
   = inr sample_frequencies
   /\ freq_f sample_frequencies = [5800; 5800; 0; 5880; 0; 5800]
   /\ rating_fs_list two_of_six_context sample_frequencies = ["5800"]
   /\ map str (spec_frequency_list (freq_f sample_frequencies))
      = ["5800"; "5880"])
  /\ (profile_frequencies negative_frequency_context
      = inr negative_frequencies
      /\ freq_f negative_frequencies = [-5; 5800; 5880]
      /\ rating_fs_list negative_frequency_context negative_frequencies
         = ["5800"; "5880"]
      /\ map str (spec_frequency_list (freq_f negative_frequencies))
         = ["-5"; "5800"; "5880"])
  /\ rating_fs_list two_of_six_context sample_frequencies
     <> map str (spec_frequency_list (freq_f sample_frequencies))
  /\ rating_fs_list negative_frequency_context negative_frequencies
     <> map str (spec_frequency_list (freq_f negative_frequencies)).
Proof.
  repeat split; try reflexivity; vm_compute; discriminate.
Qed.

(** ** Failures of the analysis tool *)

Lemma try_except_outcome :
  forall (m : M value) (h : exn -> M value),
    (forall e, exists t, h e = (t, inr VNone)) ->
    exists t v, try_except m h = (t, inr v).
Proof.
  intros [t [e | v]] h Hh; simpl.
  - destruct (Hh e) as [t' Ht']. rewrite Ht'. eauto.
  - eauto.
Qed.

Lemma emit_imdtabler_data_returns :
  forall rc jar fs_list ver params,
    outcome (emit_imdtabler_data rc jar fs_list ver params) = inr tt.
Proof.
  intros rc jar fs_list ver params. unfold emit_imdtabler_data.
  match goal with
  | |- context [try_except ?m ?h] =>
      destruct (try_except_outcome m h) as [t [v Hv]]
  end.
  - intro e. eexists. reflexivity.
  - rewrite Hv. simpl. destruct (has_key "nobroadcast" params); reflexivity.
Qed.

Lemma emit_imdtabler_rating_returns :
  forall rc jar, outcome (emit_imdtabler_rating rc jar) = inr tt.
Proof.
  intros rc jar. unfold emit_imdtabler_rating.
  match goal with
  | |- context [try_except ?m ?h] =>
      destruct (try_except_outcome m h) as [t [v Hv]]
  end.
  - intro e. eexists. reflexivity.
  - rewrite Hv. reflexivity.
Qed.

(** C8. [emit_imdtabler_data] and [emit_imdtabler_rating] never raise.  When
    the command of the analysis tool fails with an exception [e] (a non-zero
    exit, a missing program, a timeout), the exception is logged and the
    message is sent with its data field set to [None]. *)
Theorem C8_tool_failure_logged_and_null :
  forall (rc : RaceContext) (jar : string) (fs_list : list string)
         (ver : value) (params : dict),
    outcome (emit_imdtabler_data rc jar fs_list ver params) = inr tt
    /\ outcome (emit_imdtabler_rating rc jar) = inr tt
    /\ (forall e,
          (2 < List.length fs_list)%nat ->
          check_output rc
            ("java -jar " ++ jar ++ " -t " ++ join " " fs_list)%string
          = inl e ->
          emit_imdtabler_data rc jar fs_list ver params
          = ([CheckOutput
                ("java -jar " ++ jar ++ " -t " ++ join " " fs_list)%string;
              LoggerException "emit_imdtabler_data exception" e;
              SocketEmit "imdtabler_data"
                (VDict [("freq_list", VStr (join " " fs_list));
                        ("table_data", VNone);
                        ("version_str", ver)])
                (if has_key "nobroadcast" params then Caller else All)],
             inr tt))
    /\ (forall e pf,
          profile_frequencies rc = inr pf ->
          (2 < List.length (rating_fs_list rc pf))%nat ->
          check_output rc
            ("java -jar " ++ jar ++ " -r "
             ++ join " " (rating_fs_list rc pf))%string
          = inl e ->
          emit_imdtabler_rating rc jar
          = ([CheckOutput
                ("java -jar " ++ jar ++ " -r "
                 ++ join " " (rating_fs_list rc pf))%string;
              LoggerException "emit_imdtabler_rating exception" e;
              SocketEmit "imdtabler_rating"
                (VDict [("imd_rating", VNone)]) All],
             inr tt)).
Proof.
  intros rc jar fs_list ver params.
  split; [apply emit_imdtabler_data_returns |].
  split; [apply emit_imdtabler_rating_returns |].
  split.
  - intros e Hlen He. unfold emit_imdtabler_data.
    replace (2 <? Z.of_nat (List.length fs_list)) with true
      by (symmetry; apply Z.ltb_lt; lia).
    unfold subprocess_check_output. simpl in He |- *. rewrite He. simpl.
    destruct (has_key "nobroadcast" params); reflexivity.
  - intros e pf Hpf Hlen He. unfold emit_imdtabler_rating, imd_rating.
    rewrite Hpf. simpl.
    replace (2 <? Z.of_nat (List.length (rating_fs_list rc pf))) with true
      by (symmetry; apply Z.ltb_lt; lia).
    unfold subprocess_check_output. simpl in He |- *. rewrite He.
    reflexivity.
Qed.

Lemma C8_tool_failure_logged_and_null_witness :
  emit_imdtabler_data failing_tool_context "IMDTabler.jar"
    ["5658"; "5695"; "5760"] VNone []
  = ([CheckOutput "java -jar IMDTabler.jar -t 5658 5695 5760";
      LoggerException "emit_imdtabler_data exception"
        (TimeoutExpired "java -jar IMDTabler.jar -t 5658 5695 5760");
      SocketEmit "imdtabler_data"
        (VDict [("freq_list", VStr "5658 5695 5760");
                ("table_data", VNone);
                ("version_str", VNone)]) All],
     inr tt)
  /\ emit_imdtabler_rating failing_tool_context "IMDTabler.jar"
     = ([CheckOutput "java -jar IMDTabler.jar -r 5658 5695 5760 5800";
         LoggerException "emit_imdtabler_rating exception"
           (CalledProcessError 127);
         SocketEmit "imdtabler_rating" (VDict [("imd_rating", VNone)]) All],
        inr tt).
Proof.
  destruct (C8_tool_failure_logged_and_null failing_tool_context
              "IMDTabler.jar" ["5658"; "5695"; "5760"] VNone [])
    as [_ [_ [Hdata Hrating]]].
  split.
  - apply (Hdata (TimeoutExpired "java -jar IMDTabler.jar -t 5658 5695 5760")).
    + simpl. lia.
    + reflexivity.
  - apply (Hrating (CalledProcessError 127)
             (mkFrequencies [None; None; None; None]
                [None; None; None; None] [5658; 5695; 5760; 5800])).
    + reflexivity.
    + simpl. lia.
    + reflexivity.
Defined.

(** ** The order of the pilot list *)

(** Sorting after every append gives the sort of the whole list. *)
Lemma sort_after_each_append :
  forall (A B K : Type) (key : A -> K) (leb : K -> K -> bool) (f : B -> A),
    (forall a b, leb a b = true \/ leb b a = true) ->
    (forall a b c, leb a b = true -> leb b c = true -> leb a c = true) ->
    forall (ps : list B) (acc : list A),
      fold_left (fun acc p => sort key leb (acc ++ [f p])) ps
                (sort key leb acc)
      = sort key leb (acc ++ map f ps).
Proof.
  intros A B K key leb f Htot Htrans ps.
  induction ps as [| p ps IH]; intro acc; simpl.
  - rewrite app_nil_r. reflexivity.
  - rewrite IH, <- app_assoc. simpl.
    apply sort_sort_app; assumption.
Qed.

Lemma dict_get_set :
  forall k k' v d,
    dict_get k (dict_set k' v d)
    = if String.eqb k k' then Some v else dict_get k d.
Proof.
  intros k k' v d. induction d as [| [k0 v0] d IH]; simpl.
  - reflexivity.
  - destruct (String.eqb_spec k' k0) as [-> | Hne]; simpl.
    + destruct (String.eqb k k0); reflexivity.
    + rewrite IH. destruct (String.eqb_spec k k0) as [-> | Hne'].
      * destruct (String.eqb_spec k0 k') as [E | _]; [| reflexivity].
        symmetry in E. contradiction.
      * reflexivity.
Qed.

Lemma text_entry_intro :
  forall k d s, dict_get k d = Some (VStr s) -> text_entry k d.
Proof.
  intros k d s H. unfold text_entry, item_str. rewrite H. reflexivity.
Qed.

Lemma text_entry_set_text :
  forall k k' s d, text_entry k d -> text_entry k (dict_set k' (VStr s) d).
Proof.
  intros k k' s d H.
  destruct (String.eqb k k') eqn:E.
  - apply (text_entry_intro _ _ s). rewrite dict_get_set, E. reflexivity.
  - apply (text_entry_intro _ _ (item_str k d)).
    rewrite dict_get_set, E. exact H.
Qed.

Lemma text_entry_set_other :
  forall k k' v d,
    String.eqb k k' = false ->
    text_entry k d -> text_entry k (dict_set k' v d).
Proof.
  intros k k' v d E H. apply (text_entry_intro _ _ (item_str k d)).
  rewrite dict_get_set, E. exact H.
Qed.

Lemma text_entry_attributes :
  forall k attrs d,
    text_entry k d ->
    text_entry k
      (fold_left
         (fun d attr =>
            dict_set (PilotAttributeValue.name attr)
                     (VStr (PilotAttributeValue.value attr)) d)
         attrs d).
Proof.
  intros k attrs. induction attrs as [| a attrs IH]; intros d H; simpl.
  - exact H.
  - apply IH, text_entry_set_text, H.
Qed.

(** The entries [callsign] and [name] of a pilot dictionary hold text: the
    sort keys are the texts of the payload. *)
Lemma pilot_data_text :
  forall rc pilot,
    text_entry "callsign" (pilot_data rc pilot)
    /\ text_entry "name" (pilot_data rc pilot).
Proof.
  intros rc pilot. unfold pilot_data.
  set (base := [("pilot_id", _); _; _; _; _; _; _; _]).
  assert (Hc : text_entry "callsign" base) by reflexivity.
  assert (Hn : text_entry "name" base) by reflexivity.
  apply (text_entry_attributes _ (get_pilot_attributes rc pilot)) in Hc, Hn.
  destruct (led_manager_isEnabled rc); [| split; assumption].
  split; apply text_entry_set_other; try reflexivity; assumption.
Qed.

Lemma sort_by_callsign_iff :
  forall rc,
    sort_by_callsign rc = true <-> get_option rc "pilotSort" = VStr "callsign".
Proof.
  intro rc. unfold sort_by_callsign.
  destruct (get_option rc "pilotSort") as [| b | z | s | l | d];
    split; intro H; try discriminate.
  - apply String.eqb_eq in H. subst s. reflexivity.
  - injection H as ->. reflexivity.
Qed.

Lemma pilots_list_is_sort :
  forall rc,
    pilots_list rc = sort (pilot_sort_key rc) pair_leb (pilot_dicts rc).
Proof.
  intro rc. unfold pilots_list, pilot_sort_key, pilot_dicts.
  destruct (sort_by_callsign rc).
  - apply (sort_after_each_append _ _ _ key_callsign_name pair_leb
             (pilot_data rc) pair_leb_total pair_leb_trans (get_pilots rc) []).
  - apply (sort_after_each_append _ _ _ key_name_callsign pair_leb
             (pilot_data rc) pair_leb_total pair_leb_trans (get_pilots rc) []).
Qed.

(** C7. The pilot list of the pilot-data payload is the stable sort of the
    pilot dictionaries by the pair (callsign, name) when the option
    [pilotSort] is ["callsign"], by the pair (name, callsign) otherwise.
    The order of the pairs is total, transitive and antisymmetric; the list
    is in that order, holds the same dictionaries, keeps the original order
    of dictionaries with the same pair, and sorting it again, like sorting
    any list that is already in order, changes nothing.  This list is the
    [pilots] entry of the payload, and the payload is what [emit_pilot_data]
    sends in its [pilot_data] message. *)
Theorem C7_pilot_list_stable_sort :
  forall rc : RaceContext,
    let key := pilot_sort_key rc in
    (get_option rc "pilotSort" = VStr "callsign" -> key = key_callsign_name)
    /\ (get_option rc "pilotSort" <> VStr "callsign" ->
        key = key_name_callsign)
    /\ (forall x, In x (pilot_dicts rc) ->
          dict_get "callsign" x = Some (VStr (item_str "callsign" x))
          /\ dict_get "name" x = Some (VStr (item_str "name" x)))
    /\ ((forall a b, pair_leb a b = true \/ pair_leb b a = true)
        /\ (forall a b c,
              pair_leb a b = true -> pair_leb b c = true -> pair_leb a c = true)
        /\ (forall a b, pair_leb a b = true -> pair_leb b a = true -> a = b))
    /\ pilots_list rc = sort key pair_leb (pilot_dicts rc)
    /\ Sorted (key_le key pair_leb) (pilots_list rc)
    /\ Permutation (pilots_list rc) (pilot_dicts rc)
    /\ (forall k,
          filter (fun x => tied pair_leb (key x) k) (pilots_list rc)
          = filter (fun x => tied pair_leb (key x) k) (pilot_dicts rc))
    /\ sort key pair_leb (pilots_list rc) = pilots_list rc
    /\ (forall l, Sorted (key_le key pair_leb) l -> sort key pair_leb l = l)
    /\ (forall self : RHUI,
          pilot_data_payload self rc
          = VDict [("pilots", VList (map VDict (pilots_list rc)));
                   ("pilotSort", get_option rc "pilotSort");
                   ("attributes",
                    VList
                      (map (fun attr =>
                              VDict
                                [("name", VStr (PilotAttribute.name attr));
                                 ("label", VStr (PilotAttribute.label attr));
                                 ("fieldtype",
                                  VStr (PilotAttribute.fieldtype attr))])
                           (pilot_attributes self)))])
    /\ (forall (self : RHUI) (params : dict),
          emit_pilot_data self rc params
          = ([SocketEmit "pilot_data"
                (VDict
                   [("pilots",
                     VList (map VDict (sort key pair_leb (pilot_dicts rc))));
                    ("pilotSort", get_option rc "pilotSort");
                    ("attributes",
                     VList
                       (map (fun attr =>
                               VDict
                                 [("name", VStr (PilotAttribute.name attr));
                                  ("label",
                                   VStr (PilotAttribute.label attr));
                                  ("fieldtype",
                                   VStr (PilotAttribute.fieldtype attr))])
                            (pilot_attributes self)))])
                (if has_key "nobroadcast" params then Caller
                 else if has_key "noself" params then AllExceptCaller
                      else All);
              SocketEmit "heat_data" (heat_data_payload rc) All],
             inr tt)).
Proof.
  intros rc key.
  split.
  { intro H. unfold key, pilot_sort_key.
    rewrite (proj2 (sort_by_callsign_iff rc) H). reflexivity. }
  split.
  { intro H. unfold key, pilot_sort_key.
    destruct (sort_by_callsign rc) eqn:E; [| reflexivity].
    apply sort_by_callsign_iff in E. contradiction. }
  split.
  { intros x Hx. unfold pilot_dicts in Hx. apply in_map_iff in Hx.
    destruct Hx as [p [<- _]]. apply pilot_data_text. }
  split.
  { split; [exact pair_leb_total |].
    split; [exact pair_leb_trans | exact pair_leb_antisym]. }
  pose proof (pilots_list_is_sort rc) as Heq. fold key in Heq.
  split; [exact Heq |].
  split.
  { rewrite Heq. apply sort_sorted. exact pair_leb_total. }
  split.
  { rewrite Heq. apply sort_perm. }
  split.
  { intro k. rewrite Heq.
    apply (sort_stable _ _ key pair_leb pair_leb_trans). }
  split.
  { rewrite Heq. apply sort_idempotent. exact pair_leb_total. }
  split.
  { intros l Hl. apply sort_of_sorted. exact Hl. }
  split.
  { intro self. reflexivity. }
  intros self params. unfold emit_pilot_data, pilot_data_payload.
  rewrite Heq.
  destruct (has_key "nobroadcast" params); [reflexivity |].
  destruct (has_key "noself" params); reflexivity.
Qed.

Lemma C7_pilot_list_stable_sort_witness :
  (pilot_sort_key sample_context = key_callsign_name
   /\ map key_callsign_name (pilot_dicts sample_context)
      = [("Zulu", "Ann"); ("Alpha", "Bob"); ("Alpha", "Al")]
   /\ map key_callsign_name (pilots_list sample_context)
      = [("Alpha", "Al"); ("Alpha", "Bob"); ("Zulu", "Ann")])
  /\ (pilot_sort_key name_sort_context = key_name_callsign
      /\ map key_name_callsign (pilots_list name_sort_context)
         = [("Al", "Alpha"); ("Ann", "Zulu"); ("Bob", "Alpha")]
      /\ sort key_name_callsign pair_leb (pilots_list name_sort_context)
         = pilots_list name_sort_context)
  /\ map key_callsign_name
         (flat_map message_pilots
            (trace (emit_pilot_data init sample_context [])))
     = [("Alpha", "Al"); ("Alpha", "Bob"); ("Zulu", "Ann")]
  /\ map key_name_callsign
         (flat_map message_pilots
            (trace (emit_pilot_data sample_ui name_sort_context nobroadcast)))
     = [("Al", "Alpha"); ("Ann", "Zulu"); ("Bob", "Alpha")].
Proof.
  split; [| split; [| split]].
  - destruct (C7_pilot_list_stable_sort sample_context)
      as [Hkey [_ [_ [_ [Heq _]]]]].
    split; [apply Hkey; reflexivity |].
    split; [reflexivity |].
    rewrite Heq. reflexivity.
  - destruct (C7_pilot_list_stable_sort name_sort_context)
      as [_ [Hkey [_ [_ [Heq [Hsorted [_ [_ [_ [Hfix _]]]]]]]]]].
    assert (Hk : pilot_sort_key name_sort_context = key_name_callsign).
    { apply Hkey. simpl. discriminate. }
    split; [exact Hk |].
    split; [rewrite Heq; reflexivity |].
    rewrite <- Hk. apply Hfix. exact Hsorted.
  - destruct (C7_pilot_list_stable_sort sample_context)
      as [_ [_ [_ [_ [_ [_ [_ [_ [_ [_ [_ Hemit]]]]]]]]]]].
    rewrite (Hemit init []). reflexivity.
  - destruct (C7_pilot_list_stable_sort name_sort_context)
      as [_ [_ [_ [_ [_ [_ [_ [_ [_ [_ [_ Hemit]]]]]]]]]]].
    rewrite (Hemit sample_ui nobroadcast). reflexivity.
Defined.

(** * Further properties *)

(** ** The three registries *)

Lemma register_keeps :
  forall self r,
    pilot_attributes (register self r)
    = pilot_attributes self ++ registered_attributes [r]
    /\ ui_panels (register self r) = ui_panels self ++ registered_panels [r]
    /\ general_settings (register self r)
       = general_settings self ++ registered_settings [r].
Proof.
  intros self [n l f | n l p o | n l p f o]; simpl;
    unfold pilot_attributes, ui_panels, general_settings; simpl;
    rewrite ?app_nil_r; repeat split; reflexivity.
Qed.

(** The registries are append-only and independent: after any sequence of
    registrations of the three kinds, each registry is what it was, followed
    by the registrations of its kind in the order of the calls.  Nothing is
    rejected, replaced or reordered, so a name that is registered twice is
    there twice. *)
Theorem registries_append_only :
  forall (rs : list registration) (self : RHUI),
    pilot_attributes (register_all self rs)
    = pilot_attributes self ++ registered_attributes rs
    /\ ui_panels (register_all self rs)
       = ui_panels self ++ registered_panels rs
    /\ general_settings (register_all self rs)
       = general_settings self ++ registered_settings rs.
Proof.
  induction rs as [| r rs IH]; intro self.
  - simpl. rewrite !app_nil_r. repeat split; reflexivity.
  - unfold register_all in *. cbn [fold_left].
    destruct (IH (register self r)) as [Ha [Hp Hs]].
    destruct (register_keeps self r) as [Ka [Kp Ks]].
    rewrite Ha, Hp, Hs, Ka, Kp, Ks, <- !app_assoc.
    destruct r; simpl; repeat split; reflexivity.
Qed.

(** ** The panels of a page *)

Lemma ui_settings_loop :
  forall rs l acc,
    fold_left (fun settings setting => settings ++ [ui_setting rs setting])
              l acc
    = acc ++ map (ui_setting rs) l.
Proof.
  intros rs l. induction l as [| s l IH]; intro acc; simpl.
  - rewrite app_nil_r. reflexivity.
  - rewrite IH, <- app_assoc. reflexivity.
Qed.

Lemma get_panel_settings_filter :
  forall self p,
    get_panel_settings self p
    = filter (fun s => panel_eqb (GeneralSetting.panel s) p)
             (general_settings self).
Proof.
  intros self p. unfold get_panel_settings.
  rewrite get_panel_settings_loop. reflexivity.
Qed.

Lemma ui_panel_encode :
  forall self rs panel,
    ui_panel self rs panel
    = ui_encode rs
        (panel,
         filter (fun s => panel_eqb (GeneralSetting.panel s)
                                    (Some (UIPanel.name panel)))
                (general_settings self)).
Proof.
  intros self rs panel. unfold ui_panel, ui_encode.
  rewrite ui_settings_loop, get_panel_settings_filter. reflexivity.
Qed.

Lemma ui_payload_loop :
  forall self rs page l acc,
    fold_left
      (fun emit_payload panel =>
         if String.eqb (UIPanel.page panel) page
         then emit_payload ++ [ui_panel self rs panel]
         else emit_payload) l acc
    = acc ++ map (ui_panel self rs)
                 (filter (fun panel => String.eqb (UIPanel.page panel) page)
                         l).
Proof.
  intros self rs page l. induction l as [| p l IH]; intro acc; simpl.
  - rewrite app_nil_r. reflexivity.
  - rewrite IH. destruct (String.eqb (UIPanel.page p) page); simpl.
    + rewrite <- app_assoc. reflexivity.
    + reflexivity.
Qed.

Lemma filter_nothing :
  forall (A : Type) (f : A -> bool) (l : list A),
    (forall x, In x l -> f x = false) -> filter f l = [].
Proof.
  intros A f l. induction l as [| x l IH]; intro H; simpl; [reflexivity |].
  rewrite (H x (or_introl eq_refl)). apply IH.
  intros y Hy. apply H. right. exact Hy.
Qed.

(** [emit_ui] sends one message whose entries are the panels registered for
    the page, in registration order, each with exactly the settings whose
    panel is the name of that panel, in registration order.  A setting that
    was registered without panel is in no entry, and a page without panel
    gives the empty list. *)
Theorem emit_ui_panels_of_page :
  forall (self : RHUI) (rs : RaceState) (page : string) (params : dict),
    emit_ui self rs page params
    = ([SocketEmit "ui" (VList (map (ui_encode rs) (ui_view self page)))
          (if has_key "nobroadcast" params then Caller else All)],
       inr tt)
    /\ (forall panel settings,
          In (panel, settings) (ui_view self page) ->
          In panel (ui_panels self) /\ UIPanel.page panel = page
          /\ (forall s,
                In s settings
                <-> In s (general_settings self)
                    /\ GeneralSetting.panel s = Some (UIPanel.name panel)))
    /\ (forall panel settings s,
          In (panel, settings) (ui_view self page) ->
          GeneralSetting.panel s = None -> ~ In s settings)
    /\ ((forall panel, In panel (ui_panels self) ->
                       UIPanel.page panel <> page) ->
        ui_view self page = []).
Proof.
  intros self rs page params.
  assert (Hview :
            forall panel settings,
              In (panel, settings) (ui_view self page) ->
              In panel (ui_panels self) /\ UIPanel.page panel = page
              /\ (forall s,
                    In s settings
                    <-> In s (general_settings self)
                        /\ GeneralSetting.panel s
                           = Some (UIPanel.name panel))).
  { intros panel settings Hin. unfold ui_view in Hin.
    apply in_map_iff in Hin. destruct Hin as [p [Heq Hp]].
    injection Heq as -> <-. apply filter_In in Hp. destruct Hp as [Hp Hpage].
    apply String.eqb_eq in Hpage.
    split; [exact Hp | split; [exact Hpage |]].
    intro s. rewrite filter_In, panel_eqb_eq. reflexivity. }
  split; [| split; [exact Hview | split]].
  - unfold emit_ui, ui_payload. rewrite ui_payload_loop. simpl.
    unfold ui_view. rewrite map_map.
    rewrite (map_ext _ _ (ui_panel_encode self rs)).
    destruct (has_key "nobroadcast" params); reflexivity.
  - intros panel settings s Hin Hnone Hs.
    destruct (Hview panel settings Hin) as [_ [_ Hset]].
    apply Hset in Hs. destruct Hs as [_ Hs]. congruence.
  - intro Hnone. unfold ui_view. rewrite filter_nothing; [reflexivity |].
    intros p Hp. apply String.eqb_neq, Hnone, Hp.
Qed.

Lemma emit_ui_panels_of_page_witness :
  map (fun entry => (UIPanel.name (fst entry),
                     map GeneralSetting.name (snd entry)))
      (ui_view sample_ui "settings")
  = [("leds", ["brightness"; "effect"]); ("audio", [])]
  /\ ui_view sample_ui "heats" = []
  /\ emit_ui sample_ui sample_state "heats" []
     = ([SocketEmit "ui" (VList []) All], inr tt).
Proof.
  destruct (emit_ui_panels_of_page sample_ui sample_state "heats" [])
    as [Hemit [_ [_ Hempty]]].
  assert (He : ui_view sample_ui "heats" = []).
  { apply Hempty. intros panel Hin.
    simpl in Hin. destruct Hin as [<- | [<- | [<- | []]]]; discriminate. }
  split; [reflexivity | split; [exact He |]].
  rewrite Hemit, He. reflexivity.
Defined.

(** ** Events and caller-only delivery *)

(** With [nobroadcast] the two emitters that trigger events differ:
    [emit_priority_message] replies to the caller and triggers no event at
    all, [emit_first_pass_registered] still triggers [RACE_FIRST_PASS] before
    it replies to the caller. *)
Theorem nobroadcast_event_or_not :
  forall (message : value) (interrupt : bool) (caller n : value)
         (params : dict),
    has_key "nobroadcast" params = true ->
    emit_priority_message message interrupt caller params
    = ([SocketEmit "priority_message"
          (VDict [("message", message); ("interrupt", VBool interrupt)])
          Caller],
       inr tt)
    /\ emit_first_pass_registered n params
       = ([EventTrigger Evt.RACE_FIRST_PASS (VDict [("node_index", n)]);
           SocketEmit "first_pass_registered" (VDict [("node_index", n)])
             Caller],
          inr tt).
Proof.
  intros message interrupt caller n params Hp.
  unfold emit_priority_message, emit_first_pass_registered. rewrite Hp.
  split; reflexivity.
Qed.

Lemma nobroadcast_event_or_not_witness :
  emit_priority_message (VStr "Saved") true (VBool false) nobroadcast
  = ([SocketEmit "priority_message"
        (VDict [("message", VStr "Saved"); ("interrupt", VBool true)])
        Caller],
     inr tt)
  /\ emit_first_pass_registered (VInt 2) nobroadcast
     = ([EventTrigger Evt.RACE_FIRST_PASS (VDict [("node_index", VInt 2)]);
         SocketEmit "first_pass_registered"
           (VDict [("node_index", VInt 2)]) Caller],
        inr tt).
Proof.
  apply (nobroadcast_event_or_not (VStr "Saved") true (VBool false) (VInt 2)
           nobroadcast).
  reflexivity.
Defined.

(** ** More on the result data *)

(** When the page cache can be built, [emit_result_data] sends it in
    exactly one message: outside a request to all sessions; inside the
    request of a socket client to the session of that client when the call
    has [nobroadcast], and to all sessions otherwise.  Inside a request
    without session id the call raises and sends nothing. *)
Theorem result_data_addressing :
  forall (rc : RaceContext) (params : dict) (payload : value),
    get_cache rc = inr payload ->
    emit_result_data rc params
    = match request rc with
      | None => ([SocketEmit "result_data" payload All], inr tt)
      | Some None =>
          ([], inl (AttributeError "'Request' object has no attribute 'sid'"))
      | Some (Some sid) =>
          ([SocketEmit "result_data" payload
              (if has_key "nobroadcast" params then Room sid else All)],
           inr tt)
      end.
Proof.
  intros rc params payload Hc.
  unfold emit_result_data, emit_result_data_thread. rewrite Hc.
  destruct (request rc) as [[sid |] |], (has_key "nobroadcast" params);
    reflexivity.
Qed.

Lemma result_data_addressing_witness :
  emit_result_data (with_request sample_context (Some (Some "sid-1")))
    nobroadcast
  = ([SocketEmit "result_data" (VDict [("heats", VDict [])]) (Room "sid-1")],
     inr tt)
  /\ emit_result_data (with_request sample_context (Some (Some "sid-1"))) []
     = ([SocketEmit "result_data" (VDict [("heats", VDict [])]) All], inr tt)
  /\ emit_result_data (with_request sample_context (Some None)) []
     = ([], inl (AttributeError "'Request' object has no attribute 'sid'"))
  /\ emit_result_data sample_context []
     = ([SocketEmit "result_data" (VDict [("heats", VDict [])]) All], inr tt).
Proof.
  split; [| split; [| split]].
  - apply (result_data_addressing
             (with_request sample_context (Some (Some "sid-1"))) nobroadcast
             (VDict [("heats", VDict [])])).
    reflexivity.
  - apply (result_data_addressing
             (with_request sample_context (Some (Some "sid-1"))) []
             (VDict [("heats", VDict [])])).
    reflexivity.
  - apply (result_data_addressing
             (with_request sample_context (Some None)) []
             (VDict [("heats", VDict [])])).
    reflexivity.
  - apply (result_data_addressing sample_context []
             (VDict [("heats", VDict [])])).
    reflexivity.
Defined.

(** When the page cache fails, [emit_result_data] returns normally all the
    same, outside a request and inside the request of a socket client: the
    exception is logged inside the spawned task, and no message is sent to
    any session.  (Inside a request without session id no task is started
    and the cache is not read.) *)
Theorem result_data_cache_failure :
  forall (rc : RaceContext) (params : dict) (e : exn),
    get_cache rc = inl e ->
    request rc <> Some None ->
    outcome (emit_result_data rc params) = inr tt
    /\ filter is_emit (trace (emit_result_data rc params)) = []
    /\ exists msg,
         trace (emit_result_data rc params) = [LoggerException msg e].
Proof.
  intros rc params e Hc Hr.
  unfold emit_result_data, emit_result_data_thread. rewrite Hc.
  destruct (request rc) as [[sid |] |]; [| congruence |];
    simpl; repeat split; eexists; reflexivity.
Qed.

Lemma result_data_cache_failure_witness :
  outcome (emit_result_data
             (with_cache sample_context (inl (RuntimeError "cache")))
             nobroadcast) = inr tt
  /\ filter is_emit
       (trace (emit_result_data
                 (with_cache sample_context (inl (RuntimeError "cache")))
                 nobroadcast)) = [].
Proof.
  destruct (result_data_cache_failure
              (with_cache sample_context (inl (RuntimeError "cache")))
              nobroadcast (RuntimeError "cache") eq_refl) as [Ho [He _]].
  - discriminate.
  - split; [exact Ho | exact He].
Defined.

(** ** The order of the heat slots *)

Section LeastFirst.

Variables (A K : Type).
Variable key : A -> K.
Variable leb : K -> K -> bool.

Lemma insert_in_front :
  forall x l,
    (forall h, In h l -> leb (key x) (key h) = true) -> insert key leb x l = x :: l.
Proof.
  intros x [| h t] H; simpl; [reflexivity |].
  rewrite (H h (or_introl eq_refl)). reflexivity.
Qed.

Lemma insert_behind :
  forall x l1 l2,
    (forall h, In h l1 -> leb (key x) (key h) = false) ->
    insert key leb x (l1 ++ l2) = l1 ++ insert key leb x l2.
Proof.
  intros x l1 l2. induction l1 as [| h t IH]; intro H; simpl.
  - reflexivity.
  - rewrite (H h (or_introl eq_refl)), IH; [reflexivity |].
    intros y Hy. apply H. right. exact Hy.
Qed.

(** When the elements marked by [least] have a key below every other key,
    they come first, in their original order. *)
Lemma sort_least_first :
  forall (least : A -> bool) (l : list A),
    (forall x y, In x l -> In y l -> least x = true ->
                 leb (key x) (key y) = true) ->
    (forall x y, In x l -> In y l -> least x = false -> least y = true ->
                 leb (key x) (key y) = false) ->
    sort key leb l
    = filter least l ++ sort key leb (filter (fun x => negb (least x)) l).
Proof.
  intros least l. induction l as [| x t IH]; intros Hle Hgt.
  - reflexivity.
  - assert (Ht : sort key leb t
                 = filter least t
                   ++ sort key leb
                        (filter (fun x => negb (least x)) t)).
    { apply IH.
      - intros a b Ha Hb. apply Hle; right; assumption.
      - intros a b Ha Hb. apply Hgt; right; assumption. }
    cbn [sort filter]. rewrite Ht.
    destruct (least x) eqn:E; cbn [negb].
    + cbn [app]. apply insert_in_front. intros h Hh.
      apply Hle; [left; reflexivity | right | exact E].
      apply in_app_or in Hh. destruct Hh as [Hh | Hh].
      * apply filter_In in Hh. tauto.
      * apply (Permutation_in _ (sort_perm _ _ key leb _)) in Hh.
        apply filter_In in Hh. tauto.
    + cbn [sort]. apply insert_behind. intros h Hh.
      apply filter_In in Hh. destruct Hh as [Hh Hl].
      apply Hgt; [left; reflexivity | right; exact Hh | exact E | exact Hl].
Qed.

End LeastFirst.

Lemma heatNodeSorter_least :
  forall n, no_sort_index n = true -> heatNodeSorter n = -1.
Proof.
  intros n. unfold no_sort_index, heatNodeSorter.
  destruct (HeatNode.node_index n) as [i |]; [| reflexivity].
  intro H. rewrite H. reflexivity.
Qed.

Lemma heatNodeSorter_index :
  forall n,
    no_sort_index n = false ->
    HeatNode.node_index n = Some (heatNodeSorter n) /\ heatNodeSorter n <> 0.
Proof.
  intros n. unfold no_sort_index, heatNodeSorter.
  destruct (HeatNode.node_index n) as [i |]; [| discriminate].
  intro H. rewrite H. split; [reflexivity |].
  apply Z.eqb_neq. exact H.
Qed.

(** When no node index of a heat is negative, its slots are: first the heat
    nodes without node index or with node index 0, in the order in which the
    data layer returns them; then the other heat nodes by increasing node
    index, nodes with the same index in their original order.  The [slots]
    entry of the heat holds the slot dictionaries in this order, and
    [emit_heat_data] sends the dictionaries of the heats in its one
    message. *)
Theorem heat_slots_order :
  forall (rc : RaceContext) (heat_id : Z),
    (forall n i, In n (get_heatNodes_by_heat rc heat_id) ->
                 HeatNode.node_index n = Some i -> 0 <= i) ->
    let nodes := get_heatNodes_by_heat rc heat_id in
    let indexed := filter (fun n => negb (no_sort_index n)) nodes in
    sorted_heatNodes rc heat_id
    = filter no_sort_index nodes ++ sort heatNodeSorter Z.leb indexed
    /\ Sorted (fun a b => heatNodeSorter a <= heatNodeSorter b)
              (sort heatNodeSorter Z.leb indexed)
    /\ (forall n, In n (sort heatNodeSorter Z.leb indexed) ->
                  HeatNode.node_index n = Some (heatNodeSorter n)
                  /\ 0 < heatNodeSorter n)
    /\ (forall i,
          filter (fun n => heatNodeSorter n =? i)
                 (sort heatNodeSorter Z.leb indexed)
          = filter (fun n => heatNodeSorter n =? i) indexed)
    /\ (forall heat,
          Heat.id heat = heat_id ->
          dict_get "slots" (current_heat rc heat)
          = Some (VList
                    (map (fun n => VDict (current_node n))
                         (filter no_sort_index nodes
                          ++ sort heatNodeSorter Z.leb indexed))))
    /\ (forall params,
          emit_heat_data rc params
          = ([SocketEmit "heat_data"
                (VDict
                   [("heats",
                     VList (map (fun h => VDict (current_heat rc h))
                                (get_heats rc)))])
                (if has_key "nobroadcast" params then Caller
                 else if has_key "noself" params then AllExceptCaller
                      else All)],
             inr tt)).
Proof.
  intros rc heat_id Hpos nodes indexed.
  assert (Hkey : forall n, In n nodes -> -1 <= heatNodeSorter n).
  { intros n Hn. unfold heatNodeSorter.
    destruct (HeatNode.node_index n) as [i |] eqn:E; [| lia].
    specialize (Hpos n i Hn E). destruct (i =? 0); lia. }
  assert (Horder :
            sorted_heatNodes rc heat_id
            = filter no_sort_index nodes
              ++ sort heatNodeSorter Z.leb indexed).
  { unfold sorted_heatNodes. fold nodes. apply sort_least_first.
    + intros x y _ Hy Hx. rewrite (heatNodeSorter_least x Hx).
      apply Z.leb_le. apply Hkey, Hy.
    + intros x y Hx _ Hfx Hfy. rewrite (heatNodeSorter_least y Hfy).
      apply Z.leb_gt. specialize (Hkey x Hx).
      destruct (heatNodeSorter_index x Hfx) as [Hi Hnz].
      specialize (Hpos x _ Hx Hi). lia. }
  split; [exact Horder | split; [| split; [| split; [| split]]]].
  - clear Horder.
    pose proof (sort_sorted _ _ heatNodeSorter Z.leb Zleb_total indexed)
      as Hs.
    induction Hs as [| a l Hs IH Hhd]; constructor; [exact IH |].
    destruct Hhd as [| b l Hab]; constructor.
    unfold key_le in Hab. apply Z.leb_le. exact Hab.
  - intros n Hn.
    apply (Permutation_in _ (sort_perm _ _ heatNodeSorter Z.leb _)) in Hn.
    unfold indexed in Hn. apply filter_In in Hn. destruct Hn as [Hn Hf].
    apply negb_true_iff in Hf.
    destruct (heatNodeSorter_index n Hf) as [Hi Hnz].
    split; [exact Hi |]. specialize (Hpos n _ Hn Hi). lia.
  - intro i. clear Horder.
    destruct indexed as [| n0 rest] eqn:E; [reflexivity |]. rewrite <- E.
    pose proof (sort_stable _ _ heatNodeSorter Z.leb Zleb_trans i) as Hst.
    assert (Hext : forall l : list HeatNode.t,
               filter (fun n => heatNodeSorter n =? i) l
               = filter (fun y => tied Z.leb (heatNodeSorter y) i) l).
    { intro l. apply filter_ext. intro n. unfold tied.
      destruct (Z.eqb_spec (heatNodeSorter n) i),
               (Z.leb_spec (heatNodeSorter n) i),
               (Z.leb_spec i (heatNodeSorter n)); simpl; try reflexivity; lia. }
    rewrite !Hext. apply Hst.
  - intros heat Hid. unfold current_heat. rewrite Hid, Horder. reflexivity.
  - intro params. unfold emit_heat_data, heat_data_payload.
    destruct (has_key "nobroadcast" params); [reflexivity |].
    destruct (has_key "noself" params); reflexivity.
Qed.

Lemma heat_slots_order_witness :
  slot_node_indices sample_context 1 = [None; Some 0] ++ [Some 2]
  /\ exists slots,
       dict_get "slots"
         (current_heat sample_context
            (Heat.mk 1 (VStr "qualifier") "Heat 1" (VInt 1) (VInt 0)
               (VInt 0) (VBool false)))
       = Some (VList (map (fun n => VDict (current_node n)) slots))
       /\ map HeatNode.node_index slots = [None; Some 0; Some 2].
Proof.
  destruct (heat_slots_order sample_context 1)
    as [Heq [_ [_ [_ [Hslots _]]]]].
  - intros n i Hn Hi. simpl in Hn.
    destruct Hn as [<- | [<- | [<- | []]]]; simpl in Hi;
      try discriminate; injection Hi as <-; lia.
  - split.
    + unfold slot_node_indices. rewrite Heq. reflexivity.
    + eexists. split; [apply Hslots; reflexivity | reflexivity].
Defined.

(** ** The dictionary of a pilot *)

Lemma last_attribute_app :
  forall k attrs a,
    last_attribute k (attrs ++ [a])
    = if String.eqb k (PilotAttributeValue.name a)
      then Some (PilotAttributeValue.value a)
      else last_attribute k attrs.
Proof.
  intros k attrs a. unfold last_attribute. rewrite fold_left_app.
  reflexivity.
Qed.

Lemma attributes_lookup :
  forall k attrs d,
    dict_get k
      (fold_left
         (fun d attr =>
            dict_set (PilotAttributeValue.name attr)
                     (VStr (PilotAttributeValue.value attr)) d)
         attrs d)
    = match last_attribute k attrs with
      | Some v => Some (VStr v)
      | None => dict_get k d
      end.
Proof.
  intros k attrs. induction attrs as [| a attrs IH] using rev_ind; intro d.
  - reflexivity.
  - rewrite fold_left_app, last_attribute_app. simpl.
    rewrite dict_get_set, IH.
    destruct (String.eqb k (PilotAttributeValue.name a)); reflexivity.
Qed.

(** Lookup in a pilot dictionary.  The colour of the pilot, when the LED
    manager is enabled, wins over everything under the key [color]; a stored
    attribute wins over the fixed entry of the same name, and of several
    attributes with one name the last wins; a fixed entry is the pilot's own
    value only if no attribute has its name. *)
Theorem pilot_data_lookup :
  forall (rc : RaceContext) (pilot : Pilot.t) (k : string),
    dict_get k (pilot_data rc pilot)
    = if led_manager_isEnabled rc && String.eqb k "color"
      then Some (Pilot.color pilot)
      else match last_attribute k (get_pilot_attributes rc pilot) with
           | Some v => Some (VStr v)
           | None => dict_get k (pilot_fixed_fields rc pilot)
           end.
Proof.
  intros rc pilot k. unfold pilot_data.
  change [("pilot_id", VInt (Pilot.id pilot));
          ("callsign", VStr (Pilot.callsign pilot));
          ("team", VStr (Pilot.team pilot));
          ("phonetic", VStr (Pilot.phonetic pilot));
          ("name", VStr (Pilot.name pilot));
          ("active", Pilot.active pilot);
          ("team_options", VStr (team_options rc pilot));
          ("locked", VBool (savedPilotRaces_has_pilot rc (Pilot.id pilot)))]
    with (pilot_fixed_fields rc pilot).
  destruct (led_manager_isEnabled rc); simpl.
  - rewrite dict_get_set, attributes_lookup. reflexivity.
  - apply attributes_lookup.
Qed.

Lemma has_key_keys :
  forall k d, has_key k d = true <-> In k (keys d).
Proof.
  intros k d. unfold has_key, keys.
  induction d as [| [k' v] d IH]; simpl.
  - split; [discriminate | contradiction].
  - destruct (String.eqb_spec k k') as [-> | Hne].
    + split; auto.
    + rewrite IH. split; [auto | intros [H | H]; [congruence | exact H]].
Qed.

Lemma dict_set_keys :
  forall k v d,
    keys (dict_set k v d) = if has_key k d then keys d else keys d ++ [k].
Proof.
  intros k v d. unfold has_key, keys.
  induction d as [| [k' v'] d IH]; simpl.
  - reflexivity.
  - destruct (String.eqb_spec k k') as [-> | Hne]; simpl.
    + reflexivity.
    + rewrite IH. destruct (dict_get k d); reflexivity.
Qed.

Lemma dict_set_keys_extend :
  forall k v d,
    NoDup (keys d) ->
    exists more,
      keys (dict_set k v d) = keys d ++ more
      /\ NoDup (keys (dict_set k v d)).
Proof.
  intros k v d Hd. rewrite dict_set_keys.
  destruct (has_key k d) eqn:E.
  - exists []. rewrite app_nil_r. split; [reflexivity | exact Hd].
  - exists [k]. split; [reflexivity |].
    apply NoDup_app; [exact Hd | repeat constructor; intros [] |].
    intros x Hx [<- | []].
    apply has_key_keys in Hx. congruence.
Qed.

(** A pilot dictionary has no key twice, and it starts with the eight fixed
    keys in their order: attributes and the colour either replace the value
    of a key that is there or add a key at the end. *)
Theorem pilot_data_keys :
  forall (rc : RaceContext) (pilot : Pilot.t),
    NoDup (keys (pilot_data rc pilot))
    /\ exists more,
         keys (pilot_data rc pilot)
         = ["pilot_id"; "callsign"; "team"; "phonetic"; "name"; "active";
            "team_options"; "locked"] ++ more.
Proof.
  intros rc pilot. unfold pilot_data.
  set (base := [("pilot_id", _); _; _; _; _; _; _; _]).
  set (fixed := ["pilot_id"; "callsign"; "team"; "phonetic"; "name";
                 "active"; "team_options"; "locked"]).
  assert (Hbase : NoDup (keys base) /\ exists more, keys base = fixed ++ more).
  { split.
    - unfold base, keys. simpl.
      repeat (constructor; [simpl; intuition discriminate |]). constructor.
    - exists []. reflexivity. }
  assert (Hattrs :
            forall attrs d,
              (NoDup (keys d) /\ exists more, keys d = fixed ++ more) ->
              NoDup
                (keys
                   (fold_left
                      (fun d attr =>
                         dict_set (PilotAttributeValue.name attr)
                           (VStr (PilotAttributeValue.value attr)) d)
                      attrs d))
              /\ exists more,
                   keys
                     (fold_left
                        (fun d attr =>
                           dict_set (PilotAttributeValue.name attr)
                             (VStr (PilotAttributeValue.value attr)) d)
                        attrs d)
                   = fixed ++ more).
  { induction attrs as [| a attrs IH]; intros d [Hd [more Hm]]; simpl.
    - split; [exact Hd | exists more; exact Hm].
    - apply IH.
      destruct (dict_set_keys_extend (PilotAttributeValue.name a)
                  (VStr (PilotAttributeValue.value a)) d Hd)
        as [more' [Hk Hn]].
      split; [exact Hn |].
      exists (more ++ more'). rewrite Hk, Hm, app_assoc. reflexivity. }
  destruct (Hattrs (get_pilot_attributes rc pilot) base Hbase)
    as [Hn [more Hm]].
  destruct (led_manager_isEnabled rc); [| split; [exact Hn | eauto]].
  destruct (dict_set_keys_extend "color" (Pilot.color pilot) _ Hn)
    as [more' [Hk Hn']].
  split; [exact Hn' |].
  exists (more ++ more'). rewrite Hk, Hm, app_assoc. reflexivity.
Qed.

(** ** The frequencies handed to the analysis tool *)

Lemma to_int_regular :
  forall z, Z.to_int z <> Decimal.Pos Decimal.Nil
            /\ Z.to_int z <> Decimal.Neg Decimal.Nil.
Proof.
  intros [| p | p]; simpl; split; try discriminate;
    intro H; injection H as H;
    exact (DecimalPos.Unsigned.to_uint_nonnil p H).
Qed.

(** [str] gives different texts for different integers. *)
Lemma str_inj : forall a b, str a = str b -> a = b.
Proof.
  intros a b H. unfold str in H.
  destruct (to_int_regular a) as [Ha1 Ha2].
  destruct (to_int_regular b) as [Hb1 Hb2].
  pose proof (NilZero.isi _ Ha1 Ha2) as Ia.
  pose proof (NilZero.isi _ Hb1 Hb2) as Ib.
  rewrite H in Ia. rewrite Ia in Ib. injection Ib as Ib.
  apply DecimalZ.to_int_inj. exact Ib.
Qed.

Lemma NoDup_map_inj :
  forall (A B : Type) (f : A -> B) (l : list A),
    (forall a b, f a = f b -> a = b) -> NoDup l -> NoDup (map f l).
Proof.
  intros A B f l Hinj Hl. induction Hl as [| x l Hx Hl IH]; simpl.
  - constructor.
  - constructor; [| exact IH].
    intro Hin. apply in_map_iff in Hin. destruct Hin as [y [Hy Hin]].
    apply Hinj in Hy. subst y. contradiction.
Qed.

(** The frequency list of the rating and of the IMDTabler page holds, as
    text, exactly the frequencies above zero of the first [num_nodes] nodes,
    each once; so it has no entry twice and at most [num_nodes] entries. *)
Theorem rating_fs_list_distinct :
  forall (rc : RaceContext) (pf : Frequencies),
    exists l : list Z,
      rating_fs_list rc pf = map str l
      /\ NoDup l
      /\ (forall v, In v l
                    <-> 0 < v /\ In v (firstn (num_nodes rc) (freq_f pf)))
      /\ NoDup (rating_fs_list rc pf)
      /\ (List.length (rating_fs_list rc pf) <= num_nodes rc)%nat.
Proof.
  intros rc pf.
  set (src := firstn (num_nodes rc) (freq_f pf)).
  exists (filter (fun v => 0 <? v) (spec_dedup src)).
  assert (Hnd : NoDup (filter (fun v => 0 <? v) (spec_dedup src))).
  { apply NoDup_filter, spec_dedup_NoDup. }
  assert (Hin : forall v, In v (filter (fun v => 0 <? v) (spec_dedup src))
                          <-> 0 < v /\ In v src).
  { intro v. rewrite filter_In, spec_dedup_In, Z.ltb_lt. tauto. }
  split; [apply rating_fs_list_positive |].
  split; [exact Hnd |].
  split; [exact Hin |].
  rewrite rating_fs_list_positive. fold src.
  split.
  - apply NoDup_map_inj; [exact str_inj | exact Hnd].
  - rewrite length_map.
    transitivity (List.length src).
    + apply NoDup_incl_length; [exact Hnd |].
      intros v Hv. apply Hin in Hv. tauto.
    + unfold src. rewrite length_firstn. lia.
Qed.

(** ** The IMDTabler page *)

Lemma emit_imdtabler_data_shape :
  forall rc jar fs_list ver params,
    exists t data,
      emit_imdtabler_data rc jar fs_list ver params
      = (t ++ [SocketEmit "imdtabler_data"
                 (VDict [("freq_list", VStr (join " " fs_list));
                         ("table_data", data);
                         ("version_str", ver)])
                 (if has_key "nobroadcast" params then Caller else All)],
         inr tt)
      /\ filter is_emit t = [].
Proof.
  intros rc jar fs_list ver params. unfold emit_imdtabler_data.
  destruct (2 <? Z.of_nat (List.length fs_list)).
  - unfold subprocess_check_output.
    destruct (check_output rc
                ("java -jar " ++ jar ++ " -t " ++ join " " fs_list)%string)
      as [e | out]; simpl.
    + eexists [_; _], VNone.
      destruct (has_key "nobroadcast" params); split; reflexivity.
    + eexists [_], (VStr out).
      destruct (has_key "nobroadcast" params); split; reflexivity.
  - exists [], VNone. simpl.
    destruct (has_key "nobroadcast" params); split; reflexivity.
Qed.

(** [emit_imdtabler_page] never raises.  Without the flag it does nothing.
    When the version command fails, or the stored frequencies do not parse,
    the exception is logged and no message is sent at all (unlike
    [emit_imdtabler_data], which then still sends a message). *)
Theorem imdtabler_page_failure :
  forall (rc : RaceContext) (jar : string) (flag : bool) (params : dict),
    outcome (emit_imdtabler_page rc jar flag params) = inr tt
    /\ emit_imdtabler_page rc jar false params = ([], inr tt)
    /\ (forall e,
          check_output rc (version_command jar) = inl e ->
          emit_imdtabler_page rc jar true params
          = ([CheckOutput (version_command jar);
              LoggerException "emit_imdtabler_page exception" e],
             inr tt))
    /\ (forall out e,
          check_output rc (version_command jar) = inr out ->
          profile_frequencies rc = inl e ->
          emit_imdtabler_page rc jar true params
          = ([CheckOutput (version_command jar);
              LoggerException "emit_imdtabler_page exception" e],
             inr tt)).
Proof.
  intros rc jar flag params.
  split; [| split; [reflexivity | split]].
  - unfold emit_imdtabler_page. destruct flag; [| reflexivity].
    match goal with
    | |- outcome (try_except ?m ?h) = _ => destruct m as [t [e | []]]
    end; reflexivity.
  - intros e He. unfold emit_imdtabler_page, subprocess_check_output.
    unfold version_command in *. simpl in He |- *. rewrite He. reflexivity.
  - intros out e Ho He. unfold emit_imdtabler_page, subprocess_check_output.
    unfold version_command in *. simpl in Ho |- *. rewrite Ho, He.
    reflexivity.
Qed.

Lemma imdtabler_page_failure_witness :
  emit_imdtabler_page sample_context "IMDTabler.jar" true []
  = ([CheckOutput "java -jar IMDTabler.jar -v";
      LoggerException "emit_imdtabler_page exception" (CalledProcessError 1)],
     inr tt)
  /\ emit_imdtabler_page
       (with_frequencies (with_tool sample_context version_only_tool)
          (inl (JSONDecodeError "Expecting value")) 6)
       "IMDTabler.jar" true []
     = ([CheckOutput "java -jar IMDTabler.jar -v";
         LoggerException "emit_imdtabler_page exception"
           (JSONDecodeError "Expecting value")],
        inr tt).
Proof.
  split.
  - destruct (imdtabler_page_failure sample_context "IMDTabler.jar" true [])
      as [_ [_ [H _]]].
    apply (H (CalledProcessError 1)). reflexivity.
  - destruct (imdtabler_page_failure
                (with_frequencies (with_tool sample_context version_only_tool)
                   (inl (JSONDecodeError "Expecting value")) 6)
                "IMDTabler.jar" true [])
      as [_ [_ [_ H]]].
    apply (H ("IMDTabler 1.4" ++ String (ascii_of_nat 10) "")%string
             (JSONDecodeError "Expecting value")); reflexivity.
Defined.

(** When the version command succeeds and the frequencies parse,
    [emit_imdtabler_page] goes on as [emit_imdtabler_data] with the frequency
    list of the rating and the version without trailing white space.  Its own
    keyword parameters are not passed on: the message goes to all clients
    even when the page was asked for with [nobroadcast]. *)
Theorem imdtabler_page_sends_to_all :
  forall (rc : RaceContext) (jar : string) (params : dict)
         (out : string) (pf : Frequencies),
    check_output rc (version_command jar) = inr out ->
    profile_frequencies rc = inr pf ->
    emit_imdtabler_page rc jar true params
    = (CheckOutput (version_command jar)
       :: trace (emit_imdtabler_data rc jar (rating_fs_list rc pf)
                   (VStr (rstrip out)) []),
       inr tt)
    /\ exists t data,
         trace (emit_imdtabler_data rc jar (rating_fs_list rc pf)
                  (VStr (rstrip out)) [])
         = t ++ [SocketEmit "imdtabler_data"
                   (VDict [("freq_list",
                            VStr (join " " (rating_fs_list rc pf)));
                           ("table_data", data);
                           ("version_str", VStr (rstrip out))]) All]
         /\ filter is_emit t = [].
Proof.
  intros rc jar params out pf Ho Hpf.
  destruct (emit_imdtabler_data_shape rc jar (rating_fs_list rc pf)
              (VStr (rstrip out)) []) as [t [data [Heq Ht]]].
  split.
  - unfold emit_imdtabler_page, subprocess_check_output.
    unfold version_command in *. simpl in Ho |- *. rewrite Ho, Hpf. simpl.
    simpl in Heq. rewrite Heq. reflexivity.
  - exists t, data. rewrite Heq. split; [reflexivity | exact Ht].
Qed.

Lemma imdtabler_page_sends_to_all_witness :
  emit_imdtabler_page (with_tool sample_context version_only_tool)
    "IMDTabler.jar" true nobroadcast
  = ([CheckOutput "java -jar IMDTabler.jar -v";
      SocketEmit "imdtabler_data"
        (VDict [("freq_list", VStr "5800 5880");
                ("table_data", VNone);
                ("version_str", VStr "IMDTabler 1.4")]) All],
     inr tt)
  /\ emit_imdtabler_page (with_tool sample_context padded_version_tool)
       "IMDTabler.jar" true []
     = ([CheckOutput "java -jar IMDTabler.jar -v";
         SocketEmit "imdtabler_data"
           (VDict [("freq_list", VStr "5800 5880");
                   ("table_data", VNone);
                   ("version_str", VStr "IMDTabler 1.4")]) All],
        inr tt).
Proof.
  split.
  2: {
    destruct (imdtabler_page_sends_to_all
                (with_tool sample_context padded_version_tool)
                "IMDTabler.jar" []
                ("IMDTabler 1.4"
                 ++ String (ascii_of_nat 194) (String (ascii_of_nat 160) "")
                 ++ String (ascii_of_nat 226)
                      (String (ascii_of_nat 128)
                         (String (ascii_of_nat 131) ""))
                 ++ String (ascii_of_nat 10) "")%string
                sample_frequencies eq_refl eq_refl) as [H _].
    rewrite H. reflexivity. }
  destruct (imdtabler_page_sends_to_all
              (with_tool sample_context version_only_tool)
              "IMDTabler.jar" nobroadcast
              ("IMDTabler 1.4" ++ String (ascii_of_nat 10) "")%string
              (mkFrequencies
                 [Some "R"; Some "R"; None; Some "R"; None; Some "R"]
                 [Some 3; Some 3; None; Some 7; None; Some 3]
                 [5800; 5800; 0; 5880; 0; 5800])
              eq_refl eq_refl) as [H _].
  rewrite H. reflexivity.
Defined.

(** ** The frequency data *)

Lemma item_inside :
  forall (A : Type) (l : list A) (i : nat) (d : A),
    (i < List.length l)%nat -> item l (Z.of_nat i) = ret (nth i l d).
Proof.
  intros A l i d Hi. unfold item, getitem.
  replace ((0 <=? Z.of_nat i) && (Z.of_nat i <? Z.of_nat (List.length l)))
    with true.
  - rewrite Nat2Z.id.
    destruct (nth_error l i) as [a |] eqn:E.
    + rewrite (nth_error_nth _ _ d E). reflexivity.
    + apply nth_error_None in E. lia.
  - symmetry. apply andb_true_iff. split; [apply Z.leb_le | apply Z.ltb_lt]; lia.
Qed.

Lemma item_outside :
  forall (A : Type) (l : list A) (i : nat),
    (List.length l <= i)%nat ->
    item l (Z.of_nat i) = raise (IndexError "list index out of range").
Proof.
  intros A l i Hi. unfold item, getitem.
  replace (Z.of_nat i <? Z.of_nat (List.length l)) with false
    by (symmetry; apply Z.ltb_ge; lia).
  replace (Z.of_nat i <? 0) with false by (symmetry; apply Z.ltb_ge; lia).
  rewrite !andb_false_r. reflexivity.
Qed.

Lemma for_each_map :
  forall (A B C : Type) (f : A -> B) (body : B -> M C) (l : list A),
    for_each (map f l) body = for_each l (fun x => body (f x)).
Proof.
  intros A B C f body l. induction l as [| x l IH]; simpl.
  - reflexivity.
  - rewrite IH. reflexivity.
Qed.

Lemma for_each_all :
  forall (A B : Type) (body : A -> M B) (t : A -> list call) (g : A -> B)
         (l : list A),
    (forall x, In x l -> body x = (t x, inr (g x))) ->
    for_each l body = (List.concat (map t l), inr (map g l)).
Proof.
  intros A B body t g l. induction l as [| x l IH]; intro H; simpl.
  - reflexivity.
  - rewrite (H x (or_introl eq_refl)), IH.
    + simpl. rewrite app_nil_r. reflexivity.
    + intros y Hy. apply H. right. exact Hy.
Qed.

Lemma for_each_raises :
  forall (A B : Type) (body : A -> M B) (e : exn) (l : list A),
    (forall x, In x l ->
               (exists y, body x = ([], inr y)) \/ body x = ([], inl e)) ->
    (exists x, In x l /\ body x = ([], inl e)) ->
    for_each l body = ([], inl e).
Proof.
  intros A B body e l. induction l as [| x l IH]; intros Hall [x0 [Hin Hx0]].
  - contradiction.
  - simpl. destruct (Hall x (or_introl eq_refl)) as [[y Hy] | Hy];
      rewrite Hy; [| reflexivity].
    simpl. rewrite IH; [reflexivity | |].
    + intros z Hz. apply Hall. right. exact Hz.
    + destruct Hin as [<- | Hin]; [congruence |].
      exists x0. split; assumption.
Qed.

Lemma concat_map_nil :
  forall (A B : Type) (l : list A),
    List.concat (map (fun _ : A => @nil B) l) = [].
Proof. intros A B l. induction l as [| x l IH]; simpl; auto. Qed.

Lemma concat_map_singleton :
  forall (A B : Type) (f : A -> B) (l : list A),
    List.concat (map (fun x => [f x]) l) = map f l.
Proof.
  intros A B f l. induction l as [| x l IH]; simpl; [| rewrite IH];
    reflexivity.
Qed.

(** The body of the first loop of [emit_frequency_data] at node [i]. *)
Lemma fdata_body :
  forall pf i,
    (b <- item (freq_b pf) (Z.of_nat i) ;;
     c <- item (freq_c pf) (Z.of_nat i) ;;
     f <- item (freq_f pf) (Z.of_nat i) ;;
     ret (VDict [("band", opt_str b); ("channel", opt_int c);
                 ("frequency", VInt f)]))
    = if (i <? List.length (freq_b pf))%nat
         && (i <? List.length (freq_c pf))%nat
         && (i <? List.length (freq_f pf))%nat
      then ([], inr (fdata_entry pf i))
      else ([], inl (IndexError "list index out of range")).
Proof.
  intros pf i.
  destruct (Nat.ltb_spec i (List.length (freq_b pf))) as [Hb | Hb];
    [rewrite (item_inside _ _ _ None Hb) | rewrite (item_outside _ _ _ Hb)];
    [| reflexivity].
  destruct (Nat.ltb_spec i (List.length (freq_c pf))) as [Hc | Hc];
    [rewrite (item_inside _ _ _ None Hc) | rewrite (item_outside _ _ _ Hc)];
    [| reflexivity].
  destruct (Nat.ltb_spec i (List.length (freq_f pf))) as [Hf | Hf];
    [rewrite (item_inside _ _ _ 0 Hf) | rewrite (item_outside _ _ _ Hf)];
    reflexivity.
Qed.

(** When the three lists of the profile have an entry for every node,
    [emit_frequency_data] replies to the caller with one message under
    [nobroadcast]; otherwise it sends the [frequency_data] message to all
    clients, followed by one [frequency_set] message per node, in node
    order. *)
Theorem frequency_data_messages :
  forall (rc : RaceContext) (pf : Frequencies) (params : dict),
    profile_frequencies rc = inr pf ->
    (num_nodes rc <= List.length (freq_b pf))%nat ->
    (num_nodes rc <= List.length (freq_c pf))%nat ->
    (num_nodes rc <= List.length (freq_f pf))%nat ->
    let payload :=
      VDict [("fdata",
              VList (map (fdata_entry pf) (seq 0 (num_nodes rc))))] in
    emit_frequency_data rc params
    = (if has_key "nobroadcast" params
       then [SocketEmit "frequency_data" payload Caller]
       else SocketEmit "frequency_data" payload All
            :: map (frequency_set pf) (seq 0 (num_nodes rc)),
       inr tt).
Proof.
  intros rc pf params Hpf Hb Hc Hf payload.
  unfold emit_frequency_data. rewrite Hpf. unfold range, lift.
  cbn [bind]. rewrite !for_each_map.
  rewrite (for_each_all _ _ _ (fun _ => []) (fdata_entry pf)).
  - rewrite (for_each_all _ _ _ (fun i => [frequency_set pf i])
               (fun _ => tt)).
    + rewrite concat_map_nil, concat_map_singleton.
      destruct (has_key "nobroadcast" params); simpl.
      * reflexivity.
      * rewrite app_nil_r. reflexivity.
    + intros i Hi. apply in_seq in Hi.
      rewrite (item_inside _ _ _ 0); [reflexivity | lia].
  - intros i Hi. apply in_seq in Hi. rewrite fdata_body.
    replace (i <? List.length (freq_b pf))%nat with true
      by (symmetry; apply Nat.ltb_lt; lia).
    replace (i <? List.length (freq_c pf))%nat with true
      by (symmetry; apply Nat.ltb_lt; lia).
    replace (i <? List.length (freq_f pf))%nat with true
      by (symmetry; apply Nat.ltb_lt; lia).
    reflexivity.
Qed.

Lemma frequency_data_messages_witness :
  emit_frequency_data
    (with_frequencies sample_context (inr two_node_frequencies) 2) []
  = ([SocketEmit "frequency_data"
        (VDict
           [("fdata",
             VList
               [VDict [("band", VStr "R"); ("channel", VInt 3);
                       ("frequency", VInt 5800)];
                VDict [("band", VNone); ("channel", VNone);
                       ("frequency", VInt 0)]])]) All;
      SocketEmit "frequency_set"
        (VDict [("node", VInt 0); ("frequency", VInt 5800)]) All;
      SocketEmit "frequency_set"
        (VDict [("node", VInt 1); ("frequency", VInt 0)]) All],
     inr tt)
  /\ emit_frequency_data
       (with_frequencies sample_context (inr two_node_frequencies) 2)
       nobroadcast
     = ([SocketEmit "frequency_data"
           (VDict
              [("fdata",
                VList
                  [VDict [("band", VStr "R"); ("channel", VInt 3);
                          ("frequency", VInt 5800)];
                   VDict [("band", VNone); ("channel", VNone);
                          ("frequency", VInt 0)]])]) Caller],
        inr tt).
Proof.
  split.
  - rewrite (frequency_data_messages
               (with_frequencies sample_context (inr two_node_frequencies) 2)
               two_node_frequencies []);
      try reflexivity; simpl; lia.
  - rewrite (frequency_data_messages
               (with_frequencies sample_context (inr two_node_frequencies) 2)
               two_node_frequencies nobroadcast);
      try reflexivity; simpl; lia.
Defined.

(** [emit_frequency_data] raises and sends nothing, whatever its parameters,
    when the stored frequencies do not parse, and when one of the three
    lists of the profile is shorter than the number of nodes. *)
Theorem frequency_data_raises :
  forall (rc : RaceContext) (params : dict),
    (forall e,
       profile_frequencies rc = inl e ->
       emit_frequency_data rc params = ([], inl e))
    /\ (forall pf,
          profile_frequencies rc = inr pf ->
          (List.length (freq_b pf) < num_nodes rc)%nat
          \/ (List.length (freq_c pf) < num_nodes rc)%nat
          \/ (List.length (freq_f pf) < num_nodes rc)%nat ->
          emit_frequency_data rc params
          = ([], inl (IndexError "list index out of range"))).
Proof.
  intros rc params. split.
  - intros e He. unfold emit_frequency_data. rewrite He. reflexivity.
  - intros pf Hpf Hshort. unfold emit_frequency_data. rewrite Hpf.
    unfold range, lift. cbn [bind]. rewrite for_each_map.
    rewrite (for_each_raises _ _ _ (IndexError "list index out of range")).
    + reflexivity.
    + intros i _. rewrite fdata_body.
      destruct ((i <? List.length (freq_b pf))%nat
                && (i <? List.length (freq_c pf))%nat
                && (i <? List.length (freq_f pf))%nat);
        [left; eexists; reflexivity | right; reflexivity].
    + set (m := Nat.min (List.length (freq_b pf))
                  (Nat.min (List.length (freq_c pf))
                           (List.length (freq_f pf)))).
      exists m. split; [apply in_seq; lia |].
      rewrite fdata_body.
      destruct (Nat.ltb_spec m (List.length (freq_b pf)));
        destruct (Nat.ltb_spec m (List.length (freq_c pf)));
        destruct (Nat.ltb_spec m (List.length (freq_f pf)));
        simpl; try reflexivity; lia.
Qed.

Lemma frequency_data_raises_witness :
  emit_frequency_data
    (with_frequencies sample_context (inr two_node_frequencies) 3) []
  = ([], inl (IndexError "list index out of range"))
  /\ emit_frequency_data
       (with_frequencies sample_context
          (inl (JSONDecodeError "Expecting value")) 2) nobroadcast
     = ([], inl (JSONDecodeError "Expecting value")).
Proof.
  split.
  - destruct (frequency_data_raises
                (with_frequencies sample_context (inr two_node_frequencies) 3)
                []) as [_ H].
    apply (H two_node_frequencies); [reflexivity | left; simpl; lia].
  - destruct (frequency_data_raises
                (with_frequencies sample_context
                   (inl (JSONDecodeError "Expecting value")) 2)
                nobroadcast) as [H _].
    apply H. reflexivity.
Defined.

(** ** Laps and split passes *)

Lemma emit_current_laps_to_all :
  forall rs,
    emit_current_laps rs []
    = ([SocketEmit "current_laps" (current_laps_payload rs) All], inr tt).
Proof.
  intro rs. unfold emit_current_laps, current_laps_payload.
  destruct (last_race rs); reflexivity.
Qed.

(** [emit_split_pass_info] first sends the current laps to all clients and
    then the phonetic split call.  For a pilot that is not stored the laps
    are still sent, and then the call raises: the caller gets an exception
    after one of the two messages went out. *)
Theorem split_pass_info_laps_then_call :
  forall (rc : RaceContext) (rs : RaceState) (pilot_id split_id : Z)
         (split_time : value),
    (get_pilot rc pilot_id = None ->
     emit_split_pass_info rc rs pilot_id split_id split_time
     = ([SocketEmit "current_laps" (current_laps_payload rs) All],
        inl (AttributeError
               "'NoneType' object has no attribute 'phonetic'")))
    /\ (forall pilot,
          get_pilot rc pilot_id = Some pilot ->
          emit_split_pass_info rc rs pilot_id split_id split_time
          = ([SocketEmit "current_laps" (current_laps_payload rs) All;
              SocketEmit "phonetic_split_call"
                (VDict
                   [("pilot_name",
                     VStr (if String.eqb (Pilot.phonetic pilot) ""
                           then Pilot.callsign pilot
                           else Pilot.phonetic pilot));
                    ("split_id", VStr (str (split_id + 1)));
                    ("split_time",
                     VStr (phonetictime_format rc split_time
                             (get_option rc "timeFormatPhonetic")))])
                All],
             inr tt)).
Proof.
  intros rc rs pilot_id split_id split_time.
  unfold emit_split_pass_info. rewrite emit_current_laps_to_all.
  split.
  - intro H. unfold emit_phonetic_split. rewrite H. reflexivity.
  - intros pilot H. unfold emit_phonetic_split. rewrite H. reflexivity.
Qed.

Lemma split_pass_info_laps_then_call_witness :
  emit_split_pass_info sample_context sample_state 7 0 (VInt 1234)
  = ([SocketEmit "current_laps"
        (VDict [("current", VDict [("node_index", VList [])])]) All],
     inl (AttributeError "'NoneType' object has no attribute 'phonetic'"))
  /\ emit_split_pass_info sample_context after_deleted_heat 2 0 (VInt 1234)
     = ([SocketEmit "current_laps"
           (VDict [("current", VStr "laps-1"); ("last_race", VStr "laps-9")])
           All;
         SocketEmit "phonetic_split_call"
           (VDict [("pilot_name", VStr "Alpha"); ("split_id", VStr "1");
                   ("split_time", VStr "12.3")]) All],
        inr tt).
Proof.
  split.
  - destruct (split_pass_info_laps_then_call sample_context sample_state
                7 0 (VInt 1234)) as [H _].
    apply H. reflexivity.
  - destruct (split_pass_info_laps_then_call sample_context
                after_deleted_heat 2 0 (VInt 1234)) as [_ H].
    apply (H (Pilot.mk 2 "Alpha" "B" "" "Bob" (VBool true)
                (VStr "#00ff00"))).
    reflexivity.
Defined.

(** ** The leaderboard *)

(** A heat that is not stored any more is treated in two ways by
    [emit_current_leaderboard].  When it is the heat of the running race the
    call raises and nothing is sent.  When it is the heat of the last race
    the message is sent, and the entry of the last race has no display
    name. *)
Theorem leaderboard_deleted_heat :
  forall (rc : RaceContext) (rs : RaceState) (params : dict),
    (RHRace.current_heat (race rs) <> HEAT_ID_NONE rs ->
     get_heat rc (RHRace.current_heat (race rs)) = None ->
     emit_current_leaderboard rc rs params
     = ([], inl (AttributeError
                   "'NoneType' object has no attribute 'displayname'")))
    /\ (forall displayname last,
          current_displayname rc rs (RHRace.current_heat (race rs))
          = ret displayname ->
          last_race rs = Some last ->
          RHRace.current_heat last <> HEAT_ID_NONE rs ->
          get_heat rc (RHRace.current_heat last) = None ->
          emit_current_leaderboard rc rs params
          = ([SocketEmit "leaderboard"
                (VDict
                   [("current",
                     VDict (("displayname", displayname)
                            :: leaderboard_entries (race rs)));
                    ("last_race", VDict (leaderboard_entries last))])
                (if has_key "nobroadcast" params then Caller else All)],
             inr tt)
          /\ has_key "displayname" (leaderboard_entries last) = false).
Proof.
  intros rc rs params. split.
  - intros Hne Hnone. unfold emit_current_leaderboard, current_displayname.
    apply Z.eqb_neq in Hne. rewrite Hne, Hnone. reflexivity.
  - intros displayname last Hd Hlast Hne Hnone. split.
    + unfold emit_current_leaderboard. rewrite Hd, Hlast.
      unfold last_displayname. apply Z.eqb_neq in Hne. rewrite Hne, Hnone.
      simpl. destruct (has_key "nobroadcast" params); reflexivity.
    + unfold leaderboard_entries.
      destruct (RHRace.team_racing_mode last); reflexivity.
Qed.

Lemma leaderboard_deleted_heat_witness :
  emit_current_leaderboard sample_context on_deleted_heat []
  = ([], inl (AttributeError
                "'NoneType' object has no attribute 'displayname'"))
  /\ emit_current_leaderboard sample_context after_deleted_heat []
     = ([SocketEmit "leaderboard"
           (VDict
              [("current",
                VDict [("displayname", VStr "Heat 1"); ("heat", VInt 1);
                       ("status_msg", VStr "racing");
                       ("leaderboard", VStr "results-1")]);
               ("last_race",
                VDict [("heat", VInt 9); ("status_msg", VStr "done");
                       ("leaderboard", VStr "results-9");
                       ("team_leaderboard", VStr "teams-9")])])
           All],
        inr tt).
Proof.
  split.
  - destruct (leaderboard_deleted_heat sample_context on_deleted_heat [])
      as [H _].
    apply H; [discriminate | reflexivity].
  - destruct (leaderboard_deleted_heat sample_context after_deleted_heat [])
      as [_ H].
    apply (H (VStr "Heat 1")
             (RHRace.mk 9 (VStr "done") (VStr "results-9")
                (VStr "laps-9") (VStr "teams-9") true));
      [reflexivity | reflexivity | discriminate | reflexivity].
Defined.

(** ** Dictionaries built by loops *)

Lemma str_eqb : forall i j, String.eqb (str i) (str j) = (i =? j).
Proof.
  intros i j. destruct (Z.eqb_spec i j) as [-> | Hne].
  - apply String.eqb_refl.
  - apply String.eqb_neq. intro H. apply Hne, str_inj, H.
Qed.

Lemma dict_set_fresh :
  forall k v d, ~ In k (keys d) -> dict_set k v d = d ++ [(k, v)].
Proof.
  intros k v d. induction d as [| [k' v'] d IH]; intro H; simpl.
  - reflexivity.
  - destruct (String.eqb_spec k k') as [-> | Hne].
    + exfalso. apply H. left. reflexivity.
    + rewrite IH; [reflexivity |]. intro Hin. apply H. right. exact Hin.
Qed.

Lemma dict_set_replace :
  forall k v v0 d1 d2,
    ~ In k (keys d1) ->
    dict_set k v (d1 ++ (k, v0) :: d2) = d1 ++ (k, v) :: d2.
Proof.
  intros k v v0 d1 d2. induction d1 as [| [k' v'] d1 IH]; intro H; simpl.
  - rewrite String.eqb_refl. reflexivity.
  - destruct (String.eqb_spec k k') as [-> | Hne].
    + exfalso. apply H. left. reflexivity.
    + rewrite IH; [reflexivity |]. intro Hin. apply H. right. exact Hin.
Qed.

Section KeyedLoops.

Variable I : Type.
Variable kf : I -> string.
Hypothesis kf_inj : forall i j, kf i = kf j -> i = j.

Lemma keys_entries :
  forall (e : I -> value) (l : list I),
    keys (map (fun i => (kf i, e i)) l) = map kf l.
Proof.
  intros e l. unfold keys. rewrite map_map. reflexivity.
Qed.

Lemma kf_in : forall i l, In (kf i) (map kf l) -> In i l.
Proof.
  intros i l H. apply in_map_iff in H. destruct H as [j [Hj Hin]].
  apply kf_inj in Hj. subst j. exact Hin.
Qed.

(** Assigning to new keys, one after the other, appends the entries. *)
Lemma fold_build :
  forall (e : I -> value) (l : list I) (d0 : dict),
    NoDup l ->
    (forall i, In i l -> ~ In (kf i) (keys d0)) ->
    fold_left (fun d i => dict_set (kf i) (e i) d) l d0
    = d0 ++ map (fun i => (kf i, e i)) l.
Proof.
  intros e l. induction l as [| i l IH]; intros d0 Hnd Hfresh; simpl.
  - rewrite app_nil_r. reflexivity.
  - inversion Hnd as [| ? ? Hi Hl]; subst.
    rewrite dict_set_fresh by (apply Hfresh; left; reflexivity).
    rewrite IH; [rewrite <- app_assoc; reflexivity | exact Hl |].
    intros j Hj Hin. unfold keys in Hin. rewrite map_app in Hin.
    apply in_app_or in Hin. destruct Hin as [Hin | Hin].
    + apply (Hfresh j); [right; exact Hj | exact Hin].
    + simpl in Hin. destruct Hin as [Hin | []].
      apply kf_inj in Hin. subst j. contradiction.
Qed.

(** Assigning to the keys that are there, in their order, replaces every
    value in place. *)
Lemma fold_replace :
  forall (e g : I -> value) (q p : list I),
    NoDup (p ++ q) ->
    fold_left (fun d i => dict_set (kf i) (g i) d) q
      (map (fun i => (kf i, g i)) p ++ map (fun i => (kf i, e i)) q)
    = map (fun i => (kf i, g i)) (p ++ q).
Proof.
  intros e g q. induction q as [| i q IH]; intros p Hnd; simpl.
  - rewrite !app_nil_r. reflexivity.
  - rewrite dict_set_replace.
    + replace (map (fun i => (kf i, g i)) p
               ++ (kf i, g i) :: map (fun i => (kf i, e i)) q)
        with (map (fun i => (kf i, g i)) (p ++ [i])
              ++ map (fun i => (kf i, e i)) q)
        by (rewrite map_app, <- app_assoc; reflexivity).
      rewrite IH; rewrite <- app_assoc; [reflexivity | exact Hnd].
    + rewrite keys_entries. intro Hin. apply kf_in in Hin.
      apply NoDup_remove_2 in Hnd. apply Hnd.
      apply in_or_app. left. exact Hin.
Qed.

End KeyedLoops.

Lemma node_key_inj :
  forall i j : nat, str (Z.of_nat i) = str (Z.of_nat j) -> i = j.
Proof. intros i j H. apply str_inj in H. lia. Qed.

Lemma fold_left_map_arg :
  forall (A B C : Type) (f : A -> C -> A) (h : B -> C) (l : list B) (a : A),
    fold_left f (map h l) a = fold_left (fun a x => f a (h x)) l a.
Proof.
  intros A B C f h l. induction l as [| x l IH]; intro a; simpl.
  - reflexivity.
  - apply IH.
Qed.

(** The first loop of [emit_current_heat] gives the empty entries of the
    nodes, in node order. *)
Lemma empty_heatNodes_entries :
  forall rc,
    empty_heatNodes rc
    = map (fun i => (str (Z.of_nat i), empty_heatNode))
          (seq 0 (num_nodes rc)).
Proof.
  intro rc. unfold empty_heatNodes, range. rewrite fold_left_map_arg.
  rewrite (fold_build nat (fun i => str (Z.of_nat i)) node_key_inj
             (fun _ => empty_heatNode)).
  - reflexivity.
  - apply seq_NoDup.
  - intros i _ [].
Qed.

(** ** The current heat *)

Lemma dict_get_node_entries :
  forall (i : Z) (e : nat -> value) (l : list nat),
    dict_get (str i) (map (fun j => (str (Z.of_nat j), e j)) l)
    = option_map e (find (fun j => i =? Z.of_nat j) l).
Proof.
  intros i e l. induction l as [| j l IH]; simpl.
  - reflexivity.
  - rewrite str_eqb. destruct (i =? Z.of_nat j); [reflexivity | exact IH].
Qed.

Lemma find_last :
  forall (A : Type) (f : A -> bool) (l : list A) (x : A),
    find f (l ++ [x])
    = match find f l with
      | Some y => Some y
      | None => if f x then Some x else None
      end.
Proof.
  intros A f l x. induction l as [| y l IH]; simpl.
  - reflexivity.
  - destruct (f y); [reflexivity | exact IH].
Qed.

Lemma find_in_seq :
  forall (i : Z) (n : nat),
    find (fun j => i =? Z.of_nat j) (seq 0 n)
    = if (0 <=? i) && (i <? Z.of_nat n) then Some (Z.to_nat i) else None.
Proof.
  intros i n. induction n as [| n IH].
  - simpl. destruct (Z.leb_spec 0 i), (Z.ltb_spec i 0); simpl;
      try reflexivity; exfalso; lia.
  - rewrite seq_S, find_last, IH, Nat2Z.inj_succ. cbn [Nat.add].
    destruct (Z.leb_spec 0 i), (Z.ltb_spec i (Z.of_nat n)),
             (Z.ltb_spec i (Z.succ (Z.of_nat n))),
             (Z.eqb_spec i (Z.of_nat n));
      cbn [andb]; try reflexivity; try (exfalso; lia).
    subst i. rewrite Nat2Z.id. reflexivity.
Qed.

Lemma empty_heatNodes_lookup :
  forall rc i,
    dict_get (str i) (empty_heatNodes rc)
    = if (0 <=? i) && (i <? Z.of_nat (num_nodes rc))
      then Some empty_heatNode else None.
Proof.
  intros rc i. rewrite empty_heatNodes_entries, dict_get_node_entries.
  rewrite find_in_seq.
  destruct ((0 <=? i) && (i <? Z.of_nat (num_nodes rc))); reflexivity.
Qed.

Lemma last_heatNode_app :
  forall i nodes n,
    last_heatNode i (nodes ++ [n])
    = match HeatNode.node_index n with
      | Some j => if j =? i then Some n else last_heatNode i nodes
      | None => last_heatNode i nodes
      end.
Proof.
  intros i nodes n. unfold last_heatNode. rewrite fold_left_app.
  reflexivity.
Qed.

Lemma heatNodes_loop_lookup :
  forall rc rs i nodes d,
    dict_get (str i)
      (fold_left
         (fun d heatNode =>
            match HeatNode.node_index heatNode with
            | Some j => dict_set (str j) (heatNode_entry rc rs heatNode j) d
            | None => d
            end)
         nodes d)
    = match last_heatNode i nodes with
      | Some n => Some (heatNode_entry rc rs n i)
      | None => dict_get (str i) d
      end.
Proof.
  intros rc rs i nodes.
  induction nodes as [| n nodes IH] using rev_ind; intro d.
  - reflexivity.
  - rewrite fold_left_app, last_heatNode_app. simpl.
    destruct (HeatNode.node_index n) as [j |]; [| apply IH].
    rewrite dict_get_set, str_eqb, Z.eqb_sym, IH.
    destruct (Z.eqb_spec j i) as [-> | _]; reflexivity.
Qed.

(** The entry of node index [i] in the [heatNodes] dictionary of a heat is
    the entry of the last heat node of the heat with that node index; without
    such a heat node it is the empty entry when [i] is a node of the timer,
    and there is no entry otherwise.  Heat nodes without node index add
    nothing, and a heat node with a node index beyond the timer's nodes adds
    an entry. *)
Theorem current_heat_node_lookup :
  forall (rc : RaceContext) (rs : RaceState) (heat_id i : Z),
    dict_get (str i) (heat_heatNodes rc rs heat_id)
    = match last_heatNode i (get_heatNodes_by_heat rc heat_id) with
      | Some n => Some (heatNode_entry rc rs n i)
      | None =>
          if (0 <=? i) && (i <? Z.of_nat (num_nodes rc))
          then Some empty_heatNode else None
      end.
Proof.
  intros rc rs heat_id i. unfold heat_heatNodes.
  rewrite heatNodes_loop_lookup, empty_heatNodes_lookup. reflexivity.
Qed.

(** Whether [emit_current_heat] succeeds for a stored heat depends on the
    class of the heat only, never on the pilots: without class, and with a
    stored class, the message is sent; with a class that is not stored the
    call raises and nothing is sent.  The entry of a heat node whose pilot is
    not stored keeps the pilot id and has no call sign and no pilot
    colour. *)
Theorem current_heat_missing_entities :
  forall (rc : RaceContext) (rs : RaceState) (params : dict) (heat : Heat.t),
    get_heat rc (RHRace.current_heat (race rs)) = Some heat ->
    let message heat_format :=
      SocketEmit "current_heat"
        (VDict
           [("current_heat", VInt (RHRace.current_heat (race rs)));
            ("heatNodes",
             VDict (heat_heatNodes rc rs (RHRace.current_heat (race rs))));
            ("heat_format", heat_format);
            ("heat_class", Heat.class_id heat)])
        (if has_key "nobroadcast" params then Caller else All) in
    (has_class rs (Heat.class_id heat) = false ->
     emit_current_heat rc rs params = ([message VNone], inr tt))
    /\ (forall c,
          has_class rs (Heat.class_id heat) = true ->
          get_raceClass rs (Heat.class_id heat) = Some c ->
          emit_current_heat rc rs params
          = ([message (RaceClass.format_id c)], inr tt))
    /\ (has_class rs (Heat.class_id heat) = true ->
        get_raceClass rs (Heat.class_id heat) = None ->
        emit_current_heat rc rs params
        = ([], inl (AttributeError
                      "'NoneType' object has no attribute 'format_id'")))
    /\ (forall n i,
          get_pilot_of rc (HeatNode.pilot_id n) = None ->
          heatNode_entry rc rs n i
          = VDict [("pilot_id", HeatNode.pilot_id n);
                   ("callsign", VNone);
                   ("heatNodeColor", HeatNode.color n);
                   ("pilotColor", VNone);
                   ("activeColor",
                    if led_manager_isEnabled rc then getDisplayColor rs i
                    else VNone)]).
Proof.
  intros rc rs params heat Hheat message.
  split; [| split; [| split]].
  - intro Hc. unfold emit_current_heat. rewrite Hheat, Hc. simpl.
    unfold message. destruct (has_key "nobroadcast" params); reflexivity.
  - intros c Hc Hget. unfold emit_current_heat. rewrite Hheat, Hc, Hget.
    simpl. unfold message.
    destruct (has_key "nobroadcast" params); reflexivity.
  - intros Hc Hget. unfold emit_current_heat. rewrite Hheat, Hc, Hget.
    reflexivity.
  - intros n i Hp. unfold heatNode_entry. rewrite Hp. reflexivity.
Qed.

Lemma current_heat_missing_entities_witness :
  emit_current_heat missing_pilot_context no_class_state []
  = ([], inl (AttributeError
                "'NoneType' object has no attribute 'format_id'"))
  /\ outcome (emit_current_heat missing_pilot_context after_deleted_heat
                nobroadcast) = inr tt
  /\ dict_get "1" (heat_heatNodes missing_pilot_context after_deleted_heat 1)
     = Some (VDict [("pilot_id", VInt 99); ("callsign", VNone);
                    ("heatNodeColor", VStr "#123456");
                    ("pilotColor", VNone); ("activeColor", VNone)]).
Proof.
  pose (heat := Heat.mk 1 (VStr "qualifier") "Heat 1" (VInt 1) (VInt 0)
                  (VInt 0) (VBool false)).
  split; [| split].
  - destruct (current_heat_missing_entities missing_pilot_context
                no_class_state [] heat eq_refl) as [_ [_ [H _]]].
    apply H; reflexivity.
  - destruct (current_heat_missing_entities missing_pilot_context
                after_deleted_heat nobroadcast heat eq_refl)
      as [_ [H _]].
    rewrite (H (RaceClass.mk 1 (VInt 5))); reflexivity.
  - destruct (current_heat_missing_entities missing_pilot_context
                after_deleted_heat [] heat eq_refl) as [_ [_ [_ H]]].
    transitivity
      (Some (heatNode_entry missing_pilot_context after_deleted_heat
               (HeatNode.mk 30 1 (Some 1) (VInt 99) (VStr "#123456") 0
                  VNone VNone) 1)).
    + change "1" with (str 1).
      rewrite (current_heat_node_lookup missing_pilot_context
                 after_deleted_heat 1 1).
      reflexivity.
    + rewrite H by reflexivity. reflexivity.
Defined.

Lemma node_callsign_inside :
  forall pf i,
    (i < List.length (freq_b pf))%nat ->
    (i < List.length (freq_c pf))%nat ->
    (i < List.length (freq_f pf))%nat ->
    node_callsign pf (Z.of_nat i) = ret (practice_callsign pf i).
Proof.
  intros pf i Hb Hc Hf. unfold node_callsign, practice_callsign.
  rewrite (item_inside _ _ _ None Hb), (item_inside _ _ _ None Hc),
          (item_inside _ _ _ 0 Hf).
  destruct (nth i (freq_b pf) None) as [s |]; [| reflexivity].
  unfold ret. cbn [bind app].
  destruct (String.eqb s ""); cbn [bind app negb andb].
  - destruct (nth i (freq_c pf) None); reflexivity.
  - destruct (nth i (freq_c pf) None) as [n |]; [| reflexivity].
    destruct (n =? 0); reflexivity.
Qed.

(** Without a stored heat for the current heat id the timer is in practice
    mode.  When the profile has band, channel and frequency for every node,
    [emit_current_heat] sends one entry per node, in node order: the call
    sign is band and channel when both are set and the frequency otherwise,
    the colour is the display colour of the node, and there is no [pilot_id]
    key.  The heat class is [CLASS_ID_NONE] and there is no heat format. *)
Theorem current_heat_practice :
  forall (rc : RaceContext) (rs : RaceState) (params : dict)
         (pf : Frequencies),
    get_heat rc (RHRace.current_heat (race rs)) = None ->
    profile_frequencies rc = inr pf ->
    (num_nodes rc <= List.length (freq_b pf))%nat ->
    (num_nodes rc <= List.length (freq_c pf))%nat ->
    (num_nodes rc <= List.length (freq_f pf))%nat ->
    emit_current_heat rc rs params
    = ([SocketEmit "current_heat"
          (VDict
             [("current_heat", VInt (RHRace.current_heat (race rs)));
              ("heatNodes",
               VDict
                 (map (fun i =>
                         (str (Z.of_nat i),
                          practice_entry rs (Z.of_nat i)
                            (practice_callsign pf i)))
                      (seq 0 (num_nodes rc))));
              ("heat_format", VNone);
              ("heat_class", VInt (CLASS_ID_NONE rs))])
          (if has_key "nobroadcast" params then Caller else All)],
       inr tt)
    /\ (forall idx callsign,
          exists entries,
            practice_entry rs idx callsign = VDict entries
            /\ has_key "pilot_id" entries = false).
Proof.
  intros rc rs params pf Hheat Hpf Hb Hc Hf. split.
  - unfold emit_current_heat. rewrite Hheat, Hpf. unfold range, lift.
    cbn [bind]. rewrite for_each_map.
    rewrite (for_each_all _ _ _ (fun _ => [])
               (fun i => (Z.of_nat i,
                          practice_entry rs (Z.of_nat i)
                            (practice_callsign pf i)))).
    + rewrite concat_map_nil. cbn [bind ret app].
      rewrite fold_left_map_arg. cbn [fst snd].
      rewrite empty_heatNodes_entries.
      pose proof (fold_replace nat (fun i => str (Z.of_nat i)) node_key_inj
                    (fun _ => empty_heatNode)
                    (fun i => practice_entry rs (Z.of_nat i)
                                (practice_callsign pf i))
                    (seq 0 (num_nodes rc)) [] (seq_NoDup _ _)) as Hr.
      cbn [map app] in Hr. rewrite Hr.
      destruct (has_key "nobroadcast" params); reflexivity.
    + intros i Hi. apply in_seq in Hi.
      rewrite node_callsign_inside by lia. reflexivity.
  - intros idx callsign. eexists. split; reflexivity.
Qed.

Lemma current_heat_practice_witness :
  emit_current_heat
    (with_frequencies sample_context (inr two_node_frequencies) 2)
    on_deleted_heat []
  = ([SocketEmit "current_heat"
        (VDict
           [("current_heat", VInt 9);
            ("heatNodes",
             VDict
               [("0",
                 VDict [("callsign", VStr "R3"); ("heatNodeColor", VNone);
                        ("pilotColor", VNone); ("activeColor", VInt 0)]);
                ("1",
                 VDict [("callsign", VStr "0"); ("heatNodeColor", VNone);
                        ("pilotColor", VNone); ("activeColor", VInt 16)])]);
            ("heat_format", VNone);
            ("heat_class", VInt 0)])
        All],
     inr tt).
Proof.
  destruct (current_heat_practice
              (with_frequencies sample_context (inr two_node_frequencies) 2)
              on_deleted_heat [] two_node_frequencies eq_refl eq_refl)
    as [H _];
    [simpl; lia | simpl; lia | simpl; lia | rewrite H; reflexivity].
Defined.

(** ** Phonetic data for a node without pilot *)

(** For a pilot that is not stored and a given node, [emit_phonetic_data]
    names the node: [pilot] and [callsign] are band and channel of the node
    when both are set and its frequency otherwise, and [pilot_id] is [None].
    Only this case reads the stored frequencies: when they do not parse the
    call raises and sends nothing, while the same call for a stored pilot
    sends its message. *)
Theorem phonetic_data_names_the_node :
  forall (rc : RaceContext) (pilot_id : Z)
         (lap_id lap_time team_name team_laps leader_flag node_finished : value)
         (i : nat) (params : dict),
    let fixed :=
      [("lap", lap_id); ("raw_time", lap_time);
       ("phonetic",
        VStr (phonetictime_format rc lap_time
                (get_option rc "timeFormatPhonetic")));
       ("team_name", team_name); ("team_laps", team_laps);
       ("leader_flag", leader_flag); ("node_finished", node_finished)] in
    let call :=
      emit_phonetic_data rc pilot_id lap_id lap_time team_name team_laps
        leader_flag node_finished (Some (Z.of_nat i)) params in
    let to := if has_key "nobroadcast" params then Caller else All in
    (forall pf,
       get_pilot rc pilot_id = None ->
       profile_frequencies rc = inr pf ->
       (i < List.length (freq_b pf))%nat ->
       (i < List.length (freq_c pf))%nat ->
       (i < List.length (freq_f pf))%nat ->
       call
       = ([SocketEmit "phonetic_data"
             (VDict (fixed
                     ++ [("pilot", VStr (practice_callsign pf i));
                         ("callsign", VStr (practice_callsign pf i));
                         ("pilot_id", VNone)])) to],
          inr tt))
    /\ (forall e,
          get_pilot rc pilot_id = None ->
          profile_frequencies rc = inl e ->
          call = ([], inl e))
    /\ (forall pilot,
          get_pilot rc pilot_id = Some pilot ->
          call
          = ([SocketEmit "phonetic_data"
                (VDict (fixed
                        ++ [("pilot", VStr (Pilot.phonetic pilot));
                            ("callsign", VStr (Pilot.callsign pilot));
                            ("pilot_id", VInt (Pilot.id pilot))])) to],
             inr tt)).
Proof.
  intros rc pilot_id lap_id lap_time team_name team_laps leader_flag
         node_finished i params fixed call to.
  unfold call, to, fixed, emit_phonetic_data.
  split; [| split].
  - intros pf Hp Hpf Hb Hc Hf. rewrite Hp, Hpf. unfold lift. cbn [bind].
    rewrite (node_callsign_inside pf i Hb Hc Hf). simpl.
    destruct (has_key "nobroadcast" params); reflexivity.
  - intros e Hp He. rewrite Hp, He. reflexivity.
  - intros pilot Hp. rewrite Hp. simpl.
    destruct (has_key "nobroadcast" params); reflexivity.
Qed.

Lemma phonetic_data_names_the_node_witness :
  emit_phonetic_data sample_context 7 (VInt 1) (VInt 1234) VNone VNone
    (VBool false) (VBool false) (Some 3) []
  = ([SocketEmit "phonetic_data"
        (VDict
           [("lap", VInt 1); ("raw_time", VInt 1234);
            ("phonetic", VStr "12.3");
            ("team_name", VNone); ("team_laps", VNone);
            ("leader_flag", VBool false); ("node_finished", VBool false);
            ("pilot", VStr "R7"); ("callsign", VStr "R7");
            ("pilot_id", VNone)]) All],
     inr tt)
  /\ emit_phonetic_data
       (with_frequencies sample_context
          (inl (JSONDecodeError "Expecting value")) 6)
       7 (VInt 1) (VInt 1234) VNone VNone (VBool false) (VBool false)
       (Some 3) []
     = ([], inl (JSONDecodeError "Expecting value"))
  /\ outcome
       (emit_phonetic_data
          (with_frequencies sample_context
             (inl (JSONDecodeError "Expecting value")) 6)
          2 (VInt 1) (VInt 1234) VNone VNone (VBool false) (VBool false)
          (Some 3) [])
     = inr tt.
Proof.
  split; [| split].
  - destruct (phonetic_data_names_the_node sample_context 7 (VInt 1)
                (VInt 1234) VNone VNone (VBool false) (VBool false) 3%nat [])
      as [H _].
    apply (H (mkFrequencies
                [Some "R"; Some "R"; None; Some "R"; None; Some "R"]
                [Some 3; Some 3; None; Some 7; None; Some 3]
                [5800; 5800; 0; 5880; 0; 5800]));
      try reflexivity; simpl; lia.
  - destruct (phonetic_data_names_the_node
                (with_frequencies sample_context
                   (inl (JSONDecodeError "Expecting value")) 6)
                7 (VInt 1) (VInt 1234) VNone VNone (VBool false)
                (VBool false) 3%nat []) as [_ [H _]].
    apply H; reflexivity.
  - destruct (phonetic_data_names_the_node
                (with_frequencies sample_context
                   (inl (JSONDecodeError "Expecting value")) 6)
                2 (VInt 1) (VInt 1234) VNone VNone (VBool false)
                (VBool false) 3%nat []) as [_ [_ H]].
    change (Some 3) with (Some (Z.of_nat 3)).
    rewrite (H (Pilot.mk 2 "Alpha" "B" "" "Bob" (VBool true)
                  (VStr "#00ff00"))); reflexivity.
Defined.
